(** * BT Sport video plugin: content resolution pipeline

    A shallow embedding of [resources/lib/video.py] and
    [resources/lib/live.py] (Python 2.7), and the properties of the
    catalogue extractor, the search client and the live authentication
    chain.

    Python values are embedded as an inductive type, exceptions as a sum
    type, the network as an oracle threaded through a small state and
    error monad that logs every request issued, and Python floats as the
    binary64 instance of the Standard Library's [SpecFloat]. *)

From Stdlib Require Import ZArith Lia Ascii String List.
From Stdlib Require Import SpecFloat DecimalString.
From stdpp Require Import base option list strings gmap fin_maps.

Set Warnings "-register-all".

(** ** Python values *)

Module Py.

(** The values [ast.literal_eval] and the JSON decoder can produce, plus
    the [datetime.date] objects the video mapping creates.  Integers are
    unbounded ([int] and [long] alike); dictionaries have string keys, as
    every literal and JSON object of the site has. *)
Inductive pyval : Type :=
| PNone
| PBool (b : bool)
| PInt (z : Z)
| PFloat (f : spec_float)
| PStr (s : string)
| PList (l : list pyval)
| PTuple (l : list pyval)
| PDict (d : gmap string pyval)
| PDate (year month day : Z).

(** The exceptions the modelled code can raise. *)
Inductive exn : Type :=
| KeyError (key : string)
| TypeError
| AttributeError
| ValueError
| OverflowError
| ZeroDivisionError
| SyntaxError
| RequestException
| BTError (errno strerror : pyval).

Inductive result (A : Type) : Type :=
| Ok (a : A)
| Raise (e : exn).
Global Arguments Ok {A} a.
Global Arguments Raise {A} e.

Definition rbind {A B} (r : result A) (k : A → result B) : result B :=
  match r with
  | Ok a => k a
  | Raise e => Raise e
  end.

#[global] Instance result_ret : MRet result := fun A a => Ok a.
#[global] Instance result_bind : MBind result := fun A B k r => rbind r k.
#[global] Instance result_fmap : FMap result :=
  fun A B f r => rbind r (fun a => Ok (f a)).

(** *** Truth value testing *)

(** [bool(v)]: [None], [False], zero of any numeric type and empty
    strings and containers are false, everything else is true. *)
Definition truthy (v : pyval) : bool :=
  match v with
  | PNone => false
  | PBool b => b
  | PInt z => negb (z =? 0)%Z
  | PFloat (S754_zero _) => false
  | PFloat _ => true
  | PStr EmptyString => false
  | PStr _ => true
  | PList [] | PTuple [] => false
  | PList _ | PTuple _ => true
  | PDict d => negb (bool_decide (d = ∅))
  | PDate _ _ _ => true
  end.

(** [a or b], with both operands already evaluated. *)
Definition py_or (a b : pyval) : pyval := if truthy a then a else b.

(** [a and b]: the right operand is evaluated only when [a] is true. *)
Definition py_and (a : pyval) (b : result pyval) : result pyval :=
  if truthy a then b else Ok a.

(** *** Subscription and dictionary methods *)

(** [v[key]] for a string [key]: only dictionaries can be subscripted by
    a string; everything else raises [TypeError]. *)
Definition getitem (v : pyval) (key : string) : result pyval :=
  match v with
  | PDict d =>
      match d !! key with
      | Some x => Ok x
      | None => Raise (KeyError key)
      end
  | _ => Raise TypeError
  end.

(** [v.get(key)]: a method of dictionaries only. *)
Definition dict_get (v : pyval) (key : string) : result pyval :=
  match v with
  | PDict d => Ok (default PNone (d !! key))
  | _ => Raise AttributeError
  end.

(** The elements a [for] loop visits.  CPython 2 iterates a dictionary
    in hash order; the model fixes the order of [map_to_list]. *)
Definition py_iter (v : pyval) : result (list pyval) :=
  match v with
  | PList l | PTuple l => Ok l
  | PStr s =>
      Ok ((fun c => PStr (String c EmptyString)) <$> String.list_ascii_of_string s)
  | PDict d => Ok ((fun kv => PStr kv.1) <$> map_to_list d)
  | _ => Raise TypeError
  end.

(** *** Strings *)

Definition dq : string := String "034" EmptyString.
Definition comma : ascii := ",".
Definition tab : ascii := "009".
Definition lbrace : ascii := "{".
Definition rbrace : ascii := "}".

(** [s.split(sep)] for a one-character separator. *)
Fixpoint split_on (sep : ascii) (s : string) : list string :=
  match s with
  | EmptyString => [EmptyString]
  | String c s' =>
      if Ascii.eqb c sep then EmptyString :: split_on sep s'
      else match split_on sep s' with
           | h :: t => String c h :: t
           | [] => [String c EmptyString]
           end
  end.

(** A string without a given character. *)
Fixpoint lacks (c : ascii) (s : string) : bool :=
  match s with
  | EmptyString => true
  | String a s' => negb (Ascii.eqb a c) && lacks c s'
  end.

(** [sep.join(l)] *)
Fixpoint join (sep : string) (l : list string) : string :=
  match l with
  | [] => EmptyString
  | [x] => x
  | x :: l' => x +:+ sep +:+ join sep l'
  end.

(** [v.split(',')]: a method of strings only. *)
Definition str_split (v : pyval) (sep : ascii) : result (list string) :=
  match v with
  | PStr s => Ok (split_on sep s)
  | _ => Raise AttributeError
  end.

(** [s[:n]] *)
Definition str_take (n : nat) (s : string) : string := String.substring 0 n s.

Fixpoint strip_prefix (p s : string) : option string :=
  match p, s with
  | EmptyString, _ => Some s
  | String a p', String b s' => if Ascii.eqb a b then strip_prefix p' s' else None
  | String _ _, EmptyString => None
  end.

(** The text before the first tab, when there is one: what the lazy
    group [(.*?)] followed by a tab captures under [re.DOTALL]. *)
Fixpoint until_tab (s : string) : option string :=
  match s with
  | EmptyString => None
  | String c s' =>
      if Ascii.eqb c tab then Some EmptyString
      else String c <$> until_tab s'
  end.

(** [re.search] under [re.DOTALL] for a pattern made of a literal
    [marker], the lazy group and a tab: group 1 of the leftmost match. *)
Fixpoint re_search (marker s : string) : option string :=
  let here := strip_prefix marker s ≫= until_tab in
  match here, s with
  | Some g, _ => Some g
  | None, EmptyString => None
  | None, String _ s' => re_search marker s'
  end.

(** [match.group(1)], where [match] is [None] when the search failed. *)
Definition group1 (m : option string) : result string :=
  match m with
  | Some g => Ok g
  | None => Raise AttributeError
  end.

(** *** Floats

    A Python float is an IEEE 754 binary64 number: [SpecFloat] at
    precision 53 and maximal exponent 1024. *)

Definition prec : Z := 53.
Definition emax : Z := 1024.

(** Conversion of an integer to the nearest float, ties to even, as
    [float(n)] and the coercion of an integer operand do it.  An integer
    beyond the largest float raises [OverflowError]. *)
Definition float_of_Z (n : Z) : result spec_float :=
  match binary_normalize prec emax n 0 false with
  | S754_infinity _ => Raise OverflowError
  | f => Ok f
  end.

(** [x / y] on floats: division by zero raises. *)
Definition float_div (x y : spec_float) : result spec_float :=
  match y with
  | S754_zero _ => Raise ZeroDivisionError
  | _ => Ok (SFdiv prec emax x y)
  end.

(** [math.ceil(x)], a float in Python 2: the least integral float that
    is not below [x].  A float with a non-negative exponent is already
    integral; zeros, infinities and NaN are returned unchanged. *)
Definition math_ceil (x : spec_float) : spec_float :=
  match x with
  | S754_finite s m e =>
      if (0 <=? e)%Z then x
      else binary_normalize prec emax
             (- ((- cond_Zopp s (Zpos m)) / 2 ^ (- e)))%Z 0 s
  | _ => x
  end.

(** [int(x)] on a float: truncation towards zero. *)
Definition int_of_float (x : spec_float) : result Z :=
  match x with
  | S754_zero _ => Ok 0%Z
  | S754_finite s m e =>
      Ok (if (0 <=? e)%Z then cond_Zopp s (Zpos m * 2 ^ e)
          else cond_Zopp s (Zpos m / 2 ^ (- e)))%Z
  | S754_infinity _ => Raise OverflowError
  | S754_nan => Raise ValueError
  end.

(** What a location says about a quantity [m + r / D] that was cut down
    to [m]: where the fraction [r / D] lies with respect to one half. *)
Definition located (l : location) (r D : Z) : Prop :=
  match l with
  | loc_Exact => r = 0
  | loc_Inexact Lt => 0 < r ∧ 2 * r < D
  | loc_Inexact Eq => 0 < r ∧ 2 * r = D
  | loc_Inexact Gt => D < 2 * r
  end%Z.

(** The least integer that is not below [m * 2 ^ e]. *)
Definition ceil_value (m e : Z) : Z :=
  if (0 <=? e)%Z then (m * 2 ^ e)%Z else (- ((- m) / 2 ^ (- e)))%Z.

(** *** Builtins kept abstract

    Library functions whose exact behaviour no property below depends
    on: URL joining, the two literal parsers, [str()] of a value that is
    not a string, and the conversions of a string to a number. *)
Class Runtime : Type := {
  urljoin : string → string → string;
  literal_eval : string → result pyval;
  json_loads : string → result pyval;
  py_str : pyval → string;
  int_of_str : string → result Z;
  float_of_str : string → result spec_float
}.

(** *** [str.format] with keyword arguments *)

Section Format.
Context `{Runtime}.

(** What a replacement field without conversion or format
    specification puts in the output. *)
Definition format_value (v : pyval) : string :=
  match v with
  | PStr s => s
  | _ => py_str v
  end.

(** [fmt.format] called with the dictionary [kw] as keyword arguments,
    for format strings whose replacement fields are plain names.
    [field] is the name read so far when the scanner is inside a
    replacement field.  Fields are looked up from
    left to right, a missing one raises [KeyError]; doubled braces are
    literal braces. *)
Fixpoint format_scan (kw : gmap string pyval) (field : option string)
    (fmt : string) : result string :=
  match field, fmt with
  | None, EmptyString => Ok EmptyString
  | None, String c rest =>
      if Ascii.eqb c lbrace then
        match rest with
        | String c' rest' =>
            if Ascii.eqb c' lbrace
            then String lbrace <$> format_scan kw None rest'
            else format_scan kw (Some EmptyString) rest
        | EmptyString => Raise ValueError
        end
      else if Ascii.eqb c rbrace then
        match rest with
        | String c' rest' =>
            if Ascii.eqb c' rbrace
            then String rbrace <$> format_scan kw None rest'
            else Raise ValueError
        | EmptyString => Raise ValueError
        end
      else String c <$> format_scan kw None rest
  | Some name, EmptyString => Raise ValueError
  | Some name, String c rest =>
      if Ascii.eqb c rbrace then
        match kw !! name with
        | Some v =>
            tail ← format_scan kw None rest;
            Ok (format_value v +:+ tail)
        | None => Raise (KeyError name)
        end
      else format_scan kw (Some (name +:+ String c EmptyString)) rest
  end.

Definition py_format (fmt : string) (kw : gmap string pyval) : result string :=
  format_scan kw None fmt.
End Format.

(** *** Numeric conversions *)

Section Conversions.
Context `{Runtime}.

(** [float(v)] *)
Definition py_float (v : pyval) : result spec_float :=
  match v with
  | PInt z => float_of_Z z
  | PBool b => float_of_Z (if b then 1 else 0)
  | PFloat f => Ok f
  | PStr s => float_of_str s
  | _ => Raise TypeError
  end.

(** [int(v)] *)
Definition py_int (v : pyval) : result Z :=
  match v with
  | PInt z => Ok z
  | PBool b => Ok (if b then 1 else 0)%Z
  | PFloat f => int_of_float f
  | PStr s => int_of_str s
  | _ => Raise TypeError
  end.

End Conversions.

End Py.

(** ** [time.strptime] and [datetime]

    [time.strptime] turns its format into a regular expression, matches
    it against the text with [re.match] under [re.IGNORECASE], requires
    the match to cover the whole text and converts the named groups.
    The matcher below is a backtracking matcher with ordered
    alternatives, like the one of [re]. *)

Module Strptime.
Import Py.
Local Open Scope Z_scope.

Inductive regex : Type :=
| Lit (c : ascii)
| Range (lo hi : ascii)
| Seq (r1 r2 : regex)
| Alt (r1 r2 : regex)
| Group (name : string) (r : regex).

(** ASCII case folding, what [re.IGNORECASE] compares a literal with. *)
Definition lower (c : ascii) : ascii :=
  let n := N_of_ascii c in
  if ((65 <=? n) && (n <=? 90))%N then ascii_of_N (n + 32) else c.

Definition in_range (lo hi c : ascii) : bool :=
  ((N_of_ascii lo <=? N_of_ascii c) && (N_of_ascii c <=? N_of_ascii hi))%N.

(** The part of [s] in front of its suffix [s']. *)
Definition consumed (s s' : string) : string :=
  String.substring 0 (String.length s - String.length s') s.

Definition captures : Type := list (string * string).

(** [rmatch r s caps k] matches [r] at the start of [s] and hands the
    rest of the text and the groups captured so far to the continuation
    [k]; when [k] fails the next alternative is tried. *)
Fixpoint rmatch {X} (r : regex) (s : string) (caps : captures)
    (k : string → captures → option X) : option X :=
  match r with
  | Lit c =>
      match s with
      | String a s' => if Ascii.eqb (lower c) (lower a) then k s' caps else None
      | EmptyString => None
      end
  | Range lo hi =>
      match s with
      | String a s' => if in_range lo hi a then k s' caps else None
      | EmptyString => None
      end
  | Seq r1 r2 => rmatch r1 s caps (fun s' caps' => rmatch r2 s' caps' k)
  | Alt r1 r2 =>
      match rmatch r1 s caps k with
      | Some x => Some x
      | None => rmatch r2 s caps k
      end
  | Group name r' =>
      rmatch r' s caps (fun s' caps' => k s' ((name, consumed s s') :: caps'))
  end.

(** [re.match]: the first match in priority order, as the rest of the
    text and the groups. *)
Definition re_match (r : regex) (s : string) : option (string * captures) :=
  rmatch r s [] (fun s' caps => Some (s', caps)).

Definition digit : regex := Range "0" "9".

Fixpoint alts (r : regex) (rs : list regex) : regex :=
  match rs with
  | [] => r
  | r' :: rs' => Alt r (alts r' rs')
  end.

Fixpoint seqs (r : regex) (rs : list regex) : regex :=
  match rs with
  | [] => r
  | r' :: rs' => Seq r (seqs r' rs')
  end.

(** The expressions [_strptime.TimeRE] holds for the directives. *)
Definition re_Y : regex := Group "Y" (seqs digit [digit; digit; digit]).
Definition re_m : regex :=
  Group "m" (alts (Seq (Lit "1") (Range "0" "2"))
                  [Seq (Lit "0") (Range "1" "9"); Range "1" "9"]).
Definition re_d : regex :=
  Group "d" (alts (Seq (Lit "3") (Range "0" "1"))
                  [Seq (Range "1" "2") digit; Seq (Lit "0") (Range "1" "9");
                   Range "1" "9"; Seq (Lit " ") (Range "1" "9")]).
Definition re_H : regex :=
  Group "H" (alts (Seq (Lit "2") (Range "0" "3")) [Seq (Range "0" "1") digit; digit]).
Definition re_M : regex :=
  Group "M" (alts (Seq (Range "0" "5") digit) [digit]).
Definition re_S : regex :=
  Group "S" (alts (Seq (Lit "6") (Range "0" "1")) [Seq (Range "0" "5") digit; digit]).

(** The expression for the format ['%Y-%m-%dT%H:%M:%S']. *)
Definition iso_regex : regex :=
  seqs re_Y [Lit "-"; re_m; Lit "-"; re_d; Lit "T"; re_H; Lit ":"; re_M; Lit ":"; re_S].

(** [int(text)] for a captured group: decimal digits, after an optional
    blank. *)
Definition digit_value (c : ascii) : Z := Z.of_N (N_of_ascii c) - 48.

Fixpoint decimal_from (acc : Z) (s : string) : Z :=
  match s with
  | EmptyString => acc
  | String c s' =>
      if in_range "0" "9" c then decimal_from (10 * acc + digit_value c) s'
      else decimal_from acc s'
  end.

Definition group_int (caps : captures) (name : string) : Z :=
  match List.find (fun kv => String.eqb kv.1 name) caps with
  | Some kv => decimal_from 0 kv.2
  | None => 0
  end.

Definition is_leap (year : Z) : bool :=
  (year mod 4 =? 0) && (negb (year mod 100 =? 0) || (year mod 400 =? 0)).

Definition days_in_month (year month : Z) : Z :=
  if month =? 2 then (if is_leap year then 29 else 28)
  else if (month =? 4) || (month =? 6) || (month =? 9) || (month =? 11) then 30
  else 31.

(** The check the constructor of [datetime.date] makes. *)
Definition valid_date (year month day : Z) : bool :=
  (1 <=? year) && (year <=? 9999) && (1 <=? month) && (month <=? 12)
  && (1 <=? day) && (day <=? days_in_month year month).

Definition valid_time (hour minute second : Z) : bool :=
  (0 <=? hour) && (hour <=? 23) && (0 <=? minute) && (minute <=? 59)
  && (0 <=? second) && (second <=? 59).

(** The first six fields of [time.strptime(s, '%Y-%m-%dT%H:%M:%S')].
    The text must match and be matched completely, and the day must
    exist: [strptime] builds a [datetime.date] for the day of the week. *)
Definition strptime_iso (s : string) : result (Z * Z * Z * Z * Z * Z) :=
  match re_match iso_regex s with
  | None => Raise ValueError
  | Some (String _ _, _) => Raise ValueError
  | Some (EmptyString, caps) =>
      let year := group_int caps "Y" in
      let month := group_int caps "m" in
      let day := group_int caps "d" in
      if valid_date year month day
      then Ok (year, month, day, group_int caps "H", group_int caps "M",
               group_int caps "S")
      else Raise ValueError
  end.

(** [datetime(year, month, day, hour, minute, second).date()] *)
Definition datetime_date (t : Z * Z * Z * Z * Z * Z) : result pyval :=
  let '(year, month, day, hour, minute, second) := t in
  if valid_date year month day && valid_time hour minute second
  then Ok (PDate year month day)
  else Raise ValueError.

(** The text of a timestamp, [datetime.isoformat]: four digits for the
    year and two for every other field. *)
Definition digit_char (n : nat) : ascii := ascii_of_nat (48 + n).

Definition two_digits (n : nat) : string :=
  String (digit_char (n / 10)) (String (digit_char (n mod 10)) EmptyString).

Definition four_digits (n : nat) : string :=
  String (digit_char (n / 1000))
    (String (digit_char (n / 100 mod 10)) (two_digits (n mod 100))).

Definition isoformat (year month day hour minute second : nat) : string :=
  four_digits year +:+ "-" +:+ two_digits month +:+ "-" +:+ two_digits day
    +:+ "T" +:+ two_digits hour +:+ ":" +:+ two_digits minute
    +:+ ":" +:+ two_digits second.

End Strptime.

(** ** The network *)

Module Net.
Import Py.

Inductive method : Type := GET | POST.

(** What [requests.get] and [requests.post] are called with. *)
Record request : Type := {
  rq_method : method;
  rq_url : string;
  rq_params : list (string * pyval);
  rq_data : list (string * pyval);
  rq_cookies : list (string * pyval)
}.

(** What the code reads of a response: its body and its cookie jar. *)
Record response : Type := {
  text : string;
  cookies : gmap string string
}.

(** The outside world answers a request, given the requests issued
    before it, with a response or with a transport error. *)
Definition network : Type := list request → request → result response.

(** Computations that may issue requests: they read the network, append
    to the log of requests issued and end in a value or an exception. *)
Definition IO (A : Type) : Type :=
  network → list request → result A * list request.

Definition io_ret {A} (a : A) : IO A := fun _ log => (Ok a, log).

Definition io_bind {A B} (m : IO A) (k : A → IO B) : IO B :=
  fun net log =>
    match m net log with
    | (Ok a, log') => k a net log'
    | (Raise e, log') => (Raise e, log')
    end.

#[global] Instance IO_ret : MRet IO := fun A a => io_ret a.
#[global] Instance IO_bind : MBind IO := fun A B k m => io_bind m k.

(** A pure step that may raise. *)
Definition lift {A} (r : result A) : IO A := fun _ log => (r, log).

(** Issuing one request. *)
Definition send (rq : request) : IO response :=
  fun net log => (net log rq, log ++ [rq]).

Definition requests_get (url : string) (params cookies : list (string * pyval))
    : IO response :=
  send {| rq_method := GET; rq_url := url; rq_params := params;
          rq_data := []; rq_cookies := cookies |}.

Definition requests_post (url : string) (params data : list (string * pyval))
    : IO response :=
  send {| rq_method := POST; rq_url := url; rq_params := params;
          rq_data := data; rq_cookies := [] |}.

(** [response.json()] *)
Definition json `{Runtime} (r : response) : result pyval := json_loads (text r).

End Net.

(** ** [video.py]: catalogue extractor and search client *)

Module Video.
Import Py Net Strptime.

Definition CATEGORIES_URL : string :=
  "http://sport.bt.com/all-videos/videos-01364228997406".
Definition API_URL : string :=
  "http://api-search.sport.bt.com/search/sport/select".

Record Video : Type := _Video {
  title : pyval;
  description : pyval;
  url : pyval;
  thumbnail : pyval;
  date : pyval;
  duration : pyval
}.

Record Category : Type := _Category {
  c_title : pyval;
  c_path : pyval
}.

(** A generator run to exhaustion: the items it yielded, in order, and
    the exception that ended it, if one did. *)
Record generated (A : Type) : Type := Generated {
  yielded : list A;
  raised : option exn
}.
Global Arguments Generated {A} yielded raised.
Global Arguments yielded {A} g.
Global Arguments raised {A} g.

Definition gen_raise {A} (e : exn) : generated A := Generated [] (Some e).

Definition gen_yield {A} (a : A) (rest : generated A) : generated A :=
  Generated (a :: yielded rest) (raised rest).

(** [for x in l: yield body(x)] *)
Fixpoint gen_for {A B} (body : A → result B) (l : list A) : generated B :=
  match l with
  | [] => Generated [] None
  | x :: l' =>
      match body x with
      | Ok b => gen_yield b (gen_for body l')
      | Raise e => gen_raise e
      end
  end.

Definition pagedetails_marker : string := "BTSPORT.cms.videohub.pagedetails = ".
Definition properties_marker : string := "BTSPORT.cms.videohub.properties = ".

Section Catalogue.
Context `{Runtime}.

(** The body of the generator [categories] once the literal is parsed. *)
Definition categories_from (pagedetails : pyval) : generated Category :=
  match getitem pagedetails "defaultpage" ≫= (fun p => getitem p "pageurl") with
  | Raise e => gen_raise e
  | Ok path =>
      gen_yield (_Category PNone path)
        match getitem pagedetails "pages" ≫= py_iter with
        | Raise e => gen_raise e
        | Ok pages =>
            gen_for (fun category =>
                       t ← getitem category "title";
                       p ← getitem category "pageurl";
                       Ok (_Category t p)) pages
        end
  end.

Definition categories : network → list request → generated Category * list request :=
  fun net log =>
    match (r ← requests_get CATEGORIES_URL [] [];
           group ← lift (group1 (re_search pagedetails_marker (text r)));
           lift (literal_eval group)) net log with
    | (Raise e, log') => (gen_raise e, log')
    | (Ok pagedetails, log') => (categories_from pagedetails, log')
    end.

(** ['"{}"'.format(tag)] *)
Definition quoted (tag : string) : string := dq +:+ tag +:+ dq.

(** The query built from the parsed properties: the body of
    [query_text] after the literal is parsed. *)
Definition query_from (properties : pyval) : result pyval :=
  tags ← getitem properties "tags";
  if negb (truthy tags) then Ok PNone
  else
    parts ← str_split tags comma;
    match properties with
    | PDict d =>
        let d := <["tags" := PStr (join "," (quoted <$> parts))]> d in
        let query_fmt := "tags:({tags})" in
        let query_fmt :=
          match d !! "competition", d !! "ccategory" with
          | Some _, _ =>
              query_fmt +:+ " OR (ccategory:(" +:+ dq +:+ "{ccategory}" +:+ dq
                +:+ ") AND competition:(" +:+ dq +:+ "{competition}" +:+ dq +:+ "))"
          | None, Some _ =>
              query_fmt +:+ " OR ccategory:(" +:+ dq +:+ "{ccategory}" +:+ dq +:+ ")"
          | None, None => query_fmt
          end in
        PStr <$> py_format query_fmt d
    | _ => Raise TypeError
    end.

Definition query_text (path : string) : IO pyval :=
  r ← requests_get (urljoin "http://sport.bt.com/" path) [] [];
  group ← lift (group1 (re_search properties_marker (text r)));
  properties ← lift (literal_eval group);
  lift (query_from properties).

End Catalogue.

(** [_date_from_str]: only the first 19 characters are parsed.  Slicing
    or parsing anything but a string raises [TypeError]. *)
Definition _date_from_str (date_str : pyval) : result pyval :=
  match date_str with
  | PStr s => strptime_iso (str_take 19 s) ≫= datetime_date
  | _ => Raise TypeError
  end.

Section Search.
Context `{Runtime}.

(** The [_Video] built from one document of the response; the keyword
    arguments are evaluated from left to right. *)
Definition video_of (video : pyval) : result Video :=
  title ← getitem video "h1title";
  description ← getitem video "teaser";
  hlsurl ← dict_get video "hlsurl";
  url ← (if truthy hlsurl then Ok hlsurl else dict_get video "streamingurl");
  imageurl ← dict_get video "imageurl";
  thumbnail ← (if truthy imageurl then Ok imageurl else dict_get video "thumbnailURL");
  publicationdate ← dict_get video "publicationdate";
  date ← py_and publicationdate
           (getitem video "publicationdate" ≫= _date_from_str);
  duration ← dict_get video "duration";
  duration ← py_and duration
           (PInt <$> (getitem video "duration" ≫= py_int));
  Ok (_Video title description url thumbnail date duration).

Definition _videos (videos_response : pyval) : generated Video :=
  match getitem videos_response "docs" ≫= py_iter with
  | Raise e => gen_raise e
  | Ok docs => gen_for video_of docs
  end.

(** [int(math.ceil(float(numFound) / page_size))] *)
Definition num_pages_of (numFound : pyval) (page_size : Z) : result Z :=
  x ← py_float numFound;
  y ← float_of_Z page_size;
  q ← float_div x y;
  int_of_float (math_ceil q).

Definition video_results (query : pyval) (page page_size : Z)
    : IO (generated Video * Z) :=
  let params :=
    [("q", PStr "AssetType:(BTVideo)");
     ("fq", PList [PStr "Publist:btsport"; query]);
     ("sort", PStr "publicationdate desc");
     ("wt", PStr "json");
     ("start", PInt ((page - 1) * page_size));
     ("rows", PInt page_size)] in
  r ← requests_get API_URL params [];
  videos_response ← lift (json r ≫= (fun j => getitem j "response"));
  num_pages ← lift (getitem videos_response "numFound"
                      ≫= (fun n => num_pages_of n page_size));
  mret (_videos videos_response, num_pages).

(** ['text:("{}")'.format(term)] as the query. *)
Definition search_results (term : pyval) (page page_size : Z)
    : IO (generated Video * Z) :=
  video_results (PStr ("text:(" +:+ dq +:+ format_value term +:+ dq +:+ ")"))
    page page_size.

End Search.

End Video.

(** ** [live.py]: the live authentication chain *)

Module Live.
Import Py Net.

(** [cookies.get(name)] on the cookie jar of a response. *)
Definition cookie_get (jar : gmap string string) (name : string) : pyval :=
  match jar !! name with
  | Some v => PStr v
  | None => PNone
  end.

Definition login (user password : pyval) : IO pyval :=
  response ← requests_post
    "https://signin1.bt.com/siteminderagent/forms/login.fcc" []
    [("TARGET", PStr "https://home.bt.com/secure/");
     ("USER", user); ("PASSWORD", password)];
  mret (cookie_get (cookies response) "SMSESSION").

Section Streams.
Context `{Runtime}.

Definition hls_url (avs_cookie channel_id : pyval) : IO pyval :=
  if negb (truthy avs_cookie) then mret PNone
  else
    response ← requests_get "https://be.avs.bt.com/AVS/besc"
      [("action", PStr "GetCDN"); ("type", PStr "LIVE"); ("id", channel_id);
       ("channel", PStr "WEBHLS"); ("asJson", PStr "Y")]
      [("avs_cookie", avs_cookie)];
    result ← lift (json response);
    result_obj ← lift (getitem result "resultObj");
    if negb (truthy result_obj) then
      lift (errorDescription ← getitem result "errorDescription";
            message ← getitem result "message";
            Raise (BTError errorDescription message))
    else lift (getitem result_obj "src").

End Streams.

End Live.

(** ** [live.py]: the channel registry *)

Module Registry.
Import Py.

Record Channel : Type := _Channel {
  name : string;
  id : Z;
  epg_index : Z;
  logo : string
}.

(** The property [thumbnail] of a channel. *)
Definition thumbnail `{Runtime} (self : Channel) : result string :=
  py_format ("http://images.atlas.metabroadcast.com/"
               +:+ "shaman.metabroadcast.com/bt/channels/{filename}")
    {[ "filename" := PStr (logo self) ]}.

Definition _CHANNELS : list Channel :=
  [_Channel "BT Sport 1" 2020 2 "BTSPORT_1_201805110826.jpg";
   _Channel "BT Sport 2" 2021 4 "BTSPORT_2_201805110826.jpg";
   _Channel "BT Sport 3" 2030 9 "BTSPORT_3_201805110828.jpg";
   _Channel "BT Sport//ESPN" 2022 13 "BTSPORT_ESPN_201805110829.jpg";
   _Channel "BoxNation" 2029 5 "BoxNation_Lozenge_201804201100.jpg"].

Definition channels : list Channel := _CHANNELS.

(** [str(n)] of an integer: its decimal digits, after a minus sign when
    it is negative. *)
Definition str_int (n : Z) : string :=
  DecimalString.NilZero.string_of_int (Z.to_int n).

(** [dict(pairs)]: the pairs are inserted from left to right, a later
    pair replaces an earlier one with the same key. *)
Definition dict_of {V} (pairs : list (string * V)) : gmap string V :=
  foldl (fun d kv => <[kv.1 := kv.2]> d) ∅ pairs.

Definition channels_by_id : gmap string Channel :=
  dict_of ((fun channel => (str_int (id channel), channel)) <$> _CHANNELS).

End Registry.

(** ** [live.py]: the federated sign-on *)

Module Sso.
Import Py Net.

(** [BeautifulSoup(html, 'html.parser').find('input', attrs={'name': n})]
    kept abstract: the attributes of the first [input] element of the
    page whose [name] is [n], when there is one. *)
Class Soup : Type := {
  find_input : string → string → option (gmap string string)
}.

(** [tag['value']] on the result of [find]: subscripting [None] raises
    [TypeError], a missing attribute raises [KeyError]. *)
Definition tag_value (tag : option (gmap string string)) : result pyval :=
  match tag with
  | None => Raise TypeError
  | Some attrs =>
      match attrs !! "value" with
      | Some v => Ok (PStr v)
      | None => Raise (KeyError "value")
      end
  end.

(** [cookies[name]] on the cookie jar of a response. *)
Definition cookie_item (jar : gmap string string) (name : string) : result pyval :=
  match jar !! name with
  | Some v => Ok (PStr v)
  | None => Raise (KeyError name)
  end.

Definition sport_login `{Soup} (session : pyval) : IO pyval :=
  page ← requests_get "https://samlfed.bt.com/sportgetfedwebhls" []
    [("SMSESSION", session)];
  saml_response ← lift (tag_value (find_input (text page) "SAMLResponse"));
  response ← requests_post "https://be.avs.bt.com/AVS/besc"
    [("action", PStr "LoginBT"); ("channel", PStr "WEBHLS")]
    [("SAMLResponse", saml_response)];
  lift (cookie_item (cookies response) "avs_cookie").

End Sso.

(** ** [live.py]: the programme guide *)

Module Epg.
Import Py Net Strptime.
Local Open Scope Z_scope.

(** The guide raises two exceptions the rest of the code cannot:
    [IndexError] (and [KeyError] with an integer key) from indexing the
    feed, and the [UnknownTimeZoneError] of [pytz]. *)
Inductive error : Type :=
| Std (e : exn)
| IndexError
| KeyErrorInt (key : Z)
| UnknownTimeZoneError (zone : string).

Inductive outcome (A : Type) : Type :=
| Done (a : A)
| Failed (e : error).
Global Arguments Done {A} a.
Global Arguments Failed {A} e.

Definition obind {A B} (o : outcome A) (k : A → outcome B) : outcome B :=
  match o with
  | Done a => k a
  | Failed e => Failed e
  end.

#[global] Instance outcome_ret : MRet outcome := fun A a => Done a.
#[global] Instance outcome_bind : MBind outcome := fun A B k o => obind o k.

Definition std {A} (r : result A) : outcome A :=
  match r with
  | Ok a => Done a
  | Raise e => Failed (Std e)
  end.

(** [pytz] kept abstract: the offset from UTC, in minutes (the offsets
    of [pytz] are whole minutes), of a named zone at a UTC time, or
    nothing for a name [pytz] does not know.  An offset is less than a
    day, as [datetime] requires. *)
Class TimeZones : Type := {
  utcoffset : string → Z * Z * Z * Z * Z * Z → option Z;
  utcoffset_range :
    ∀ zone t o, utcoffset zone t = Some o → -1440 < o < 1440
}.

(** [v[i]] for an integer [i]: sequences count a negative index from
    their end and raise [IndexError] out of range; a dictionary of the
    feed has no integer key. *)
Definition nth_item (l : list pyval) (i : Z) : outcome pyval :=
  let j := if i <? 0 then i + Z.of_nat (length l) else i in
  if j <? 0 then Failed IndexError
  else match l !! Z.to_nat j with
       | Some x => Done x
       | None => Failed IndexError
       end.

Definition index_item (v : pyval) (i : Z) : outcome pyval :=
  match v with
  | PList l | PTuple l => nth_item l i
  | PStr s =>
      nth_item ((fun c => PStr (String c EmptyString))
                  <$> String.list_ascii_of_string s) i
  | PDict _ => Failed (KeyErrorInt i)
  | _ => Failed (Std TypeError)
  end.

(** The expression for the format ['%Y-%m-%dT%H:%M:%SZ']. *)
Definition utc_regex : regex :=
  seqs re_Y [Lit "-"; re_m; Lit "-"; re_d; Lit "T"; re_H; Lit ":"; re_M;
             Lit ":"; re_S; Lit "Z"].

(** The [datetime] built from the first six fields of
    [time.strptime(s, '%Y-%m-%dT%H:%M:%SZ')]: the text must match
    completely and name an existing day, and [datetime] takes no second
    above 59. *)
Definition utc_datetime (s : string) : result (Z * Z * Z * Z * Z * Z) :=
  match re_match utc_regex s with
  | None => Raise ValueError
  | Some (String _ _, _) => Raise ValueError
  | Some (EmptyString, caps) =>
      let year := group_int caps "Y" in
      let month := group_int caps "m" in
      let day := group_int caps "d" in
      let hour := group_int caps "H" in
      let minute := group_int caps "M" in
      let second := group_int caps "S" in
      if valid_date year month day && valid_time hour minute second
      then Ok (year, month, day, hour, minute, second)
      else Raise ValueError
  end.

(** The year of the local day, which is the day before 1 January or the
    day after 31 December when the offset crosses midnight there. *)
Definition local_year (year month day days : Z) : Z :=
  if (days <? 0) && (month =? 1) && (day =? 1) then year - 1
  else if (0 <? days) && (month =? 12) && (day =? 31) then year + 1
  else year.

Section Guide.
Context `{Runtime} `{TimeZones}.

(** [_localise]: the time is parsed as UTC, moved to the zone and
    printed as hours and minutes.  Moving out of the years 1 to 9999
    overflows, and [strftime] of Python 2 takes no year before 1900. *)
Definition _localise (datetime_str : pyval) (timezone : string) : outcome string :=
  match datetime_str with
  | PStr s =>
      t ← std (utc_datetime s);
      let '(year, month, day, hour, minute, second) := t in
      match utcoffset timezone t with
      | None => Failed (UnknownTimeZoneError timezone)
      | Some offset =>
          let minutes := hour * 60 + minute + offset in
          let year' := local_year year month day (minutes / 1440) in
          if (year' <? 1) || (9999 <? year') then Failed (Std OverflowError)
          else if year' <? 1900 then Failed (Std ValueError)
          else Done (two_digits (Z.to_nat (minutes mod 1440 / 60)) +:+ ":"
                       +:+ two_digits (Z.to_nat (minutes mod 1440 mod 60)))
      end
  | _ => Failed (Std TypeError)
  end.

Record Program : Type := _Program {
  title : pyval;
  synopsis : pyval;
  start : string
}.

Record EPG : Type := _EPG {
  now : Program;
  next : Program
}.

(** The programme under [program] of one channel of the feed. *)
Definition program_of (channel_epg : pyval) (timezone : string)
    (program : string) : outcome Program :=
  data ← std (getitem channel_epg program);
  title ← std (getitem data "title");
  synopsis ← std (getitem data "synopsis");
  start ← std (getitem data "start");
  start ← _localise start timezone;
  Done (_Program title synopsis start).

(** [for program in ('now', 'next'): yield ...], run to exhaustion: the
    programmes yielded and the exception that ended the loop, if any. *)
Fixpoint programs_of (channel_epg : pyval) (timezone : string)
    (programs : list string) : list Program * option error :=
  match programs with
  | [] => ([], None)
  | program :: rest =>
      match program_of channel_epg timezone program with
      | Done p =>
          let '(ps, e) := programs_of channel_epg timezone rest in (p :: ps, e)
      | Failed e => ([], Some e)
      end
  end.

(** The generator [_now_and_next], run to exhaustion. *)
Definition _now_and_next (channel_epg_index : Z) (timezone : string)
    : network → list request → (list Program * option error) * list request :=
  fun net log =>
    match requests_get "https://epg.cdn.vision.bt.com/JSON/all" [] [] net log with
    | (Raise e, log') => (([], Some (Std e)), log')
    | (Ok response, log') =>
        match (feed ← std (json response);
               channels_epg ← std (getitem feed "channels");
               index_item channels_epg channel_epg_index) with
        | Failed e => (([], Some e), log')
        | Done channel_epg =>
            (programs_of channel_epg timezone ["now"; "next"], log')
        end
    end.

(** [epg] unpacks the generator [_now_and_next] into [_EPG]: the
    generator is run to its end, an exception in it is raised by [epg],
    and the named tuple takes exactly two programmes. *)
Definition epg (channel_epg_index : Z) (timezone : string)
    : network → list request → outcome EPG * list request :=
  fun net log =>
    match _now_and_next channel_epg_index timezone net log with
    | ((_, Some e), log') => (Failed e, log')
    | (([now; next], None), log') => (Done (_EPG now next), log')
    | ((_, None), log') => (Failed (Std TypeError), log')
    end.

End Guide.

End Epg.

(** ** Measures of the matcher

    The least and the greatest number of characters an expression of
    [Strptime] can match. *)

Module Widths.
Import Strptime.

Fixpoint min_width (r : regex) : nat :=
  match r with
  | Lit _ | Range _ _ => 1
  | Seq r1 r2 => min_width r1 + min_width r2
  | Alt r1 r2 => Nat.min (min_width r1) (min_width r2)
  | Group _ r' => min_width r'
  end.

Fixpoint max_width (r : regex) : nat :=
  match r with
  | Lit _ | Range _ _ => 1
  | Seq r1 r2 => max_width r1 + max_width r2
  | Alt r1 r2 => Nat.max (max_width r1) (max_width r2)
  | Group _ r' => max_width r'
  end.

End Widths.

(** ** Test doubles

    A runtime whose parsers answer from a table, and networks that serve
    one fixed response: the concrete inputs the properties are
    instantiated at. *)

Module Fixtures.
Import Py Net.

Definition table_runtime (parse : string → result pyval) : Runtime := {|
  urljoin := fun base path => base +:+ path;
  literal_eval := parse;
  json_loads := parse;
  py_str := fun _ => "<object>";
  int_of_str := fun _ => Raise ValueError;
  float_of_str := fun _ => Raise ValueError
|}.

Definition parse_as (literal : string) (v : pyval) : string → result pyval :=
  fun s => if String.eqb s literal then Ok v else Raise SyntaxError.

Definition serve (r : response) : network := fun _ _ => Ok r.

Definition page_with (marker literal : string) : response :=
  {| text := "<script>" +:+ marker +:+ literal +:+ String tab "</script>";
     cookies := ∅ |}.

Definition body (s : string) : response := {| text := s; cookies := ∅ |}.

(** A properties literal with all three keys, one without [tags], and
    the runtimes and pages that deliver them. *)
Definition football_props : gmap string pyval :=
  {[ "tags" := PStr "football,premier league";
     "ccategory" := PStr "Football";
     "competition" := PStr "Premier League" ]}.

Definition untagged_props : gmap string pyval :=
  {[ "ccategory" := PStr "Football" ]}.

Definition football_runtime : Runtime :=
  table_runtime (parse_as "{football}" (PDict football_props)).
Definition untagged_runtime : Runtime :=
  table_runtime (parse_as "{untagged}" (PDict untagged_props)).

Definition football_page : response :=
  page_with Video.properties_marker "{football}".
Definition untagged_page : response :=
  page_with Video.properties_marker "{untagged}".

(** A categories literal with two pages. *)
Definition hub_pagedetails : pyval :=
  PDict {[ "defaultpage" := PDict {[ "pageurl" := PStr "/all-videos" ]};
           "pages" := PList
             [PDict {[ "title" := PStr "Football"; "pageurl" := PStr "/football" ]};
              PDict {[ "title" := PStr "Rugby"; "pageurl" := PStr "/rugby" ]}] ]}.

Definition hub_runtime : Runtime :=
  table_runtime (parse_as "{hub}" hub_pagedetails).
Definition hub_page : response := page_with Video.pagedetails_marker "{hub}".

(** Search result documents: one with both stream and both image
    fields, one whose preferred fields are empty strings. *)
Definition plain_runtime : Runtime := table_runtime (fun _ => Raise SyntaxError).

Definition full_doc : gmap string pyval :=
  {[ "h1title" := PStr "Highlights"; "teaser" := PStr "All the goals";
     "hlsurl" := PStr "http://cdn/hls.m3u8";
     "streamingurl" := PStr "http://cdn/stream.mp4";
     "imageurl" := PStr "http://cdn/image.jpg";
     "thumbnailURL" := PStr "http://cdn/thumb.jpg";
     "publicationdate" := PStr "2020-03-01T12:00:00.500Z";
     "duration" := PInt 95 ]}.

Definition empty_preferred_doc : gmap string pyval :=
  {[ "h1title" := PStr "Highlights"; "teaser" := PStr "All the goals";
     "hlsurl" := PStr EmptyString;
     "streamingurl" := PStr "http://cdn/stream.mp4";
     "imageurl" := PStr EmptyString;
     "thumbnailURL" := PStr "http://cdn/thumb.jpg" ]}.

(** Answers of the search API: 95 results, and 2^53 + 1 results. *)
Definition found (numFound : Z) : pyval :=
  PDict {[ "response" := PDict {[ "numFound" := PInt numFound;
                                   "docs" := PList [] ]} ]}.

Definition found_runtime (numFound : Z) : Runtime :=
  table_runtime (parse_as "{found}" (found numFound)).

(** Answers of the CDN resolution: a refusal and a stream. *)
Definition refusal : pyval :=
  PDict {[ "resultObj" := PNone;
           "errorDescription" := PStr "ACN_3000";
           "message" := PStr "Not entitled" ]}.

Definition resolved : pyval :=
  PDict {[ "resultObj" := PDict {[ "src" := PStr "http://cdn/live.m3u8" ]} ]}.

Definition refusal_runtime : Runtime := table_runtime (parse_as "{refusal}" refusal).
Definition resolved_runtime : Runtime :=
  table_runtime (parse_as "{resolved}" resolved).

End Fixtures.

(** ** More test doubles

    A page parser and a table of zones for the sign-on and the guide. *)

Module Doubles.
Import Py Net Fixtures.
Local Open Scope Z_scope.

(** A parser that finds the SAML field, with the given attributes, in
    the page whose text is [page] and nowhere else. *)
Definition soup_with (page : string) (attrs : gmap string string) : Sso.Soup := {|
  Sso.find_input := fun html name =>
    if String.eqb html page && String.eqb name "SAMLResponse"
    then Some attrs else None
|}.

(** A network that answers the federation endpoint with a page and the
    AVS endpoint with a cookie jar. *)
Definition sso_network (page : string) (jar : gmap string string) : network :=
  fun _ rq =>
    match rq_method rq with
    | GET => Ok {| text := page; cookies := ∅ |}
    | POST => Ok {| text := EmptyString; cookies := jar |}
    end.

(** The attributes of an assertion field, and the cookie jars of the
    sign-in and of the AVS endpoint. *)
Definition assertion_field : gmap string string := {[ "value" := "PHNhbWw+" ]}.
Definition avs_jar : gmap string string := {[ "avs_cookie" := "t0k3n" ]}.

(** Two zones: UTC, and one that is an hour ahead from April to
    October. *)
Definition zone_offset (zone : string) (t : Z * Z * Z * Z * Z * Z) : option Z :=
  let '(_, month, _, _, _, _) := t in
  if String.eqb zone "UTC" then Some 0
  else if String.eqb zone "Europe/London"
  then Some (if (4 <=? month) && (month <=? 10) then 60 else 0)
  else None.

Definition zones : Epg.TimeZones.
Proof.
  refine {| Epg.utcoffset := zone_offset; Epg.utcoffset_range := _ |}.
  intros zone [[[[[year month] day] hour] minute] second] o.
  unfold zone_offset.
  destruct (String.eqb zone "UTC"); [intros [= <-]; lia|].
  destruct (String.eqb zone "Europe/London"); [|discriminate].
  destruct ((4 <=? month) && (month <=? 10)); intros [= <-]; lia.
Defined.

Definition programme (title start : string) : pyval :=
  PDict {[ "title" := PStr title; "synopsis" := PStr "Live coverage";
           "start" := PStr start ]}.

(** A feed of two channels. *)
Definition summer_evening : pyval :=
  PDict {[ "now" := programme "Football" "2021-06-01T18:30:00Z";
           "next" := programme "Rugby" "2021-06-01T23:30:00Z" ]}.

Definition winter_evening : pyval :=
  PDict {[ "now" := programme "Boxing" "2021-01-01T18:30:00Z";
           "next" := programme "Darts" "2021-01-01T20:00:00Z" ]}.

Definition feed : pyval :=
  PDict {[ "channels" := PList [summer_evening; winter_evening] ]}.

Definition feed_runtime : Runtime := table_runtime (parse_as "{feed}" feed).

(** A properties literal that names a competition without a category,
    and one whose tags are a list. *)
Definition cup_props : gmap string pyval :=
  {[ "tags" := PStr "fa cup"; "competition" := PStr "FA Cup" ]}.

Definition listed_props : gmap string pyval :=
  {[ "tags" := PList [PStr "football"] ]}.

Definition cup_runtime : Runtime :=
  table_runtime (parse_as "{cup}" (PDict cup_props)).
Definition listed_runtime : Runtime :=
  table_runtime (parse_as "{listed}" (PDict listed_props)).

Definition cup_page : response := page_with Video.properties_marker "{cup}".
Definition listed_page : response := page_with Video.properties_marker "{listed}".

(** A categories literal whose second page has no address. *)
Definition broken_pagedetails : pyval :=
  PDict {[ "defaultpage" := PDict {[ "pageurl" := PStr "/all-videos" ]};
           "pages" := PList
             [PDict {[ "title" := PStr "Football"; "pageurl" := PStr "/football" ]};
              PDict {[ "title" := PStr "Rugby" ]};
              PDict {[ "title" := PStr "Boxing"; "pageurl" := PStr "/boxing" ]}] ]}.

Definition broken_runtime : Runtime :=
  table_runtime (parse_as "{broken}" broken_pagedetails).
Definition broken_page : response := page_with Video.pagedetails_marker "{broken}".

(** Search result documents: one without a teaser, one whose optional
    fields are present and empty. *)
Definition untitled_doc : gmap string pyval :=
  {[ "h1title" := PStr "Highlights" ]}.

Definition bare_doc : gmap string pyval :=
  {[ "h1title" := PStr "Highlights"; "teaser" := PStr "All the goals";
     "publicationdate" := PStr EmptyString; "duration" := PInt 0 ]}.

(** An answer of the search API without documents. *)
Definition counted : pyval :=
  PDict {[ "response" := PDict {[ "numFound" := PInt 95 ]} ]}.

Definition counted_runtime : Runtime := table_runtime (parse_as "{counted}" counted).

(** Answers of the CDN resolution: a refusal that gives no reason, and
    a result that is a string. *)
Definition silent_refusal : pyval := PDict {[ "resultObj" := PNone ]}.

Definition silent_runtime : Runtime :=
  table_runtime (parse_as "{silent}" silent_refusal).

End Doubles.

(** * Properties *)

(** ** Strings and formatting *)

Section StringFacts.
Import Py.

Lemma append_cons c s t : String c s +:+ t = String c (s +:+ t).
Proof. reflexivity. Qed.

Lemma append_assoc s t u : (s +:+ t) +:+ u = s +:+ (t +:+ u).
Proof.
  induction s as [|c s IH]; [reflexivity|].
  rewrite !append_cons. by rewrite IH.
Qed.

Lemma append_nil_r s : s +:+ EmptyString = s.
Proof.
  induction s as [|c s IH]; [reflexivity|].
  rewrite append_cons. by rewrite IH.
Qed.

(** Splitting undoes joining when no item holds the separator. *)
Lemma split_on_join (c : ascii) (x : string) (l : list string) :
  Forall (fun s => lacks c s = true) (x :: l) →
  split_on c (join (String c EmptyString) (x :: l)) = x :: l.
Proof.
  revert x. induction l as [|y l IH]; intros x Hall.
  - apply Forall_inv in Hall. simpl.
    induction x as [|a x IHx]; [reflexivity|].
    simpl in Hall. apply andb_prop in Hall as [Ha Hx].
    simpl. apply negb_true_iff in Ha. rewrite Ha. by rewrite (IHx Hx).
  - pose proof (Forall_inv Hall) as Hx. apply Forall_inv_tail in Hall.
    specialize (IH y Hall).
    change (join (String c EmptyString) (x :: y :: l))
      with (x +:+ String c EmptyString +:+ join (String c EmptyString) (y :: l)).
    revert IH. generalize (join (String c EmptyString) (y :: l)) as rest.
    intros rest IH.
    induction x as [|a x IHx].
    + change (split_on c (String c rest) = EmptyString :: y :: l).
      simpl. rewrite Ascii.eqb_refl. by rewrite IH.
    + simpl in Hx. apply andb_prop in Hx as [Ha Hx].
      rewrite append_cons. simpl. apply negb_true_iff in Ha. rewrite Ha.
      by rewrite (IHx Hx).
Qed.

End StringFacts.

Section FormatFacts.
Import Py.
Context `{Runtime}.

Lemma result_fmap_compose {A B C} (f : A → B) (g : B → C) (r : result A) :
  g <$> (f <$> r) = (g ∘ f) <$> r.
Proof. by destruct r. Qed.

(** Text without braces is copied to the output. *)
Lemma format_scan_text kw text rest :
  lacks lbrace text = true → lacks rbrace text = true →
  format_scan kw None (text +:+ rest)
  = String.append text <$> format_scan kw None rest.
Proof.
  induction text as [|c text IH]; intros Hl Hr.
  - change (EmptyString +:+ rest) with rest.
    destruct (format_scan kw None rest); reflexivity.
  - simpl in Hl, Hr.
    apply andb_prop in Hl as [Hcl Hl]. apply andb_prop in Hr as [Hcr Hr].
    apply negb_true_iff in Hcl, Hcr.
    rewrite append_cons. simpl. rewrite Hcl, Hcr, (IH Hl Hr).
    by rewrite result_fmap_compose.
Qed.

(** Inside a replacement field the name runs up to the closing brace,
    and the field is replaced by the value of that keyword. *)
Lemma format_scan_name kw acc name rest :
  lacks rbrace name = true →
  format_scan kw (Some acc) (name +:+ String rbrace rest)
  = match kw !! (acc +:+ name) with
    | Some v => tail ← format_scan kw None rest; Ok (format_value v +:+ tail)
    | None => Raise (KeyError (acc +:+ name))
    end.
Proof.
  revert acc. induction name as [|c name IH]; intros acc Hr.
  - rewrite append_nil_r. simpl. reflexivity.
  - simpl in Hr. apply andb_prop in Hr as [Hc Hr]. apply negb_true_iff in Hc.
    rewrite append_cons. simpl. rewrite Hc, (IH _ Hr).
    by rewrite append_assoc.
Qed.

Lemma format_scan_field kw c name rest :
  Ascii.eqb c lbrace = false → lacks rbrace (String c name) = true →
  format_scan kw None (String lbrace (String c name +:+ String rbrace rest))
  = match kw !! String c name with
    | Some v => tail ← format_scan kw None rest; Ok (format_value v +:+ tail)
    | None => Raise (KeyError (String c name))
    end.
Proof.
  intros Hc Hr.
  pose proof (format_scan_name kw EmptyString (String c name) rest Hr) as Hn.
  change (EmptyString +:+ String c name) with (String c name) in Hn.
  rewrite <- Hn, append_cons. simpl. by rewrite Hc.
Qed.

End FormatFacts.

(** ** Catalogue extractor *)

Section CatalogueFacts.
Import Py Net Video.
Context `{Runtime}.

(** Once the page is fetched and its literal parsed, [query_text] is
    [query_from] on the parsed properties. *)
Lemma query_text_run path net log page literal properties :
  (requests_get (urljoin "http://sport.bt.com/" path) [] [] net log).1 = Ok page →
  re_search properties_marker (text page) = Some literal →
  literal_eval literal = Ok properties →
  (query_text path net log).1 = query_from properties.
Proof.
  unfold query_text, requests_get, send, mbind, IO_bind, io_bind, lift.
  simpl. intros Hpage Hmark Hlit.
  rewrite Hpage. simpl. rewrite Hmark. simpl. rewrite Hlit. reflexivity.
Qed.

Lemma format_tags_only (kw : gmap string pyval) v :
  kw !! "tags" = Some v →
  py_format "tags:({tags})" kw = Ok ("tags:(" +:+ format_value v +:+ ")").
Proof.
  intros Hv. unfold py_format.
  change "tags:({tags})"
    with ("tags:(" +:+ String lbrace ("tags" +:+ String rbrace ")")).
  rewrite format_scan_text by reflexivity.
  rewrite format_scan_field by reflexivity.
  rewrite Hv. reflexivity.
Qed.

Lemma format_tags_ccategory (kw : gmap string pyval) v g :
  kw !! "tags" = Some v → kw !! "ccategory" = Some g →
  py_format ("tags:({tags})" +:+ " OR ccategory:(" +:+ dq +:+ "{ccategory}"
               +:+ dq +:+ ")") kw
  = Ok ("tags:(" +:+ format_value v +:+ ") OR ccategory:(" +:+ dq
          +:+ format_value g +:+ dq +:+ ")").
Proof.
  intros Hv Hg. unfold py_format.
  change ("tags:({tags})" +:+ " OR ccategory:(" +:+ dq +:+ "{ccategory}"
            +:+ dq +:+ ")")
    with ("tags:(" +:+ String lbrace ("tags" +:+ String rbrace
           ((") OR ccategory:(" +:+ dq) +:+ String lbrace ("ccategory"
             +:+ String rbrace (dq +:+ ")"))))).
  rewrite format_scan_text by reflexivity.
  rewrite format_scan_field by reflexivity.
  rewrite Hv.
  rewrite format_scan_text by reflexivity.
  rewrite format_scan_field by reflexivity.
  rewrite Hg. simpl.
  rewrite !append_assoc. reflexivity.
Qed.

Lemma format_tags_competition (kw : gmap string pyval) v g c :
  kw !! "tags" = Some v → kw !! "ccategory" = Some g →
  kw !! "competition" = Some c →
  py_format ("tags:({tags})" +:+ " OR (ccategory:(" +:+ dq +:+ "{ccategory}"
               +:+ dq +:+ ") AND competition:(" +:+ dq +:+ "{competition}"
               +:+ dq +:+ "))") kw
  = Ok ("tags:(" +:+ format_value v +:+ ") OR (ccategory:(" +:+ dq
          +:+ format_value g +:+ dq +:+ ") AND competition:(" +:+ dq
          +:+ format_value c +:+ dq +:+ "))").
Proof.
  intros Hv Hg Hc. unfold py_format.
  change ("tags:({tags})" +:+ " OR (ccategory:(" +:+ dq +:+ "{ccategory}"
            +:+ dq +:+ ") AND competition:(" +:+ dq +:+ "{competition}"
            +:+ dq +:+ "))")
    with ("tags:(" +:+ String lbrace ("tags" +:+ String rbrace
           ((") OR (ccategory:(" +:+ dq) +:+ String lbrace ("ccategory"
             +:+ String rbrace ((dq +:+ ") AND competition:(" +:+ dq)
               +:+ String lbrace ("competition"
                 +:+ String rbrace (dq +:+ "))"))))))).
  rewrite format_scan_text by reflexivity.
  rewrite format_scan_field by reflexivity.
  rewrite Hv.
  rewrite format_scan_text by reflexivity.
  rewrite format_scan_field by reflexivity.
  rewrite Hg.
  rewrite format_scan_text by reflexivity.
  rewrite format_scan_field by reflexivity.
  rewrite Hc. simpl.
  rewrite !append_assoc. reflexivity.
Qed.

(** The three shapes of the query for a non-empty string of tags. *)
Lemma query_from_tagged (d : gmap string pyval) (t : string) :
  d !! "tags" = Some (PStr t) → t ≠ EmptyString →
  let tags := join "," (quoted <$> split_on comma t) in
  query_from (PDict d)
  = match d !! "competition", d !! "ccategory" with
    | Some c, Some g =>
        Ok (PStr ("tags:(" +:+ tags +:+ ") OR (ccategory:(" +:+ dq
                    +:+ format_value g +:+ dq +:+ ") AND competition:(" +:+ dq
                    +:+ format_value c +:+ dq +:+ "))"))
    | Some c, None => Raise (KeyError "ccategory")
    | None, Some g =>
        Ok (PStr ("tags:(" +:+ tags +:+ ") OR ccategory:(" +:+ dq
                    +:+ format_value g +:+ dq +:+ ")"))
    | None, None => Ok (PStr ("tags:(" +:+ tags +:+ ")"))
    end.
Proof.
  intros Ht Hne tags. unfold query_from. simpl. rewrite Ht. simpl.
  destruct t as [|a t]; [done|]. simpl truthy. simpl negb. cbv iota.
  fold tags.
  rewrite !lookup_insert_ne by done.
  destruct (d !! "competition") as [c|] eqn:Hc;
    destruct (d !! "ccategory") as [g|] eqn:Hg.
  - rewrite (format_tags_competition _ (PStr tags) g c);
      [reflexivity | apply lookup_insert_eq
       | by rewrite lookup_insert_ne | by rewrite lookup_insert_ne].
  - unfold py_format.
    change ("tags:({tags})" +:+ " OR (ccategory:(" +:+ dq +:+ "{ccategory}"
              +:+ dq +:+ ") AND competition:(" +:+ dq +:+ "{competition}"
              +:+ dq +:+ "))")
      with ("tags:(" +:+ String lbrace ("tags" +:+ String rbrace
             ((") OR (ccategory:(" +:+ dq) +:+ String lbrace ("ccategory"
               +:+ String rbrace ((dq +:+ ") AND competition:(" +:+ dq)
                 +:+ String lbrace ("competition"
                   +:+ String rbrace (dq +:+ "))"))))))).
    rewrite format_scan_text by reflexivity.
    rewrite format_scan_field by reflexivity.
    rewrite lookup_insert_eq.
    rewrite format_scan_text by reflexivity.
    rewrite format_scan_field by reflexivity.
    rewrite lookup_insert_ne by done. rewrite Hg. reflexivity.
  - rewrite (format_tags_ccategory _ (PStr tags) g);
      [reflexivity | apply lookup_insert_eq | by rewrite lookup_insert_ne].
  - rewrite (format_tags_only _ (PStr tags));
      [reflexivity | apply lookup_insert_eq].
Qed.

(** C1. For a page whose properties literal has a non-empty string of
    tags, [query_text] returns the clause [tags:(...)] in which every
    tag, as split at the commas, is put in double quotes and the tags are
    joined by commas again; when both [competition] and [ccategory] are
    present the clause is followed by an OR of ccategory AND competition,
    when only [ccategory] is present by an OR of the ccategory clause,
    and when neither is present by nothing.  For a string made by joining
    tags that hold no comma, the tags quoted are those tags. *)
Theorem query_text_fragment path net log page literal (d : gmap string pyval) t :
  (requests_get (urljoin "http://sport.bt.com/" path) [] [] net log).1 = Ok page →
  re_search properties_marker (text page) = Some literal →
  literal_eval literal = Ok (PDict d) →
  d !! "tags" = Some (PStr t) → t ≠ EmptyString →
  let tags := join "," (quoted <$> split_on comma t) in
  (∀ c g, d !! "competition" = Some c → d !! "ccategory" = Some g →
     (query_text path net log).1
     = Ok (PStr ("tags:(" +:+ tags +:+ ") OR (ccategory:(" +:+ dq
                   +:+ format_value g +:+ dq +:+ ") AND competition:(" +:+ dq
                   +:+ format_value c +:+ dq +:+ "))")))
  ∧ (∀ g, d !! "competition" = None → d !! "ccategory" = Some g →
     (query_text path net log).1
     = Ok (PStr ("tags:(" +:+ tags +:+ ") OR ccategory:(" +:+ dq
                   +:+ format_value g +:+ dq +:+ ")")))
  ∧ (d !! "competition" = None → d !! "ccategory" = None →
     (query_text path net log).1 = Ok (PStr ("tags:(" +:+ tags +:+ ")")))
  ∧ (∀ tag others, Forall (fun s => lacks comma s = true) (tag :: others) →
     t = join "," (tag :: others) →
     tags = join "," (quoted <$> tag :: others)).
Proof.
  intros Hpage Hmark Hlit Ht Hne tags.
  rewrite (query_text_run _ _ _ _ _ _ Hpage Hmark Hlit).
  pose proof (query_from_tagged d t Ht Hne) as Hq. cbv zeta in Hq.
  fold tags in Hq. rewrite Hq.
  split; [|split; [|split]].
  - by intros c g -> ->.
  - by intros g -> ->.
  - by intros -> ->.
  - intros tag others Hall ->. unfold tags, comma in *.
    by rewrite (split_on_join "," tag others Hall).
Qed.

(** The amended C2. [query_text] returns [None] exactly when the
    properties are a dictionary whose [tags] entry is present and false
    (empty); without a [tags] entry it raises [KeyError]. *)
Theorem query_text_null_iff path net log page literal properties :
  (requests_get (urljoin "http://sport.bt.com/" path) [] [] net log).1 = Ok page →
  re_search properties_marker (text page) = Some literal →
  literal_eval literal = Ok properties →
  ((query_text path net log).1 = Ok PNone
   ↔ ∃ (d : gmap string pyval) v,
       properties = PDict d ∧ d !! "tags" = Some v ∧ truthy v = false)
  ∧ (∀ d : gmap string pyval, properties = PDict d → d !! "tags" = None →
       (query_text path net log).1 = Raise (KeyError "tags")).
Proof.
  intros Hpage Hmark Hlit.
  rewrite (query_text_run _ _ _ _ _ _ Hpage Hmark Hlit).
  split.
  - split.
    + unfold query_from.
      destruct properties as [| | | | |l|l|d|]; try discriminate.
      simpl. destruct (d !! "tags") as [v|] eqn:Hv; [|discriminate].
      simpl. destruct (truthy v) eqn:Htruth.
      * simpl. destruct v; try discriminate. simpl.
        match goal with
        | |- PStr <$> ?r = _ → _ => destruct r; discriminate
        end.
      * intros _. by exists d, v.
    + intros (d & v & -> & Hv & Htruth).
      unfold query_from. simpl. rewrite Hv. simpl. by rewrite Htruth.
  - intros d -> Hv. unfold query_from. simpl. by rewrite Hv.
Qed.

Lemma categories_run net log page literal pagedetails :
  (requests_get CATEGORIES_URL [] [] net log).1 = Ok page →
  re_search pagedetails_marker (text page) = Some literal →
  literal_eval literal = Ok pagedetails →
  (categories net log).1 = categories_from pagedetails.
Proof.
  unfold categories, requests_get, send, mbind, IO_bind, io_bind, lift.
  simpl. intros Hpage Hmark Hlit.
  rewrite Hpage. simpl. rewrite Hmark. simpl. rewrite Hlit. reflexivity.
Qed.

(** The loop over the pages yields one category per entry, in order. *)
Lemma gen_for_categories (entries : list pyval) (cats : list Category) :
  Forall2 (fun entry cat =>
             getitem entry "title" = Ok (c_title cat)
             ∧ getitem entry "pageurl" = Ok (c_path cat)) entries cats →
  gen_for (fun category =>
             t ← getitem category "title";
             p ← getitem category "pageurl";
             Ok (_Category t p)) entries
  = Generated cats None.
Proof.
  induction 1 as [|entry cat entries cats [Ht Hp] _ IH]; [reflexivity|].
  simpl. rewrite Ht. simpl. rewrite Hp. simpl. rewrite IH.
  by destruct cat.
Qed.

(** C7. For a categories page whose literal parses to the schema of the
    site ([defaultpage] with a [pageurl], [pages] a sequence of entries
    with a [title] and a [pageurl]), [categories] yields the default
    category first, with no title and the page URL of [defaultpage], and
    then exactly one category per entry of [pages], in the order of the
    literal, with the title and the page URL of that entry; it ends
    without an exception. *)
Theorem categories_default_then_pages net log page literal pagedetails
    default_url (entries : list pyval) (cats : list Category) :
  (requests_get CATEGORIES_URL [] [] net log).1 = Ok page →
  re_search pagedetails_marker (text page) = Some literal →
  literal_eval literal = Ok pagedetails →
  getitem pagedetails "defaultpage" ≫= (fun p => getitem p "pageurl")
    = Ok default_url →
  getitem pagedetails "pages" ≫= py_iter = Ok entries →
  Forall2 (fun entry cat =>
             getitem entry "title" = Ok (c_title cat)
             ∧ getitem entry "pageurl" = Ok (c_path cat)) entries cats →
  (categories net log).1
  = Generated (_Category PNone default_url :: cats) None.
Proof.
  intros Hpage Hmark Hlit Hdefault Hpages Hentries.
  rewrite (categories_run _ _ _ _ _ Hpage Hmark Hlit).
  unfold categories_from. rewrite Hdefault, Hpages. simpl.
  by rewrite (gen_for_categories _ _ Hentries).
Qed.

End CatalogueFacts.

Section CatalogueExamples.
Import Py Net Video Fixtures.

Lemma query_text_fragment_witness :
  (query_text (H:=football_runtime) "/football" (serve football_page) []).1
  = Ok (PStr ("tags:(" +:+ dq +:+ "football" +:+ dq +:+ "," +:+ dq
                +:+ "premier league" +:+ dq +:+ ") OR (ccategory:(" +:+ dq
                +:+ "Football" +:+ dq +:+ ") AND competition:(" +:+ dq
                +:+ "Premier League" +:+ dq +:+ "))")).
Proof.
  apply (proj1 (query_text_fragment (H:=football_runtime) "/football"
                  (serve football_page) [] football_page "{football}"
                  football_props "football,premier league"
                  eq_refl eq_refl eq_refl eq_refl ltac:(discriminate))
           (PStr "Premier League") (PStr "Football"));
    reflexivity.
Defined.

(** C2 fails on the code where the [tags] key is absent: the lookup
    raises [KeyError] instead of returning [None]. *)
Lemma query_text_absent_tags_raises :
  untagged_props !! "tags" = None
  ∧ (query_text (H:=untagged_runtime) "/all-videos" (serve untagged_page) []).1
    = Raise (KeyError "tags")
  ∧ (query_text (H:=untagged_runtime) "/all-videos" (serve untagged_page) []).1
    ≠ Ok PNone.
Proof. split; [reflexivity|]. split; [reflexivity|discriminate]. Qed.

Lemma query_text_null_iff_witness :
  (query_text (H:=untagged_runtime) "/all-videos" (serve untagged_page) []).1
  = Raise (KeyError "tags").
Proof.
  apply (proj2 (query_text_null_iff (H:=untagged_runtime) "/all-videos"
                  (serve untagged_page) [] untagged_page "{untagged}"
                  (PDict untagged_props) eq_refl eq_refl eq_refl)
           untagged_props eq_refl eq_refl).
Defined.

Lemma categories_default_then_pages_witness :
  (categories (H:=hub_runtime) (serve hub_page) []).1
  = Generated [_Category PNone (PStr "/all-videos");
               _Category (PStr "Football") (PStr "/football");
               _Category (PStr "Rugby") (PStr "/rugby")] None.
Proof.
  apply (categories_default_then_pages (H:=hub_runtime) (serve hub_page) []
           hub_page "{hub}" hub_pagedetails (PStr "/all-videos") _
           [_Category (PStr "Football") (PStr "/football");
            _Category (PStr "Rugby") (PStr "/rugby")]
           eq_refl eq_refl eq_refl eq_refl eq_refl).
  repeat constructor.
Defined.

End CatalogueExamples.

(** ** Timestamps *)

Section StrptimeFacts.
Import Py Strptime.
Local Open Scope Z_scope.

Lemma length_append s t :
  String.length (s +:+ t) = (String.length s + String.length t)%nat.
Proof.
  induction s as [|c s IH]; [reflexivity|].
  rewrite append_cons. simpl. by rewrite IH.
Qed.

Lemma substring_append p rest :
  String.substring 0 (String.length p) (p +:+ rest) = p.
Proof.
  induction p as [|c p IH].
  - change (EmptyString +:+ rest) with rest. simpl. by destruct rest.
  - rewrite append_cons. simpl. by rewrite IH.
Qed.

Lemma consumed_app p rest : consumed (p +:+ rest) rest = p.
Proof.
  unfold consumed. rewrite length_append.
  replace (String.length p + String.length rest - String.length rest)%nat
    with (String.length p) by lia.
  apply substring_append.
Qed.

Lemma digit_char_range n :
  (n < 10)%nat → in_range "0" "9" (digit_char n) = true.
Proof.
  intros Hn. do 10 (destruct n as [|n]; [vm_compute; reflexivity|]). lia.
Qed.

Lemma digit_char_value n :
  (n < 10)%nat → digit_value (digit_char n) = Z.of_nat n.
Proof.
  intros Hn. do 10 (destruct n as [|n]; [vm_compute; reflexivity|]). lia.
Qed.

Lemma rmatch_digit {X} n rest caps (k : string → captures → option X) :
  (n < 10)%nat →
  rmatch digit (String (digit_char n) rest) caps k = k rest caps.
Proof. intros Hn. unfold digit. cbn [rmatch]. by rewrite digit_char_range. Qed.

Lemma consumed_2 a b rest :
  consumed (String a (String b rest)) rest = String a (String b EmptyString).
Proof. apply (consumed_app (String a (String b EmptyString)) rest). Qed.

Lemma consumed_4 a b c d rest :
  consumed (String a (String b (String c (String d rest)))) rest
  = String a (String b (String c (String d EmptyString))).
Proof.
  apply (consumed_app (String a (String b (String c (String d EmptyString)))) rest).
Qed.

#[local] Arguments consumed : simpl never.

(** One case of a two-digit field: the digits are computed, the matcher
    is run on them and the continuation takes over. *)
Ltac field_case Hk :=
  match goal with
  | |- context [two_digits ?n] =>
      let s := eval vm_compute in (two_digits n) in
      change (two_digits n) with s in *
  end;
  rewrite !append_cons; change (EmptyString +:+ ?r) with r;
  simpl; rewrite consumed_2, Hk; reflexivity.

Lemma rmatch_m {X} n rest caps (k : string → captures → option X) x :
  (1 <= n <= 12)%nat →
  k rest (("m", two_digits n) :: caps) = Some x →
  rmatch re_m (two_digits n +:+ rest) caps k = Some x.
Proof.
  intros [Hlo Hhi] Hk.
  do 13 (destruct n as [|n]; [first [lia | field_case Hk]|]). lia.
Qed.

Lemma rmatch_d {X} n rest caps (k : string → captures → option X) x :
  (1 <= n <= 31)%nat →
  k rest (("d", two_digits n) :: caps) = Some x →
  rmatch re_d (two_digits n +:+ rest) caps k = Some x.
Proof.
  intros [Hlo Hhi] Hk.
  do 32 (destruct n as [|n]; [first [lia | field_case Hk]|]). lia.
Qed.

Lemma rmatch_H {X} n rest caps (k : string → captures → option X) x :
  (n < 24)%nat →
  k rest (("H", two_digits n) :: caps) = Some x →
  rmatch re_H (two_digits n +:+ rest) caps k = Some x.
Proof.
  intros Hhi Hk.
  do 24 (destruct n as [|n]; [field_case Hk|]). lia.
Qed.

Lemma rmatch_M {X} n rest caps (k : string → captures → option X) x :
  (n < 60)%nat →
  k rest (("M", two_digits n) :: caps) = Some x →
  rmatch re_M (two_digits n +:+ rest) caps k = Some x.
Proof.
  intros Hhi Hk.
  do 60 (destruct n as [|n]; [field_case Hk|]). lia.
Qed.

Lemma rmatch_S {X} n rest caps (k : string → captures → option X) x :
  (n < 60)%nat →
  k rest (("S", two_digits n) :: caps) = Some x →
  rmatch re_S (two_digits n +:+ rest) caps k = Some x.
Proof.
  intros Hhi Hk.
  do 60 (destruct n as [|n]; [field_case Hk|]). lia.
Qed.

Lemma rmatch_Y {X} n rest caps (k : string → captures → option X) :
  Z.of_nat n < 10000 →
  rmatch re_Y (four_digits n +:+ rest) caps k
  = k rest (("Y", four_digits n) :: caps).
Proof.
  intros Hn. unfold re_Y, four_digits, two_digits.
  rewrite !append_cons. change (EmptyString +:+ rest) with rest.
  cbn [rmatch seqs].
  assert (n / 1000 < 10)%nat by (apply Nat.Div0.div_lt_upper_bound; lia).
  assert (n / 100 mod 10 < 10)%nat by (apply Nat.mod_upper_bound; lia).
  assert (n mod 100 / 10 < 10)%nat
    by (apply Nat.Div0.div_lt_upper_bound;
        pose proof (Nat.mod_upper_bound n 100); lia).
  assert (n mod 100 mod 10 < 10)%nat by (apply Nat.mod_upper_bound; lia).
  rewrite !rmatch_digit by assumption.
  by rewrite consumed_4.
Qed.

Lemma rmatch_seq {X} r1 r2 s caps (k : string → captures → option X) :
  rmatch (Seq r1 r2) s caps k
  = rmatch r1 s caps (fun s' caps' => rmatch r2 s' caps' k).
Proof. reflexivity. Qed.

Lemma rmatch_lit {X} c rest caps (k : string → captures → option X) :
  rmatch (Lit c) (String c rest) caps k = k rest caps.
Proof. cbn [rmatch]. by rewrite Ascii.eqb_refl. Qed.

(** The literal character between two fields. *)
Ltac separator :=
  cbv beta; rewrite rmatch_seq, append_cons, rmatch_lit;
  cbv beta; change (EmptyString +:+ ?r) with r.

(** A well-formed timestamp is matched completely, field by field. *)
Lemma re_match_isoformat year month day hour minute second :
  Z.of_nat year < 10000 → (1 <= month <= 12)%nat → (1 <= day <= 31)%nat →
  (hour < 24)%nat → (minute < 60)%nat → (second < 60)%nat →
  re_match iso_regex (isoformat year month day hour minute second)
  = Some (EmptyString,
          [("S", two_digits second); ("M", two_digits minute);
           ("H", two_digits hour); ("d", two_digits day);
           ("m", two_digits month); ("Y", four_digits year)]).
Proof.
  intros Hy Hm Hd HH HM HS.
  unfold re_match, iso_regex, isoformat. cbn [seqs].
  rewrite rmatch_seq, rmatch_Y by assumption. separator.
  rewrite rmatch_seq. apply rmatch_m; [assumption|]. separator.
  rewrite rmatch_seq. apply rmatch_d; [assumption|]. separator.
  rewrite rmatch_seq. apply rmatch_H; [assumption|]. separator.
  rewrite rmatch_seq. apply rmatch_M; [assumption|]. separator.
  rewrite <- (append_nil_r (two_digits second)).
  apply rmatch_S; [assumption|].
  reflexivity.
Qed.

Lemma decimal_two_digits n :
  (n < 100)%nat → decimal_from 0 (two_digits n) = Z.of_nat n.
Proof.
  intros Hn. unfold two_digits. cbn [decimal_from].
  assert (n / 10 < 10)%nat by (apply Nat.Div0.div_lt_upper_bound; lia).
  assert (n mod 10 < 10)%nat by (apply Nat.mod_upper_bound; lia).
  rewrite !digit_char_range, !digit_char_value by assumption.
  pose proof (Nat.div_mod_eq n 10). lia.
Qed.

Lemma decimal_four_digits n :
  Z.of_nat n < 10000 → decimal_from 0 (four_digits n) = Z.of_nat n.
Proof.
  intros Hn. unfold four_digits, two_digits. cbn [decimal_from].
  assert (n / 1000 < 10)%nat by (apply Nat.Div0.div_lt_upper_bound; lia).
  assert (n / 100 mod 10 < 10)%nat by (apply Nat.mod_upper_bound; lia).
  assert (n mod 100 / 10 < 10)%nat
    by (apply Nat.Div0.div_lt_upper_bound;
        pose proof (Nat.mod_upper_bound n 100); lia).
  assert (n mod 100 mod 10 < 10)%nat by (apply Nat.mod_upper_bound; lia).
  rewrite !digit_char_range, !digit_char_value by assumption.
  pose proof (Nat.div_mod_eq n 100).
  pose proof (Nat.div_mod_eq (n / 100) 10).
  pose proof (Nat.div_mod_eq (n mod 100) 10).
  assert (n / 100 / 10 = n / 1000)%nat by (rewrite Nat.Div0.div_div; reflexivity).
  lia.
Qed.

Lemma days_in_month_le year month : days_in_month year month <= 31.
Proof.
  unfold days_in_month.
  repeat match goal with |- context [if ?b then _ else _] => destruct b end; lia.
Qed.

(** [time.strptime] reads a well-formed timestamp back. *)
Lemma strptime_isoformat year month day hour minute second :
  valid_date (Z.of_nat year) (Z.of_nat month) (Z.of_nat day) = true →
  (hour < 24)%nat → (minute < 60)%nat → (second < 60)%nat →
  strptime_iso (isoformat year month day hour minute second)
  = Ok (Z.of_nat year, Z.of_nat month, Z.of_nat day,
        Z.of_nat hour, Z.of_nat minute, Z.of_nat second).
Proof.
  intros Hdate HH HM HS.
  pose proof Hdate as Hvalid. unfold valid_date in Hvalid.
  repeat (apply andb_prop in Hvalid as [Hvalid ?]).
  pose proof (days_in_month_le (Z.of_nat year) (Z.of_nat month)).
  unfold strptime_iso.
  rewrite re_match_isoformat by lia.
  change (group_int _ "Y") with (decimal_from 0 (four_digits year)).
  change (group_int _ "m") with (decimal_from 0 (two_digits month)).
  change (group_int _ "d") with (decimal_from 0 (two_digits day)).
  change (group_int _ "H") with (decimal_from 0 (two_digits hour)).
  change (group_int _ "M") with (decimal_from 0 (two_digits minute)).
  change (group_int _ "S") with (decimal_from 0 (two_digits second)).
  rewrite decimal_four_digits, !decimal_two_digits by lia.
  by rewrite Hdate.
Qed.

End StrptimeFacts.

(** ** Search client: field mapping *)

Section DateFacts.
Import Py Strptime Video.
Local Open Scope Z_scope.

Lemma length_isoformat year month day hour minute second :
  String.length (isoformat year month day hour minute second) = 19%nat.
Proof. reflexivity. Qed.

Lemma str_take_idempotent n s : str_take n (str_take n s) = str_take n s.
Proof.
  unfold str_take. revert s.
  induction n as [|n IH]; intros [|c s]; simpl; try reflexivity.
  by rewrite IH.
Qed.

Lemma str_take_isoformat year month day hour minute second suffix :
  str_take 19 (isoformat year month day hour minute second +:+ suffix)
  = isoformat year month day hour minute second.
Proof.
  unfold str_take.
  rewrite <- (length_isoformat year month day hour minute second) at 1.
  apply substring_append.
Qed.

(** C8. [_date_from_str] looks at the first 19 characters of the string
    only: it returns what it returns on the truncated string.  On a
    timestamp YYYY-MM-DDTHH:MM:SS of an existing day and time, followed
    by any text at all (fractional seconds, a zone suffix), it returns
    the calendar date and drops the time of day; the timestamp
    2020-03-01T12:00:00.500Z gives the date 2020-03-01. *)
Theorem date_from_str_truncates_and_parses
    (year month day hour minute second : nat) (suffix : string) :
  valid_date (Z.of_nat year) (Z.of_nat month) (Z.of_nat day) = true →
  (hour < 24)%nat → (minute < 60)%nat → (second < 60)%nat →
  (∀ s, _date_from_str (PStr s) = _date_from_str (PStr (str_take 19 s)))
  ∧ (∀ s, _date_from_str (PStr s)
          = strptime_iso (str_take 19 s) ≫= datetime_date)
  ∧ _date_from_str (PStr (isoformat year month day hour minute second +:+ suffix))
    = Ok (PDate (Z.of_nat year) (Z.of_nat month) (Z.of_nat day))
  ∧ _date_from_str (PStr "2020-03-01T12:00:00.500Z") = Ok (PDate 2020 3 1).
Proof.
  intros Hdate HH HM HS. split; [|split; [|split]].
  - intros s. unfold _date_from_str. by rewrite str_take_idempotent.
  - reflexivity.
  - unfold _date_from_str. rewrite str_take_isoformat.
    rewrite strptime_isoformat by assumption.
    unfold datetime_date, valid_time. simpl. rewrite Hdate.
    assert ((Z.of_nat hour <=? 23) = true) as -> by (apply Z.leb_le; lia).
    assert ((Z.of_nat minute <=? 59) = true) as -> by (apply Z.leb_le; lia).
    assert ((Z.of_nat second <=? 59) = true) as -> by (apply Z.leb_le; lia).
    assert ((0 <=? Z.of_nat hour) = true) as -> by (apply Z.leb_le; lia).
    assert ((0 <=? Z.of_nat minute) = true) as -> by (apply Z.leb_le; lia).
    assert ((0 <=? Z.of_nat second) = true) as -> by (apply Z.leb_le; lia).
    reflexivity.
  - vm_compute. reflexivity.
Qed.

End DateFacts.

Section DateExamples.
Import Py Strptime Video.

Lemma date_from_str_truncates_and_parses_witness :
  _date_from_str (PStr "2020-03-01T12:00:00.500Z") = Ok (PDate 2020 3 1).
Proof.
  apply (proj1 (proj2 (proj2
    (date_from_str_truncates_and_parses 2020 3 1 12 0 0 ".500Z"
       eq_refl ltac:(lia) ltac:(lia) ltac:(lia))))).
Defined.

End DateExamples.

Section MappingFacts.
Import Py Net Strptime Video.
Context `{Runtime}.

(** The optional fields of a video that was built, in terms of the
    document: [get] gives [None] for a missing key, [or] keeps its left
    operand when it is true. *)
Lemma video_of_fields (d : gmap string pyval) (v : Video) :
  video_of (PDict d) = Ok v →
  url v = py_or (default PNone (d !! "hlsurl"))
                (default PNone (d !! "streamingurl"))
  ∧ thumbnail v = py_or (default PNone (d !! "imageurl"))
                        (default PNone (d !! "thumbnailURL"))
  ∧ py_and (default PNone (d !! "publicationdate"))
           (getitem (PDict d) "publicationdate" ≫= _date_from_str)
    = Ok (date v).
Proof.
  unfold video_of, py_or. cbn [dict_get mbind result_bind rbind].
  destruct (getitem (PDict d) "h1title") as [t|]; [|discriminate].
  destruct (getitem (PDict d) "teaser") as [desc|]; [|discriminate].
  cbn [rbind].
  destruct (truthy (default PNone (d !! "hlsurl")));
    destruct (truthy (default PNone (d !! "imageurl")));
    cbn [rbind];
    (destruct (py_and (default PNone (d !! "publicationdate")) _) as [dt|];
       [|discriminate]);
    cbn [rbind];
    (destruct (py_and (default PNone (d !! "duration")) _) as [du|];
       [|discriminate]);
    cbn [rbind]; intros [= <-]; auto.
Qed.

(** The amended C3. In a video that was built, [url] is the [hlsurl]
    field when that field is present and true (not empty), whether or
    not [streamingurl] is present; it is the [streamingurl] field when
    [hlsurl] is absent and [streamingurl] is present; it is [None] when
    neither is present.  [thumbnail] is the same with [imageurl] before
    [thumbnailURL]. *)
Theorem video_url_thumbnail_preference (d : gmap string pyval) (v : Video) :
  video_of (PDict d) = Ok v →
  ((∀ h, d !! "hlsurl" = Some h → truthy h = true → url v = h)
   ∧ (∀ s, d !! "hlsurl" = None → d !! "streamingurl" = Some s → url v = s)
   ∧ (d !! "hlsurl" = None → d !! "streamingurl" = None → url v = PNone))
  ∧ ((∀ i, d !! "imageurl" = Some i → truthy i = true → thumbnail v = i)
     ∧ (∀ t, d !! "imageurl" = None → d !! "thumbnailURL" = Some t →
          thumbnail v = t)
     ∧ (d !! "imageurl" = None → d !! "thumbnailURL" = None →
          thumbnail v = PNone)).
Proof.
  intros Hv. destruct (video_of_fields d v Hv) as (-> & -> & _).
  unfold py_or. split; (split; [|split]).
  - intros h -> Hh. simpl. by rewrite Hh.
  - by intros s -> ->.
  - by intros -> ->.
  - intros i -> Hi. simpl. by rewrite Hi.
  - by intros t -> ->.
  - by intros -> ->.
Qed.

(** C10. The preference is decided by truth value, not by presence: in
    a video built from a document whose [hlsurl] is the empty string,
    [url] is the [streamingurl] field, exactly as when [hlsurl] is
    absent; and the same for [imageurl] and [thumbnailURL]. *)
Theorem empty_preferred_field_falls_back (d : gmap string pyval) (v : Video) :
  video_of (PDict d) = Ok v →
  (∀ s, d !! "hlsurl" = Some (PStr EmptyString) ∨ d !! "hlsurl" = None →
        d !! "streamingurl" = Some s → url v = s)
  ∧ (∀ t, d !! "imageurl" = Some (PStr EmptyString) ∨ d !! "imageurl" = None →
          d !! "thumbnailURL" = Some t → thumbnail v = t).
Proof.
  intros Hv. destruct (video_of_fields d v Hv) as (-> & -> & _).
  unfold py_or. split.
  - by intros s [-> | ->] ->.
  - by intros t [-> | ->] ->.
Qed.

(** The [date] of a video whose [publicationdate] is a non-empty string
    is what [_date_from_str] makes of it. *)
Lemma video_of_date (d : gmap string pyval) (v : Video) c s :
  video_of (PDict d) = Ok v →
  d !! "publicationdate" = Some (PStr (String c s)) →
  _date_from_str (PStr (String c s)) = Ok (date v).
Proof.
  intros Hv Hs. destruct (video_of_fields d v Hv) as (_ & _ & Hd).
  revert Hd. cbn [getitem]. rewrite Hs. done.
Qed.

End MappingFacts.

Section MappingExamples.
Import Py Video Fixtures.

(** C3 fails on the code where the preferred field is present but
    empty: both fields are present and [url] is not [hlsurl]. *)
Lemma present_but_empty_hlsurl_is_skipped :
  empty_preferred_doc !! "hlsurl" = Some (PStr EmptyString)
  ∧ empty_preferred_doc !! "streamingurl" = Some (PStr "http://cdn/stream.mp4")
  ∧ url <$> video_of (H:=plain_runtime) (PDict empty_preferred_doc)
    = Ok (PStr "http://cdn/stream.mp4")
  ∧ url <$> video_of (H:=plain_runtime) (PDict empty_preferred_doc)
    ≠ Ok (PStr EmptyString).
Proof. repeat split; vm_compute; congruence. Qed.

Lemma video_url_thumbnail_preference_witness :
  ∃ v, video_of (H:=plain_runtime) (PDict full_doc) = Ok v
       ∧ url v = PStr "http://cdn/hls.m3u8".
Proof.
  eexists. split; [reflexivity|].
  apply (proj1 (proj1 (video_url_thumbnail_preference (H:=plain_runtime)
                         full_doc _ eq_refl))
           (PStr "http://cdn/hls.m3u8") eq_refl eq_refl).
Defined.

Lemma empty_preferred_field_falls_back_witness :
  ∃ v, video_of (H:=plain_runtime) (PDict empty_preferred_doc) = Ok v
       ∧ thumbnail v = PStr "http://cdn/thumb.jpg".
Proof.
  eexists. split; [reflexivity|].
  apply (proj2 (empty_preferred_field_falls_back (H:=plain_runtime)
                  empty_preferred_doc _ eq_refl)
           (PStr "http://cdn/thumb.jpg") (or_introl eq_refl) eq_refl).
Defined.

End MappingExamples.

(** ** Live authentication chain *)

Section LiveFacts.
Import Py Net Live.
Context `{Runtime}.

(** C5. When the response to the sign-in request has no [SMSESSION]
    cookie, [login] returns [None] and raises nothing. *)
Theorem login_without_session_cookie user password net log response :
  (requests_post "https://signin1.bt.com/siteminderagent/forms/login.fcc" []
     [("TARGET", PStr "https://home.bt.com/secure/");
      ("USER", user); ("PASSWORD", password)] net log).1 = Ok response →
  cookies response !! "SMSESSION" = None →
  (login user password net log).1 = Ok PNone.
Proof.
  unfold login, requests_post, send, mbind, IO_bind, io_bind, mret, IO_ret,
    io_ret, cookie_get.
  simpl. intros -> ->. reflexivity.
Qed.

(** C9. With a null cookie [hls_url] returns [None] and leaves the log
    of requests as it was: no request is issued. *)
Theorem hls_url_null_cookie channel_id net log :
  hls_url PNone channel_id net log = (Ok PNone, log).
Proof.
  unfold hls_url. cbn [truthy negb].
  unfold mret, IO_ret, io_ret. reflexivity.
Qed.

(** The amended C6. For a cookie that is true (neither null nor empty),
    when [resultObj] of the answer is null or otherwise false, [hls_url]
    raises [BTError] with exactly the [errorDescription] and the
    [message] of the answer; when [resultObj] is true it returns the
    [src] field of [resultObj]. *)
Theorem hls_url_resolves_or_raises avs_cookie channel_id net log response
    result result_obj :
  truthy avs_cookie = true →
  (requests_get "https://be.avs.bt.com/AVS/besc"
     [("action", PStr "GetCDN"); ("type", PStr "LIVE"); ("id", channel_id);
      ("channel", PStr "WEBHLS"); ("asJson", PStr "Y")]
     [("avs_cookie", avs_cookie)] net log).1 = Ok response →
  json response = Ok result →
  getitem result "resultObj" = Ok result_obj →
  (truthy result_obj = false →
   ∀ description message,
     getitem result "errorDescription" = Ok description →
     getitem result "message" = Ok message →
     (hls_url avs_cookie channel_id net log).1
     = Raise (BTError description message))
  ∧ (truthy result_obj = true →
     ∀ src, getitem result_obj "src" = Ok src →
       (hls_url avs_cookie channel_id net log).1 = Ok src).
Proof.
  unfold hls_url, requests_get, send, mbind, IO_bind, io_bind, lift.
  intros -> Hresponse Hjson Hobj. simpl in *.
  rewrite Hresponse. simpl. rewrite Hjson. simpl. rewrite Hobj. simpl.
  split.
  - intros -> description message Hd Hm. simpl. unfold mbind, result_bind.
    rewrite Hd. simpl. by rewrite Hm.
  - intros -> src Hsrc. simpl. by rewrite Hsrc.
Qed.

End LiveFacts.

Section LiveExamples.
Import Py Net Live Fixtures.

Lemma login_without_session_cookie_witness :
  (login (PStr "user@example.com") (PStr "wrong")
     (serve (body "<html>Sign in failed</html>")) []).1 = Ok PNone.
Proof.
  apply (login_without_session_cookie (PStr "user@example.com") (PStr "wrong")
           (serve (body "<html>Sign in failed</html>")) []
           (body "<html>Sign in failed</html>") eq_refl eq_refl).
Defined.

(** C6 fails on the code for a cookie that is not null but empty:
    nothing is raised on a refusal, [None] is returned and no request is
    issued. *)
Lemma hls_url_empty_cookie_returns_null :
  PStr EmptyString ≠ PNone
  ∧ json (H:=refusal_runtime) (body "{refusal}") = Ok refusal
  ∧ getitem refusal "resultObj" = Ok PNone
  ∧ hls_url (H:=refusal_runtime) (PStr EmptyString) (PInt 2020)
      (serve (body "{refusal}")) []
    = (Ok PNone, []).
Proof. repeat split; try discriminate; reflexivity. Qed.

Lemma hls_url_resolves_or_raises_witness :
  (hls_url (H:=refusal_runtime) (PStr "avs-token") (PInt 2020)
     (serve (body "{refusal}")) []).1
  = Raise (BTError (PStr "ACN_3000") (PStr "Not entitled")).
Proof.
  apply (proj1 (hls_url_resolves_or_raises (H:=refusal_runtime)
                  (PStr "avs-token") (PInt 2020) (serve (body "{refusal}")) []
                  (body "{refusal}") refusal PNone
                  eq_refl eq_refl eq_refl eq_refl)
           eq_refl (PStr "ACN_3000") (PStr "Not entitled") eq_refl eq_refl).
Defined.

End LiveExamples.

(** ** Floats: integers below 2^53 and their quotients *)

Section FloatFacts.
Import Py.
Local Open Scope Z_scope.

(** The number of binary digits of a positive number. *)
Lemma digits2_pos_bounds (m : positive) :
  2 ^ (Zpos (digits2_pos m) - 1) <= Zpos m < 2 ^ Zpos (digits2_pos m).
Proof.
  induction m as [m IH|m IH|]; cbn [digits2_pos].
  - rewrite Pos2Z.inj_succ, (Pos2Z.inj_xI m).
    replace (Z.succ (Zpos (digits2_pos m)) - 1)
      with (Z.succ (Zpos (digits2_pos m) - 1)) by lia.
    rewrite !Z.pow_succ_r by lia. lia.
  - rewrite Pos2Z.inj_succ, (Pos2Z.inj_xO m).
    replace (Z.succ (Zpos (digits2_pos m)) - 1)
      with (Z.succ (Zpos (digits2_pos m) - 1)) by lia.
    rewrite !Z.pow_succ_r by lia. lia.
  - simpl. lia.
Qed.

Lemma digits2_pos_unique (m : positive) (k : Z) :
  2 ^ (k - 1) <= Zpos m < 2 ^ k → Zpos (digits2_pos m) = k.
Proof.
  intros [Hlo Hhi]. pose proof (digits2_pos_bounds m) as [Hlo' Hhi'].
  assert (0 < k).
  { destruct (Z_lt_le_dec 0 k) as [|Hk]; [assumption|].
    assert (2 ^ k <= 2 ^ 0) by (apply Z.pow_le_mono_r; lia).
    simpl in *. lia. }
  destruct (Z_lt_le_dec (Zpos (digits2_pos m)) k) as [Hlt|Hge].
  - assert (2 ^ Zpos (digits2_pos m) <= 2 ^ (k - 1))
      by (apply Z.pow_le_mono_r; lia).
    lia.
  - destruct (Z_lt_le_dec k (Zpos (digits2_pos m))) as [Hlt|Hle]; [|lia].
    assert (2 ^ k <= 2 ^ (Zpos (digits2_pos m) - 1))
      by (apply Z.pow_le_mono_r; lia).
    lia.
Qed.

Lemma iter_xO_value (m k : positive) :
  Zpos (Pos.iter xO m k) = Zpos m * 2 ^ Zpos k.
Proof.
  induction k as [|k IH] using Pos.peano_ind.
  - simpl. lia.
  - rewrite Pos.iter_succ, (Pos2Z.inj_xO (Pos.iter xO m k)), IH,
      Pos2Z.inj_succ, Z.pow_succ_r by lia.
    lia.
Qed.

(** A mantissa of 53 digits with an exponent in range needs no rounding. *)
Lemma binary_round_aux_exact s (m : positive) (e : Z) :
  2 ^ 52 <= Zpos m < 2 ^ 53 → -1074 <= e <= 971 →
  binary_round_aux prec emax s (Zpos m) e loc_Exact = S754_finite s m e.
Proof.
  intros Hm He.
  pose proof (digits2_pos_unique m 53 Hm) as Hd.
  unfold binary_round_aux, shr_fexp, fexp, emin, prec, emax.
  cbn [Zdigits2 shr_record_of_loc]. rewrite Hd.
  replace (Z.max (53 + e - 53) (3 - 1024 - 53) - e) with 0 by lia.
  cbn [shr shr_m loc_of_shr_record round_nearest_even Zdigits2].
  rewrite Hd.
  replace (Z.max (53 + e - 53) (3 - 1024 - 53) - e) with 0 by lia.
  cbn [shr shr_m].
  destruct (Z.leb_spec e (1024 - 53)); [reflexivity|lia].
Qed.

(** A positive integer below 2^53 converts exactly, to a float with a
    mantissa of 53 digits. *)
Lemma float_of_Z_exact (n : positive) :
  Zpos n < 2 ^ 53 →
  ∃ M E, float_of_Z (Zpos n) = Ok (S754_finite false M E)
         ∧ 2 ^ 52 <= Zpos M < 2 ^ 53 ∧ -52 <= E <= 0
         ∧ Zpos M = Zpos n * 2 ^ (- E).
Proof.
  intros Hn. pose proof (digits2_pos_bounds n) as [Hlo Hhi].
  set (d := Zpos (digits2_pos n)) in *.
  assert (1 <= d <= 53) as Hd.
  { split; [unfold d; lia|].
    destruct (Z_lt_le_dec 53 d) as [Hlt|]; [|assumption].
    assert (2 ^ 53 <= 2 ^ (d - 1)) by (apply Z.pow_le_mono_r; lia). lia. }
  unfold float_of_Z, binary_normalize, binary_round, shl_align, fexp, emin,
    prec, emax.
  fold d.
  destruct (Z.eq_dec d 53) as [Hd53|Hd53].
  - replace (Z.max (d + 0 - 53) (3 - 1024 - 53) - 0) with 0 by lia.
    replace (Z.max (d + 0 - 53) (3 - 1024 - 53)) with 0 by lia.
    rewrite Hd53 in Hlo. change (53 - 1) with 52 in Hlo.
    pose proof (binary_round_aux_exact false n 0) as Hr.
    unfold prec, emax in Hr. rewrite Hr by lia.
    exists n, 0. repeat split; lia.
  - replace (Z.max (d + 0 - 53) (3 - 1024 - 53) - 0)
      with (Zneg (Z.to_pos (53 - d))) by lia.
    replace (Z.max (d + 0 - 53) (3 - 1024 - 53)) with (d - 53) by lia.
    set (M := Pos.iter xO n (Z.to_pos (53 - d))).
    assert (Zpos M = Zpos n * 2 ^ (53 - d)) as HM.
    { unfold M. rewrite iter_xO_value. f_equal. f_equal. lia. }
    assert (2 ^ (d - 1) * 2 ^ (53 - d) = 2 ^ 52) as Hp1
      by (rewrite <- Z.pow_add_r by lia; f_equal; lia).
    assert (2 ^ d * 2 ^ (53 - d) = 2 ^ 53) as Hp2
      by (rewrite <- Z.pow_add_r by lia; f_equal; lia).
    assert (0 < 2 ^ (53 - d)) by (apply Z.pow_pos_nonneg; lia).
    assert (2 ^ 52 <= Zpos M < 2 ^ 53) as HMb by nia.
    pose proof (binary_round_aux_exact false M (d - 53)) as Hr.
    unfold prec, emax in Hr. rewrite Hr by lia.
    exists M, (d - 53). repeat split; try lia.
    rewrite HM. f_equal. f_equal. lia.
Qed.

(** Truncating such a float gives the integer back. *)
Lemma int_of_float_exact (n : Z) (M : positive) (E : Z) :
  E <= 0 → Zpos M = n * 2 ^ (- E) →
  int_of_float (S754_finite false M E) = Ok n.
Proof.
  intros HE HM. unfold int_of_float, cond_Zopp.
  destruct (Z.leb_spec 0 E) as [H0|H0].
  - replace E with 0 in * by lia. simpl in HM. f_equal. simpl. lia.
  - f_equal. rewrite HM. apply Z.div_mul.
    apply Z.pow_nonzero; lia.
Qed.

Lemma binary_normalize_exact (n : positive) s :
  Zpos n < 2 ^ 53 →
  ∃ M E, binary_normalize prec emax (Zpos n) 0 s = S754_finite false M E
         ∧ E <= 0 ∧ Zpos M = Zpos n * 2 ^ (- E).
Proof.
  intros Hn. destruct (float_of_Z_exact n Hn) as (M & E & Hf & _ & HE & HM).
  exists M, E. split; [|split; [lia|assumption]].
  unfold float_of_Z in Hf. cbn [binary_normalize] in *.
  destruct (binary_round prec emax false n 0); congruence.
Qed.

(** Rounding to nearest, ties to even, moves to a neighbour: it keeps an
    exact value, and keeps a value only when the fraction cut off is at
    most one half. *)
Lemma round_nearest_even_located l m r D :
  located l r D → 0 <= r < D →
  (round_nearest_even m l = m ∨ round_nearest_even m l = m + 1)
  ∧ (r = 0 → round_nearest_even m l = m)
  ∧ (round_nearest_even m l = m → 2 * r <= D).
Proof.
  destruct l as [|[]]; simpl; intros Hl Hr;
    try destruct (Z.even m); repeat split; try (left; reflexivity);
    try (right; reflexivity); intros; lia.
Qed.

Lemma new_location_located D r :
  0 < D → 0 <= r < D → located (new_location D r) r D.
Proof.
  intros HD Hr. unfold new_location, new_location_even, new_location_odd.
  destruct (Z.even D) eqn:Heven.
  - destruct (Z.eqb_spec r 0); [assumption|].
    destruct (Z.compare_spec (2 * r) D); simpl; lia.
  - destruct (Z.eqb_spec r 0); [assumption|].
    assert (Z.odd D = true) as Hodd by (rewrite <- Z.negb_even, Heven; reflexivity).
    apply Z.odd_spec in Hodd as [k Hk].
    destruct (Z.compare_spec (2 * r + 1) D); simpl; lia.
Qed.

Lemma shr_record_of_loc_back m l :
  shr_m (shr_record_of_loc m l) = m
  ∧ loc_of_shr_record (shr_record_of_loc m l) = l.
Proof. by destruct l as [|[]]. Qed.

(** One shift to the right halves the mantissa and keeps track of the
    fraction cut off. *)
Lemma shr_1_located l (q : positive) r D :
  0 < D → 0 <= r < D → located l r D →
  ∃ m1 b, Zpos q = 2 * m1 + b ∧ (b = 0 ∨ b = 1)
          ∧ shr_m (shr_1 (shr_record_of_loc (Zpos q) l)) = m1
          ∧ located (loc_of_shr_record (shr_1 (shr_record_of_loc (Zpos q) l)))
              (b * D + r) (2 * D).
Proof.
  intros HD Hr Hl.
  destruct q as [q|q|].
  - exists (Zpos q), 1. rewrite (Pos2Z.inj_xI q).
    destruct l as [|[]]; simpl in *; repeat split; auto; lia.
  - exists (Zpos q), 0. rewrite (Pos2Z.inj_xO q).
    destruct l as [|[]]; simpl in *; repeat split; auto; lia.
  - exists 0, 1.
    destruct l as [|[]]; simpl in *; repeat split; auto; lia.
Qed.

Lemma shr_fexp_53 (m : positive) e l :
  2 ^ 52 <= Zpos m < 2 ^ 53 → -1074 <= e →
  shr_fexp prec emax (Zpos m) e l = (shr_record_of_loc (Zpos m) l, e).
Proof.
  intros Hm He. pose proof (digits2_pos_unique m 53 Hm) as Hd.
  unfold shr_fexp, fexp, emin, prec, emax. cbn [Zdigits2]. rewrite Hd.
  replace (Z.max (53 + e - 53) (3 - 1024 - 53) - e) with 0 by lia.
  reflexivity.
Qed.

Lemma shr_fexp_54 (m : positive) e l :
  2 ^ 53 <= Zpos m < 2 ^ 54 → -1074 <= e →
  shr_fexp prec emax (Zpos m) e l
  = (shr_1 (shr_record_of_loc (Zpos m) l), e + 1).
Proof.
  intros Hm He. pose proof (digits2_pos_unique m 54 Hm) as Hd.
  unfold shr_fexp, fexp, emin, prec, emax. cbn [Zdigits2]. rewrite Hd.
  replace (Z.max (54 + e - 53) (3 - 1024 - 53) - e) with 1 by lia.
  reflexivity.
Qed.

(** After rounding, a mantissa that reached 2^53 is shifted once more;
    the value stays the same. *)
Lemma shr_fexp_rounded (m2 e1 : Z) :
  2 ^ 52 <= m2 <= 2 ^ 53 → -1074 <= e1 →
  ∃ (m : positive) e2,
    shr_fexp prec emax m2 e1 loc_Exact
    = ({| shr_m := Zpos m; shr_r := false; shr_s := false |}, e2)
    ∧ Zpos m < 2 ^ 53
    ∧ (Zpos m = m2 ∧ e2 = e1 ∨ m2 = 2 ^ 53 ∧ Zpos m = 2 ^ 52 ∧ e2 = e1 + 1).
Proof.
  intros Hm He. destruct m2 as [|m2|m2]; try (simpl in Hm; lia).
  destruct (Z_lt_le_dec (Zpos m2) (2 ^ 53)) as [Hlt|Hge].
  - exists m2, e1. rewrite shr_fexp_53 by lia. simpl. auto.
  - assert (Zpos m2 = 2 ^ 53) as Heq by lia.
    exists (Z.to_pos (2 ^ 52)), (e1 + 1).
    rewrite shr_fexp_54 by lia.
    change (2 ^ 53) with (Zpos (Z.to_pos (2 ^ 53))) in Heq.
    injection Heq as ->. simpl. split; [reflexivity|]. split; [lia|].
    right. auto.
Qed.

(** The ceiling survives the rounding of a quotient below 2^53. *)
Lemma ceil_of_rounded n p t m1 r1 D1 m2 K :
  0 < p → 0 <= n < 2 ^ 53 → 0 <= t → 0 < D1 → 0 <= r1 < D1 →
  n * 2 ^ t * D1 = p * (m1 * D1 + r1) →
  2 ^ 52 <= m1 →
  (m2 = m1 ∨ m2 = m1 + 1) → (r1 = 0 → m2 = m1) → (m2 = m1 → 2 * r1 <= D1) →
  (K - 1) * p < n <= K * p →
  (K - 1) * 2 ^ t < m2 <= K * 2 ^ t.
Proof.
  intros Hp Hn Ht HD Hr Hrel Hm1 Hm2 Hexact Hkeep HK.
  assert (0 < 2 ^ t) as HT by (apply Z.pow_pos_nonneg; lia).
  set (T := 2 ^ t) in *.
  change (2 ^ 53) with 9007199254740992 in *.
  change (2 ^ 52) with 4503599627370496 in *.
  assert (0 < T * D1) as HTD by (apply Z.mul_pos_pos; assumption).
  assert (m1 * D1 + r1 <= K * T * D1) as Hup.
  { apply (Z.mul_le_mono_pos_l _ _ p Hp). rewrite <- Hrel.
    replace (n * T * D1) with (n * (T * D1)) by ring.
    replace (p * (K * T * D1)) with (K * p * (T * D1)) by ring.
    apply Z.mul_le_mono_nonneg_r; lia. }
  assert ((K - 1) * T * D1 < m1 * D1 + r1) as Hlow.
  { apply (Z.mul_lt_mono_pos_l p _ _ Hp). rewrite <- Hrel.
    replace (n * T * D1) with (n * (T * D1)) by ring.
    replace (p * ((K - 1) * T * D1)) with ((K - 1) * p * (T * D1)) by ring.
    apply Z.mul_lt_mono_pos_r; lia. }
  assert ((K - 1) * T < m1 + 1) as Hlow'.
  { apply (Z.mul_lt_mono_pos_r D1 _ _ HD). lia. }
  split.
  - destruct Hm2 as [-> | ->]; [|assumption].
    destruct (Z_lt_le_dec ((K - 1) * T) m1) as [|Hle]; [assumption|].
    exfalso. specialize (Hkeep eq_refl).
    assert (m1 = (K - 1) * T) as Hm by lia.
    assert (p * (2 * r1) <= p * D1)
      by (apply Z.mul_le_mono_nonneg_l; lia).
    assert (2 * (n - (K - 1) * p) * T <= p) as Hp2.
    { apply (Z.mul_le_mono_pos_r _ _ D1 HD).
      replace (2 * (n - (K - 1) * p) * T * D1)
        with (2 * (n * T * D1) - 2 * (p * ((K - 1) * T * D1))) by ring.
      rewrite Hrel, Hm. lia. }
    assert (1 <= K - 1).
    { destruct (Z_lt_le_dec 0 (K - 1)); [lia|].
      assert ((K - 1) * T <= 0) by (apply Z.mul_nonpos_nonneg; lia). lia. }
    assert (2 * T <= p).
    { assert (1 * (2 * T) <= (n - (K - 1) * p) * (2 * T))
        by (apply Z.mul_le_mono_nonneg_r; lia).
      lia. }
    assert ((K - 1) * (2 * T) <= (K - 1) * p)
      by (apply Z.mul_le_mono_nonneg_l; lia).
    lia.
  - destruct Hm2 as [-> | ->].
    + apply (Z.mul_le_mono_pos_r _ _ D1 HD). lia.
    + destruct (Z.eq_dec r1 0) as [H0|H0].
      * specialize (Hexact H0). lia.
      * assert (m1 < K * T); [|lia].
        apply (Z.mul_lt_mono_pos_r D1 _ _ HD). lia.
Qed.

Lemma ceil_value_bounds m e K :
  e <= 0 → (K - 1) * 2 ^ (- e) < m <= K * 2 ^ (- e) → ceil_value m e = K.
Proof.
  intros He HK. unfold ceil_value.
  destruct (Z.leb_spec 0 e) as [H0|H0].
  - replace e with 0 in * by lia. simpl in HK. simpl. lia.
  - assert (0 < 2 ^ (- e)) as HT by (apply Z.pow_pos_nonneg; lia).
    set (T := 2 ^ (- e)) in *.
    assert (- m / T = - K); [|lia].
    symmetry. apply (Z.div_unique_pos (- m) T (- K) (K * T - m)); lia.
Qed.

Lemma ceil_value_renormalized m e2 m2 e1 K :
  e1 <= 0 → (K - 1) * 2 ^ (- e1) < m2 <= K * 2 ^ (- e1) →
  (m = m2 ∧ e2 = e1 ∨ m2 = 2 ^ 53 ∧ m = 2 ^ 52 ∧ e2 = e1 + 1) →
  ceil_value m e2 = K.
Proof.
  intros He HK [[-> ->] | (-> & -> & ->)].
  - by apply ceil_value_bounds.
  - change (2 ^ 53) with 9007199254740992 in *.
    change (2 ^ 52) with 4503599627370496 in *.
    destruct (Z.eq_dec e1 0) as [->|Hne].
    + simpl in HK. unfold ceil_value. simpl. lia.
    + apply ceil_value_bounds; [lia|].
      assert (0 < 2 ^ (- (e1 + 1))) by (apply Z.pow_pos_nonneg; lia).
      replace (2 ^ (- e1)) with (2 * 2 ^ (- (e1 + 1))) in HK
        by (rewrite <- Z.pow_succ_r by lia; f_equal; lia).
      lia.
Qed.

(** Rounding the quotient [q + r / D], scaled by [2 ^ e], of two
    integers [n] and [p]: the result is a finite float whose ceiling is
    the ceiling of [n / p]. *)
Lemma binary_round_aux_quotient (q : positive) e l r D n p K :
  2 ^ 52 <= Zpos q < 2 ^ 54 → -1074 <= e <= -1 →
  0 < D → 0 <= r < D → located l r D →
  0 < p → 0 <= n < 2 ^ 53 →
  n * 2 ^ (- e) * D = p * (Zpos q * D + r) →
  (K - 1) * p < n <= K * p →
  ∃ (m : positive) e2,
    binary_round_aux prec emax false (Zpos q) e l = S754_finite false m e2
    ∧ Zpos m < 2 ^ 53 ∧ e2 <= 1 ∧ ceil_value (Zpos m) e2 = K.
Proof.
  intros Hq He HD Hr Hl Hp Hn Hrel HK.
  unfold binary_round_aux.
  destruct (Z_lt_le_dec (Zpos q) (2 ^ 53)) as [Hlt|Hge].
  - rewrite shr_fexp_53 by lia.
    destruct (shr_record_of_loc_back (Zpos q) l) as [-> ->].
    destruct (round_nearest_even_located l (Zpos q) r D Hl Hr)
      as (Hm2 & Hexact & Hkeep).
    set (m2 := round_nearest_even (Zpos q) l) in *.
    destruct (shr_fexp_rounded m2 e) as (m & e2 & -> & Hm & Hcases); [lia..|].
    cbn [shr_m]. unfold prec, emax.
    destruct (Z.leb_spec e2 (1024 - 53)); [|lia].
    exists m, e2. repeat split; [assumption|lia|].
    apply (ceil_value_renormalized _ _ m2 e K); [lia| |assumption].
    apply (ceil_of_rounded n p (- e) (Zpos q) r D); try assumption; lia.
  - rewrite shr_fexp_54 by lia.
    destruct (shr_1_located l q r D HD Hr Hl) as (m1 & b & Hqb & Hb & -> & Hl').
    assert (0 <= b * D + r < 2 * D) as Hr' by (destruct Hb as [-> | ->]; lia).
    destruct (round_nearest_even_located _ m1 _ _ Hl' Hr')
      as (Hm2 & Hexact & Hkeep).
    set (m2 := round_nearest_even m1 _) in *.
    change (2 ^ 53) with 9007199254740992 in *.
    change (2 ^ 54) with 18014398509481984 in *.
    change (2 ^ 52) with 4503599627370496 in *.
    destruct (shr_fexp_rounded m2 (e + 1)) as (m & e2 & -> & Hm & Hcases);
      [change (2 ^ 53) with 9007199254740992;
       change (2 ^ 52) with 4503599627370496; lia..|].
    cbn [shr_m]. unfold prec, emax.
    destruct (Z.leb_spec e2 (1024 - 53)); [|lia].
    exists m, e2. repeat split; [assumption|lia|].
    apply (ceil_value_renormalized _ _ m2 (e + 1) K); [lia| |assumption].
    replace (- (e + 1)) with (- e - 1) by lia.
    apply (ceil_of_rounded n p (- e - 1) m1 (b * D + r) (2 * D));
      try assumption; try lia.
    replace (2 ^ (- e)) with (2 * 2 ^ (- e - 1)) in Hrel
      by (rewrite <- Z.pow_succ_r by lia; f_equal; lia).
    rewrite Hqb in Hrel.
    replace (n * 2 ^ (- e - 1) * (2 * D)) with (n * (2 * 2 ^ (- e - 1)) * D)
      by ring.
    rewrite Hrel. ring.
Qed.

(** The quotient of two floats with mantissas of 53 digits, away from
    the subnormal range, when the floats stand for integers [n] and [p]
    with [n / p = (M1 * 2 ^ E1) / (M2 * 2 ^ E2)]. *)
Lemma SFdiv_quotient (M1 M2 : positive) E1 E2 n p K :
  2 ^ 52 <= Zpos M1 < 2 ^ 53 → 2 ^ 52 <= Zpos M2 < 2 ^ 53 →
  -1021 <= E1 - E2 <= 52 →
  n * 2 ^ (53 + E2 - E1) * Zpos M2 = p * (Zpos M1 * 2 ^ 53) →
  0 < p → 0 <= n < 2 ^ 53 → (K - 1) * p < n <= K * p →
  ∃ (m : positive) e2,
    SFdiv prec emax (S754_finite false M1 E1) (S754_finite false M2 E2)
    = S754_finite false m e2
    ∧ Zpos m < 2 ^ 53 ∧ e2 <= 1 ∧ ceil_value (Zpos m) e2 = K.
Proof.
  intros HM1 HM2 HE Hrel Hp Hn HK.
  pose proof (digits2_pos_unique M1 53 HM1) as Hd1.
  pose proof (digits2_pos_unique M2 53 HM2) as Hd2.
  unfold SFdiv, SFdiv_core_binary. cbn [Zdigits2 xorb]. rewrite Hd1, Hd2.
  unfold fexp, emin, prec, emax. cbv zeta.
  replace (Z.min (Z.max (53 + E1 - (53 + E2) - 53) (3 - 1024 - 53)) (E1 - E2))
    with (E1 - E2 - 53) by lia.
  replace (E1 - E2 - (E1 - E2 - 53)) with 53 by lia. cbv iota.
  rewrite Z.shiftl_mul_pow2 by lia.
  pose proof (Z_div_mod (Zpos M1 * 2 ^ 53) (Zpos M2) ltac:(lia)) as Hdiv.
  destruct (Z.div_eucl (Zpos M1 * 2 ^ 53) (Zpos M2)) as [q r].
  destruct Hdiv as [Hdiv Hr].
  replace (- (E1 - E2 - 53)) with (53 + E2 - E1) by lia.
  change (2 ^ 53) with 9007199254740992 in *.
  change (2 ^ 52) with 4503599627370496 in *.
  assert (4503599627370496 <= q < 18014398509481984) as Hq by nia.
  destruct q as [|q|q]; try lia.
  apply (binary_round_aux_quotient q (E1 - E2 - 53) _ r (Zpos M2) n p K);
    try assumption;
    try (change (2 ^ 52) with 4503599627370496;
         change (2 ^ 53) with 9007199254740992;
         change (2 ^ 54) with 18014398509481984; lia).
  - apply new_location_located; lia.
  - replace (- (E1 - E2 - 53)) with (53 + E2 - E1) by lia.
    rewrite Hrel. f_equal. lia.
Qed.

(** [int(math.ceil(x))] of a finite positive float whose ceiling is
    below 2^53. *)
Lemma int_of_ceil (m : positive) e :
  ceil_value (Zpos m) e < 2 ^ 53 →
  int_of_float (math_ceil (S754_finite false m e)) = Ok (ceil_value (Zpos m) e).
Proof.
  unfold math_ceil, ceil_value.
  destruct (Z.leb_spec 0 e) as [He|He]; intros Hm.
  - unfold int_of_float. destruct (Z.leb_spec 0 e); [reflexivity|lia].
  - cbn [cond_Zopp].
    assert (0 < 2 ^ (- e)) as HT by (apply Z.pow_pos_nonneg; lia).
    set (T := 2 ^ (- e)) in *.
    pose proof (Z.div_mod (- Zpos m) T ltac:(lia)) as Hdm.
    pose proof (Z.mod_pos_bound (- Zpos m) T HT) as Hmod.
    remember (- (- Zpos m / T)) as c eqn:Hceq.
    assert (1 <= c) as Hc by nia.
    destruct c as [|c'|c']; try lia.
    destruct (binary_normalize_exact c' false) as (M & E & -> & HE & HM); [lia|].
    by apply int_of_float_exact.
Qed.

(** *** Divisors of 2^53 and more *)

Lemma digits2_pos_above (m : positive) (k : Z) :
  2 ^ k <= Zpos m → k < Zpos (digits2_pos m).
Proof.
  intros Hm. pose proof (digits2_pos_bounds m) as [_ Hhi].
  destruct (Z_lt_le_dec k (Zpos (digits2_pos m))) as [|Hle]; [assumption|].
  assert (2 ^ Zpos (digits2_pos m) <= 2 ^ k) by (apply Z.pow_le_mono_r; lia).
  lia.
Qed.

Lemma digits2_pos_below (m : positive) (k : Z) :
  0 <= k → Zpos m < 2 ^ k → Zpos (digits2_pos m) <= k.
Proof.
  intros Hk Hm. pose proof (digits2_pos_bounds m) as [Hlo _].
  destruct (Z_lt_le_dec k (Zpos (digits2_pos m))) as [Hlt|]; [|assumption].
  assert (2 ^ k <= 2 ^ (Zpos (digits2_pos m) - 1))
    by (apply Z.pow_le_mono_r; lia).
  lia.
Qed.

Lemma shr_1_halves mrs :
  0 <= shr_m mrs → shr_m (shr_1 mrs) = shr_m mrs / 2.
Proof.
  destruct mrs as [m r s]. cbn [shr_m]. intros Hm.
  destruct m as [|[m|m|]|m]; cbn [shr_1 shr_m]; try lia.
  - reflexivity.
  - rewrite (Pos2Z.inj_xI m).
    apply (Z.div_unique_pos _ _ _ 1); lia.
  - rewrite (Pos2Z.inj_xO m).
    apply (Z.div_unique_pos _ _ _ 0); lia.
  - reflexivity.
Qed.

Lemma iter_shr_1_divides (k : positive) mrs :
  0 <= shr_m mrs →
  shr_m (SpecFloat.iter_pos shr_1 k mrs) = shr_m mrs / 2 ^ Zpos k.
Proof.
  revert mrs. induction k as [k IH|k IH|]; intros mrs Hm; cbn [SpecFloat.iter_pos].
  - assert (0 <= shr_m (shr_1 mrs))
      by (rewrite shr_1_halves by assumption; apply Z.div_pos; lia).
    assert (0 <= shr_m (SpecFloat.iter_pos shr_1 k (shr_1 mrs)))
      by (rewrite IH by assumption; apply Z.div_pos;
          [assumption|apply Z.pow_pos_nonneg; lia]).
    rewrite !IH, shr_1_halves by assumption.
    rewrite !Z.div_div
      by first [lia | apply Z.pow_nonzero; lia | apply Z.pow_pos_nonneg; lia].
    f_equal. rewrite (Pos2Z.inj_xI k).
    replace (2 * Zpos k + 1) with (1 + Zpos k + Zpos k) by lia.
    rewrite !Z.pow_add_r by lia. change (2 ^ 1) with 2. ring.
  - assert (0 <= shr_m (SpecFloat.iter_pos shr_1 k mrs))
      by (rewrite IH by assumption; apply Z.div_pos;
          [assumption|apply Z.pow_pos_nonneg; lia]).
    rewrite !IH by assumption.
    rewrite Z.div_div
      by first [apply Z.pow_nonzero; lia | apply Z.pow_pos_nonneg; lia].
    f_equal. rewrite (Pos2Z.inj_xO k).
    replace (2 * Zpos k) with (Zpos k + Zpos k) by lia.
    rewrite Z.pow_add_r by lia. reflexivity.
  - by apply shr_1_halves.
Qed.

Lemma round_nearest_even_neighbour m l :
  round_nearest_even m l = m ∨ round_nearest_even m l = m + 1.
Proof. destruct l as [|[]]; simpl; try destruct (Z.even m); auto. Qed.

(** Cutting an integer of 54 digits or more down to 53 digits. *)
Lemma shr_fexp_wide (p : positive) :
  2 ^ 53 <= Zpos p →
  ∃ mrs, shr_fexp prec emax (Zpos p) 0 loc_Exact
         = (mrs, Zpos (digits2_pos p) - 53)
         ∧ 2 ^ 52 <= shr_m mrs < 2 ^ 53.
Proof.
  intros Hp. pose proof (digits2_pos_bounds p) as [Hlo Hhi].
  pose proof (digits2_pos_above p 53 Hp) as Hd.
  set (d := Zpos (digits2_pos p)) in *.
  unfold shr_fexp, fexp, emin, prec, emax. cbn [Zdigits2]. fold d.
  replace (Z.max (d + 0 - 53) (3 - 1024 - 53) - 0)
    with (Zpos (Z.to_pos (d - 53))) by lia.
  cbn [shr shr_record_of_loc].
  eexists. split; [f_equal; lia|].
  rewrite iter_shr_1_divides by (cbn [shr_m]; lia). cbn [shr_m].
  replace (Zpos (Z.to_pos (d - 53))) with (d - 53) by lia.
  assert (0 < 2 ^ (d - 53)) as HT by (apply Z.pow_pos_nonneg; lia).
  assert (2 ^ 52 * 2 ^ (d - 53) = 2 ^ (d - 1)) as Hp1
    by (rewrite <- Z.pow_add_r by lia; f_equal; lia).
  assert (2 ^ 53 * 2 ^ (d - 53) = 2 ^ d) as Hp2
    by (rewrite <- Z.pow_add_r by lia; f_equal; lia).
  split.
  - apply Z.div_le_lower_bound; lia.
  - apply Z.div_lt_upper_bound; lia.
Qed.

(** An integer of 2^53 or more that converts without overflow becomes
    a float with a mantissa of 53 digits and a positive exponent. *)
Lemma float_of_Z_large (p : positive) y :
  2 ^ 53 <= Zpos p → float_of_Z (Zpos p) = Ok y →
  ∃ M E, y = S754_finite false M E
         ∧ 2 ^ 52 <= Zpos M < 2 ^ 53 ∧ 1 <= E <= 971.
Proof.
  intros Hp.
  pose proof (digits2_pos_above p 53 Hp) as Hd.
  destruct (shr_fexp_wide p Hp) as (mrs & Hmrs & Hm).
  set (d := Zpos (digits2_pos p)) in *.
  unfold float_of_Z, binary_normalize, binary_round, shl_align, fexp, emin,
    prec, emax.
  fold d.
  replace (Z.max (d + 0 - 53) (3 - 1024 - 53) - 0)
    with (Zpos (Z.to_pos (d - 53))) by lia.
  cbv iota. unfold binary_round_aux.
  unfold prec, emax in Hmrs. rewrite Hmrs.
  destruct (shr_fexp_rounded
              (round_nearest_even (shr_m mrs) (loc_of_shr_record mrs))
              (d - 53))
    as (M & E & HMe & HM & Hcases).
  { destruct (round_nearest_even_neighbour (shr_m mrs) (loc_of_shr_record mrs))
      as [-> | ->]; lia. }
  { lia. }
  unfold prec, emax in HMe. rewrite HMe. cbn [shr_m].
  destruct (Z.leb_spec E (1024 - 53)); [|discriminate].
  intros [= <-]. exists M, E. split; [reflexivity|].
  destruct (round_nearest_even_neighbour (shr_m mrs) (loc_of_shr_record mrs))
    as [Hr | Hr]; rewrite Hr in Hcases; lia.
Qed.

(** At the least exponent a mantissa of at most 53 digits is not
    shifted. *)
Lemma shr_fexp_subnormal (m : positive) l :
  Zpos m < 2 ^ 53 →
  shr_fexp prec emax (Zpos m) (-1074) l
  = (shr_record_of_loc (Zpos m) l, -1074).
Proof.
  intros Hm.
  pose proof (digits2_pos_below m 53 ltac:(lia) Hm) as Hd.
  unfold shr_fexp, fexp, emin, prec, emax. cbn [Zdigits2].
  replace (Z.max (Zpos (digits2_pos m) + -1074 - 53) (3 - 1024 - 53) - -1074)
    with 0 by lia.
  reflexivity.
Qed.

Lemma binary_round_aux_subnormal (q : positive) l :
  Zpos q < 2 ^ 53 →
  ∃ (m : positive) e,
    binary_round_aux prec emax false (Zpos q) (-1074) l
    = S754_finite false m e
    ∧ Zpos m < 2 ^ 53 ∧ -1074 <= e <= -1073.
Proof.
  intros Hq. unfold binary_round_aux.
  rewrite shr_fexp_subnormal by assumption.
  destruct (shr_record_of_loc_back (Zpos q) l) as [-> ->].
  assert (∃ m2 : positive,
            round_nearest_even (Zpos q) l = Zpos m2 ∧ Zpos m2 <= 2 ^ 53)
    as (m2 & -> & Hm2).
  { destruct (round_nearest_even_neighbour (Zpos q) l) as [-> | ->].
    - exists q. split; [reflexivity|lia].
    - exists (q + 1)%positive. split; [reflexivity|lia]. }
  destruct (Z_lt_le_dec (Zpos m2) (2 ^ 53)) as [Hlt|Hge].
  - rewrite shr_fexp_subnormal by assumption.
    simpl. exists m2, (-1074). split; [reflexivity|lia].
  - assert (Zpos m2 = 2 ^ 53) as Heq by lia.
    rewrite shr_fexp_54 by lia.
    change (2 ^ 53) with (Zpos (Z.to_pos (2 ^ 53))) in Heq.
    injection Heq as ->. simpl.
    eexists _, _. split; [reflexivity|]. split; [reflexivity|lia].
Qed.

(** The quotient by a divisor so large that it falls in the subnormal
    range: a positive float below one. *)
Lemma SFdiv_tiny (M1 M2 : positive) E1 E2 :
  2 ^ 52 <= Zpos M1 < 2 ^ 53 → 2 ^ 52 <= Zpos M2 < 2 ^ 53 →
  -1023 <= E1 - E2 <= -1022 →
  ∃ (m : positive) e,
    SFdiv prec emax (S754_finite false M1 E1) (S754_finite false M2 E2)
    = S754_finite false m e
    ∧ ceil_value (Zpos m) e = 1.
Proof.
  intros HM1 HM2 HE.
  pose proof (digits2_pos_unique M1 53 HM1) as Hd1.
  pose proof (digits2_pos_unique M2 53 HM2) as Hd2.
  unfold SFdiv, SFdiv_core_binary. cbn [Zdigits2 xorb]. rewrite Hd1, Hd2.
  unfold fexp, emin, prec, emax. cbv zeta.
  replace (Z.min (Z.max (53 + E1 - (53 + E2) - 53) (3 - 1024 - 53)) (E1 - E2))
    with (-1074) by lia.
  assert (E1 - E2 - -1074 = 51 ∨ E1 - E2 - -1074 = 52) as [-> | ->] by lia;
    cbv iota; rewrite Z.shiftl_mul_pow2 by lia;
    (match goal with
     | |- context [Z.div_eucl ?a ?b] =>
         pose proof (Z_div_mod a b ltac:(lia)) as Hdiv;
         destruct (Z.div_eucl a b) as [q r]
     end);
    destruct Hdiv as [Hdiv Hr];
    change (2 ^ 53) with 9007199254740992 in *;
    change (2 ^ 52) with 4503599627370496 in *;
    change (2 ^ 51) with 2251799813685248 in *;
    (assert (1 <= q < 9007199254740992) as Hq by nia);
    (destruct q as [|q|q]; try lia);
    (destruct (binary_round_aux_subnormal q (new_location (Zpos M2) r))
       as (m & e & Hm & Hlt & He);
     [change (2 ^ 53) with 9007199254740992; lia|]);
    unfold prec, emax in Hm; rewrite Hm;
    exists m, e; (split; [reflexivity|]);
    (apply ceil_value_bounds; [lia|]);
    (assert (2 ^ 53 <= 2 ^ (- e)) by (apply Z.pow_le_mono_r; lia));
    lia.
Qed.

End FloatFacts.

(** ** Search client: number of pages *)

Section PagingFacts.
Import Py Net Video.
Context `{Runtime}.
Local Open Scope Z_scope.

(** The quotient rounded up, in integers. *)
Lemma ceiling_quotient n p :
  0 < p → ((n + p - 1) / p - 1) * p < n <= (n + p - 1) / p * p.
Proof.
  intros Hp.
  pose proof (Z.div_mod (n + p - 1) p ltac:(lia)).
  pose proof (Z.mod_pos_bound (n + p - 1) p Hp). nia.
Qed.

(** For a number of results below 2^53 and a page size a float can
    hold, the float computation gives the quotient rounded up. *)
Lemma num_pages_of_ceiling n p y K :
  0 <= n < 2 ^ 53 → 0 < p → float_of_Z p = Ok y →
  (K - 1) * p < n <= K * p →
  num_pages_of (PInt n) p = Ok K.
Proof.
  intros Hn Hp Hy HK. unfold num_pages_of. cbn [py_float].
  destruct p as [|p'|p']; try lia.
  assert (∃ M2 E2, y = S754_finite false M2 E2
                   ∧ 2 ^ 52 <= Zpos M2 < 2 ^ 53 ∧ -52 <= E2 <= 971
                   ∧ (E2 <= 0 → Zpos M2 = Zpos p' * 2 ^ (- E2))
                   ∧ (0 < E2 → 2 ^ 53 <= Zpos p'))
    as (M2 & E2 & -> & HM2 & HE2 & Hsmall & Hlarge).
  { destruct (Z_lt_le_dec (Zpos p') (2 ^ 53)) as [Hlt|Hge].
    - destruct (float_of_Z_exact p' Hlt) as (M2 & E2 & Hy' & ? & ? & ?).
      rewrite Hy in Hy'. injection Hy' as ->.
      exists M2, E2. repeat split; lia.
    - destruct (float_of_Z_large p' y Hge Hy) as (M2 & E2 & -> & ? & ?).
      exists M2, E2. repeat split; lia. }
  rewrite Hy.
  destruct n as [|n'|n']; try lia.
  - assert (K = 0) as -> by nia. reflexivity.
  - destruct (float_of_Z_exact n' ltac:(lia)) as (M1 & E1 & Hx & HM1 & HE1 & Hn1).
    rewrite Hx. cbn [mbind result_bind rbind float_div].
    assert (∃ (m : positive) e2,
              SFdiv prec emax (S754_finite false M1 E1) (S754_finite false M2 E2)
              = S754_finite false m e2
              ∧ ceil_value (Zpos m) e2 = K)
      as (m & e2 & -> & Hceil).
    { destruct (Z_lt_le_dec 0 E2) as [Hpos|Hneg].
      - assert (K = 1) as -> by (specialize (Hlarge Hpos); nia).
        assert (0 < 2 ^ E2) by (apply Z.pow_pos_nonneg; lia).
        assert (2 ^ 1 <= 2 ^ E2) as Hpow by (apply Z.pow_le_mono_r; lia).
        change (2 ^ 1) with 2 in Hpow.
        destruct (Z_lt_le_dec (E1 - E2) (-1021)) as [Htiny|Hnormal].
        + apply SFdiv_tiny; try assumption. lia.
        + assert (2 ^ 52 * 2 <= Zpos M2 * 2 ^ E2) as Hbig
            by (apply Z.mul_le_mono_nonneg; lia).
          change (2 ^ 52 * 2) with (2 ^ 53) in Hbig.
          destruct (SFdiv_quotient M1 M2 E1 E2 (Zpos n') (Zpos M2 * 2 ^ E2) 1)
            as (m & e2 & Hq & _ & _ & Hc); try assumption; try lia.
          * rewrite Hn1.
            replace (2 ^ (53 + E2 - E1)) with (2 ^ 53 * 2 ^ E2 * 2 ^ (- E1))
              by (rewrite <- !Z.pow_add_r by lia; f_equal; lia).
            ring.
          * by exists m, e2.
      - specialize (Hsmall Hneg).
        destruct (SFdiv_quotient M1 M2 E1 E2 (Zpos n') (Zpos p') K)
          as (m & e2 & Hq & _ & _ & Hc); try assumption; try lia.
        + rewrite Hn1, Hsmall.
          assert (2 ^ (53 + E2 - E1) * 2 ^ (- E2) = 2 ^ (- E1) * 2 ^ 53) as Hpow.
          { rewrite <- !Z.pow_add_r by lia. f_equal. lia. }
          replace (Zpos n' * 2 ^ (53 + E2 - E1) * (Zpos p' * 2 ^ (- E2)))
            with (Zpos n' * Zpos p' * (2 ^ (53 + E2 - E1) * 2 ^ (- E2))) by ring.
          rewrite Hpow. ring.
        + by exists m, e2. }
    rewrite <- Hceil. apply int_of_ceil. rewrite Hceil. nia.
Qed.

Lemma video_results_run query page page_size net log response j videos_response :
  (requests_get API_URL
     [("q", PStr "AssetType:(BTVideo)");
      ("fq", PList [PStr "Publist:btsport"; query]);
      ("sort", PStr "publicationdate desc");
      ("wt", PStr "json");
      ("start", PInt ((page - 1) * page_size));
      ("rows", PInt page_size)] [] net log).1 = Ok response →
  json response = Ok j →
  getitem j "response" = Ok videos_response →
  snd <$> (video_results query page page_size net log).1
  = getitem videos_response "numFound" ≫= (fun n => num_pages_of n page_size).
Proof.
  unfold video_results, requests_get, send, mbind, IO_bind, io_bind, lift,
    mret, IO_ret, io_ret.
  simpl. intros Hresponse Hj Hv. rewrite Hresponse. simpl.
  unfold mbind, result_bind. rewrite Hj. simpl. rewrite Hv. simpl.
  destruct (getitem videos_response "numFound") as [nf|]; [|reflexivity].
  simpl. by destruct (num_pages_of nf page_size).
Qed.

(** The amended C4. For every positive page size that converts to a
    float without overflow and every number of results below 2^53 (the
    integers a float holds exactly), the number of pages [video_results]
    returns is the quotient rounded up: the least [k] with
    [numFound <= k * page_size]. *)
Theorem video_results_num_pages query page page_size net log response j
    videos_response numFound size :
  (requests_get API_URL
     [("q", PStr "AssetType:(BTVideo)");
      ("fq", PList [PStr "Publist:btsport"; query]);
      ("sort", PStr "publicationdate desc");
      ("wt", PStr "json");
      ("start", PInt ((page - 1) * page_size));
      ("rows", PInt page_size)] [] net log).1 = Ok response →
  json response = Ok j →
  getitem j "response" = Ok videos_response →
  getitem videos_response "numFound" = Ok (PInt numFound) →
  0 < page_size → float_of_Z page_size = Ok size →
  0 <= numFound < 2 ^ 53 →
  let num_pages := (numFound + page_size - 1) / page_size in
  snd <$> (video_results query page page_size net log).1 = Ok num_pages
  ∧ (num_pages - 1) * page_size < numFound <= num_pages * page_size.
Proof.
  intros Hresponse Hj Hv Hn Hpos Hsize Hfound num_pages.
  pose proof (ceiling_quotient numFound page_size Hpos) as HK.
  fold num_pages in HK. split; [|assumption].
  rewrite (video_results_run _ _ _ _ _ _ _ _ Hresponse Hj Hv), Hn.
  cbn [mbind result_bind rbind].
  by apply (num_pages_of_ceiling _ _ size).
Qed.

End PagingFacts.

Section PagingExamples.
Import Py Net Video Fixtures.
Local Open Scope Z_scope.

Lemma video_results_num_pages_witness :
  snd <$> (video_results (H:=found_runtime 95) (PStr "tags:(football)") 3 10
             (serve (body "{found}")) []).1
  = Ok 10.
Proof.
  apply (proj1 (video_results_num_pages (H:=found_runtime 95)
                  (PStr "tags:(football)") 3 10 (serve (body "{found}")) []
                  (body "{found}") (found 95)
                  (PDict {[ "numFound" := PInt 95; "docs" := PList [] ]}) 95
                  (S754_finite false 5629499534213120 (-49))
                  eq_refl eq_refl eq_refl eq_refl
                  ltac:(lia) ltac:(vm_compute; reflexivity) ltac:(lia))).
Defined.

(** C4 fails on the code beyond 2^53: with 2^53 + 1 results and one
    result per page the float quotient is 2^53, one page short. *)
Lemma video_results_num_pages_float_rounding :
  snd <$> (video_results (H:=found_runtime (2 ^ 53 + 1)) (PStr "tags:(football)")
             1 1 (serve (body "{found}")) []).1
  = Ok (2 ^ 53)
  ∧ (2 ^ 53 + 1 + 1 - 1) / 1 = 2 ^ 53 + 1
  ∧ 2 ^ 53 ≠ 2 ^ 53 + 1.
Proof. split; [vm_compute; reflexivity|]. split; [reflexivity|discriminate]. Qed.

End PagingExamples.

(** ** Catalogue extractor: pages that are not as expected *)

Section MarkerFacts.
Import Py.

Lemma strip_prefix_append p s : strip_prefix p (p +:+ s) = Some s.
Proof.
  induction p as [|c p IH]; [by destruct s|].
  rewrite append_cons. simpl. by rewrite Ascii.eqb_refl.
Qed.

Lemma strip_prefix_inv p s r : strip_prefix p s = Some r → s = p +:+ r.
Proof.
  revert s. induction p as [|c p IH]; intros s.
  - simpl. by intros [= ->].
  - destruct s as [|a s]; simpl; [discriminate|].
    destruct (Ascii.eqb c a) eqn:Hca; [|discriminate].
    apply Ascii.eqb_eq in Hca as ->. intros Hs.
    rewrite append_cons. f_equal. by apply IH.
Qed.

Lemma until_tab_inv s g :
  until_tab s = Some g →
  ∃ post, s = g +:+ String tab post ∧ lacks tab g = true.
Proof.
  revert g. induction s as [|c s IH]; intros g; simpl; [discriminate|].
  destruct (Ascii.eqb c tab) eqn:Hc.
  - intros [= <-]. apply Ascii.eqb_eq in Hc as ->. by exists s.
  - destruct (until_tab s) as [g'|]; [|discriminate].
    intros [= <-]. destruct (IH g' eq_refl) as (post & -> & Hg).
    exists post. split; [by rewrite append_cons|].
    simpl. by rewrite Hc, Hg.
Qed.

Lemma until_tab_append g post : until_tab (g +:+ String tab post) ≠ None.
Proof.
  induction g as [|c g IH].
  - change (EmptyString +:+ ?r) with r. by simpl.
  - rewrite append_cons. simpl. destruct (Ascii.eqb c tab); [done|].
    by destruct (until_tab (g +:+ String tab post)).
Qed.

(** What the search captures follows the marker in the text and ends
    before the first tab after it. *)
Lemma re_search_sound marker s g :
  re_search marker s = Some g →
  ∃ pre post, s = pre +:+ marker +:+ g +:+ String tab post
              ∧ lacks tab g = true.
Proof.
  assert (∀ s, strip_prefix marker s ≫= until_tab = Some g →
               ∃ post, s = marker +:+ g +:+ String tab post ∧ lacks tab g = true)
    as Hhere.
  { intros s'. destruct (strip_prefix marker s') as [r|] eqn:Hr; [|discriminate].
    simpl. intros Hg. apply strip_prefix_inv in Hr as ->.
    destruct (until_tab_inv _ _ Hg) as (post & -> & Hlacks). by exists post. }
  induction s as [|c s IH]; simpl.
  - destruct (strip_prefix marker EmptyString ≫= until_tab) as [g'|] eqn:Hg;
      [|discriminate].
    intros [= ->]. destruct (Hhere _ Hg) as (post & Hs & Hl).
    by exists EmptyString, post.
  - destruct (strip_prefix marker (String c s) ≫= until_tab) as [g'|] eqn:Hg.
    + intros [= ->]. destruct (Hhere _ Hg) as (post & Hs & Hl).
      by exists EmptyString, post.
    + intros Hrec. destruct (IH Hrec) as (pre & post & -> & Hl).
      exists (String c pre), post. by rewrite append_cons.
Qed.

(** A marker that is followed by a tab somewhere is found. *)
Lemma re_search_complete marker pre g post :
  re_search marker (pre +:+ marker +:+ g +:+ String tab post) ≠ None.
Proof.
  assert (∀ s, strip_prefix marker s ≫= until_tab ≠ None →
               re_search marker s ≠ None) as Hfound.
  { intros s Hs.
    destruct s as [|a r]; simpl;
      destruct (strip_prefix marker _ ≫= until_tab) eqn:Hg;
      first [done | by destruct Hs]. }
  induction pre as [|c pre IH].
  - change (EmptyString +:+ ?r) with r. apply Hfound.
    rewrite strip_prefix_append. simpl. apply until_tab_append.
  - rewrite append_cons. simpl.
    by destruct (strip_prefix marker _ ≫= until_tab).
Qed.

Lemma re_search_absent marker s :
  re_search marker s = None →
  ∀ pre g post, s ≠ pre +:+ marker +:+ g +:+ String tab post.
Proof. intros Hnone pre g post ->. by apply (re_search_complete marker pre g post). Qed.

Lemma re_search_none marker s :
  (∀ pre g post, s ≠ pre +:+ marker +:+ g +:+ String tab post) →
  re_search marker s = None.
Proof.
  intros Habsent. destruct (re_search marker s) as [g|] eqn:Hg; [|reflexivity].
  destruct (re_search_sound _ _ _ Hg) as (pre & post & Hs & _).
  by destruct (Habsent pre g post).
Qed.

End MarkerFacts.

Section CatalogueEdges.
Import Py Net Video.
Context `{Runtime}.

(** X1. A catalogue page in which the marker of the page details is
    nowhere followed by a tab makes [categories] raise [AttributeError]
    before it yields anything: the search finds no match and the code
    asks the missing match for its group. *)
Theorem categories_without_marker net log page :
  (requests_get CATEGORIES_URL [] [] net log).1 = Ok page →
  (∀ pre literal post,
     text page ≠ pre +:+ pagedetails_marker +:+ literal +:+ String tab post) →
  (categories net log).1 = Generated [] (Some AttributeError).
Proof.
  intros Hpage Habsent. apply re_search_none in Habsent.
  unfold categories, requests_get, send, mbind, IO_bind, io_bind, lift in *.
  simpl in *. rewrite Hpage. simpl. by rewrite Habsent.
Qed.

(** X2. Whenever [query_text] returns, the literal it evaluated stands
    in the page right after the marker of the properties and runs up to
    the first tab that follows: it holds no tab itself, and the value
    returned is the query built from its evaluation. *)
Theorem query_text_reads_marked_literal path net log page v :
  (requests_get (urljoin "http://sport.bt.com/" path) [] [] net log).1 = Ok page →
  (query_text path net log).1 = Ok v →
  ∃ pre literal post properties,
    text page = pre +:+ properties_marker +:+ literal +:+ String tab post
    ∧ lacks tab literal = true
    ∧ literal_eval literal = Ok properties
    ∧ query_from properties = Ok v.
Proof.
  intros Hpage.
  destruct (re_search properties_marker (text page)) as [literal|] eqn:Hsearch.
  - destruct (literal_eval literal) as [properties|e] eqn:Heval.
    + rewrite (query_text_run path net log page literal properties)
        by assumption.
      intros Hv.
      destruct (re_search_sound _ _ _ Hsearch) as (pre & post & Htext & Hlacks).
      by exists pre, literal, post, properties.
    + unfold query_text, requests_get, send, mbind, IO_bind, io_bind, lift in *.
      simpl in *. rewrite Hpage. simpl. rewrite Hsearch. simpl.
      by rewrite Heval.
  - unfold query_text, requests_get, send, mbind, IO_bind, io_bind, lift in *.
    simpl in *. rewrite Hpage. simpl. by rewrite Hsearch.
Qed.

(** X3. Properties that name a competition but no category make
    [query_text] raise [KeyError] for [ccategory]: the format chosen for
    a competition has a [ccategory] field too. *)
Theorem query_text_competition_without_ccategory path net log page literal
    (d : gmap string pyval) t c :
  (requests_get (urljoin "http://sport.bt.com/" path) [] [] net log).1 = Ok page →
  re_search properties_marker (text page) = Some literal →
  literal_eval literal = Ok (PDict d) →
  d !! "tags" = Some (PStr t) → t ≠ EmptyString →
  d !! "competition" = Some c → d !! "ccategory" = None →
  (query_text path net log).1 = Raise (KeyError "ccategory").
Proof.
  intros Hpage Hsearch Heval Htags Ht Hc Hg.
  rewrite (query_text_run path net log page literal (PDict d)) by assumption.
  rewrite (query_from_tagged d t Htags Ht). cbv zeta. by rewrite Hc, Hg.
Qed.

(** X4. Tags that are true but not a string (a list of tags, a number)
    make [query_text] raise [AttributeError]: only a string can be
    split. *)
Theorem query_text_tags_not_text path net log page literal
    (d : gmap string pyval) v :
  (requests_get (urljoin "http://sport.bt.com/" path) [] [] net log).1 = Ok page →
  re_search properties_marker (text page) = Some literal →
  literal_eval literal = Ok (PDict d) →
  d !! "tags" = Some v → truthy v = true → (∀ s, v ≠ PStr s) →
  (query_text path net log).1 = Raise AttributeError.
Proof.
  intros Hpage Hsearch Heval Htags Htrue Hv.
  rewrite (query_text_run path net log page literal (PDict d)) by assumption.
  unfold query_from. cbn [getitem]. rewrite Htags.
  cbn [mbind result_bind rbind]. rewrite Htrue. cbn [negb].
  destruct v; try reflexivity. by destruct (Hv s).
Qed.

(** A loop that yields one item per element stops at the first element
    whose body raises, after the items of the elements before it. *)
Lemma gen_for_stops {A B} (body : A → result B) good bad rest items e :
  Forall2 (fun x y => body x = Ok y) good items →
  body bad = Raise e →
  gen_for body (good ++ bad :: rest) = Generated items (Some e).
Proof.
  intros Hgood Hbad. induction Hgood as [|x y good items Hx _ IH]; simpl.
  - by rewrite Hbad.
  - by rewrite Hx, IH.
Qed.

(** X5. When an entry of [pages] cannot be read, [categories] has by
    then yielded the default category and one category for every entry
    before it, in order; the exception of the entry ends the generator
    and the entries after it are never looked at. *)
Theorem categories_stop_at_malformed_entry net log page literal pagedetails
    default_url (good : list pyval) bad rest (cats : list Category) e :
  (requests_get CATEGORIES_URL [] [] net log).1 = Ok page →
  re_search pagedetails_marker (text page) = Some literal →
  literal_eval literal = Ok pagedetails →
  getitem pagedetails "defaultpage" ≫= (fun p => getitem p "pageurl")
    = Ok default_url →
  getitem pagedetails "pages" ≫= py_iter = Ok (good ++ bad :: rest) →
  Forall2 (fun entry cat =>
             getitem entry "title" = Ok (c_title cat)
             ∧ getitem entry "pageurl" = Ok (c_path cat)) good cats →
  (t ← getitem bad "title"; p ← getitem bad "pageurl"; Ok (_Category t p))
    = Raise e →
  (categories net log).1
  = Generated (_Category PNone default_url :: cats) (Some e).
Proof.
  intros Hpage Hsearch Heval Hdefault Hpages Hgood Hbad.
  rewrite (categories_run net log page literal pagedetails) by assumption.
  unfold categories_from. rewrite Hdefault, Hpages.
  rewrite (gen_for_stops _ good bad rest cats e); [reflexivity| |assumption].
  eapply Forall2_impl; [exact Hgood|].
  intros entry [t p] [Ht Hp]. simpl in *. by rewrite Ht, Hp.
Qed.

End CatalogueEdges.

Section CatalogueEdgeExamples.
Import Py Net Video Fixtures Doubles.

Lemma categories_without_marker_witness :
  (categories (H:=plain_runtime) (serve (body "<html>Service unavailable</html>"))
     []).1
  = Generated [] (Some AttributeError).
Proof.
  apply (categories_without_marker (H:=plain_runtime)
           (serve (body "<html>Service unavailable</html>")) []
           (body "<html>Service unavailable</html>") eq_refl).
  apply re_search_absent. vm_compute. reflexivity.
Defined.

Lemma query_text_reads_marked_literal_witness :
  ∃ pre literal post properties,
    text football_page
    = pre +:+ properties_marker +:+ literal +:+ String tab post
    ∧ lacks tab literal = true
    ∧ literal_eval (Runtime:=football_runtime) literal = Ok properties
    ∧ query_from (H:=football_runtime) properties
      = Ok (PStr ("tags:(" +:+ dq +:+ "football" +:+ dq +:+ "," +:+ dq
                    +:+ "premier league" +:+ dq +:+ ") OR (ccategory:(" +:+ dq
                    +:+ "Football" +:+ dq +:+ ") AND competition:(" +:+ dq
                    +:+ "Premier League" +:+ dq +:+ "))")).
Proof.
  apply (query_text_reads_marked_literal (H:=football_runtime) "/football"
           (serve football_page) [] football_page _ eq_refl).
  vm_compute. reflexivity.
Defined.

Lemma query_text_competition_without_ccategory_witness :
  (query_text (H:=cup_runtime) "/fa-cup" (serve cup_page) []).1
  = Raise (KeyError "ccategory").
Proof.
  apply (query_text_competition_without_ccategory (H:=cup_runtime) "/fa-cup"
           (serve cup_page) [] cup_page "{cup}" cup_props "fa cup"
           (PStr "FA Cup") eq_refl);
    [vm_compute; reflexivity | vm_compute; reflexivity | reflexivity
    | discriminate | reflexivity | reflexivity].
Defined.

Lemma query_text_tags_not_text_witness :
  (query_text (H:=listed_runtime) "/football" (serve listed_page) []).1
  = Raise AttributeError.
Proof.
  apply (query_text_tags_not_text (H:=listed_runtime) "/football"
           (serve listed_page) [] listed_page "{listed}" listed_props
           (PList [PStr "football"]) eq_refl);
    [vm_compute; reflexivity | vm_compute; reflexivity | reflexivity
    | reflexivity | discriminate].
Defined.

Lemma categories_stop_at_malformed_entry_witness :
  (categories (H:=broken_runtime) (serve broken_page) []).1
  = Generated [_Category PNone (PStr "/all-videos");
               _Category (PStr "Football") (PStr "/football")]
      (Some (KeyError "pageurl")).
Proof.
  apply (categories_stop_at_malformed_entry (H:=broken_runtime)
           (serve broken_page) [] broken_page "{broken}" broken_pagedetails
           (PStr "/all-videos")
           [PDict {[ "title" := PStr "Football"; "pageurl" := PStr "/football" ]}]
           (PDict {[ "title" := PStr "Rugby" ]})
           [PDict {[ "title" := PStr "Boxing"; "pageurl" := PStr "/boxing" ]}]
           [_Category (PStr "Football") (PStr "/football")]
           (KeyError "pageurl") eq_refl);
    [vm_compute; reflexivity | vm_compute; reflexivity | reflexivity
    | reflexivity | | reflexivity].
  constructor; [split; reflexivity | constructor].
Defined.

End CatalogueEdgeExamples.

(** ** Timestamps: what is not accepted *)

Section MatcherFacts.
Import Py Strptime Widths.

(** A successful match hands the continuation what is left of the text
    after a part whose length the expression allows. *)
Lemma rmatch_inv {X} r : ∀ s caps (k : string → captures → option X) x,
  rmatch r s caps k = Some x →
  ∃ p s' caps', s = p +:+ s'
                ∧ min_width r <= String.length p <= max_width r
                ∧ k s' caps' = Some x.
Proof.
  induction r as [c|lo hi|r1 IH1 r2 IH2|r1 IH1 r2 IH2|name r IH];
    intros s caps k x; cbn [rmatch min_width max_width].
  - destruct s as [|a s]; [discriminate|].
    destruct (Ascii.eqb (lower c) (lower a)); [|discriminate].
    intros Hk. exists (String a EmptyString), s, caps. simpl. auto with lia.
  - destruct s as [|a s]; [discriminate|].
    destruct (in_range lo hi a); [|discriminate].
    intros Hk. exists (String a EmptyString), s, caps. simpl. auto with lia.
  - intros Hm.
    destruct (IH1 _ _ _ _ Hm) as (p1 & s1 & caps1 & -> & Hw1 & Hm2).
    destruct (IH2 _ _ _ _ Hm2) as (p2 & s2 & caps2 & -> & Hw2 & Hk).
    exists (p1 +:+ p2), s2, caps2.
    rewrite append_assoc, length_append. auto with lia.
  - destruct (rmatch r1 s caps k) as [y|] eqn:Hm1.
    + intros [= ->].
      destruct (IH1 _ _ _ _ Hm1) as (p & s' & caps' & -> & Hw & Hk).
      exists p, s', caps'. auto with lia.
    + intros Hm2.
      destruct (IH2 _ _ _ _ Hm2) as (p & s' & caps' & -> & Hw & Hk).
      exists p, s', caps'. auto with lia.
  - intros Hm.
    destruct (IH _ _ _ _ Hm) as (p & s' & caps' & -> & Hw & Hk).
    by exists p, s', (((name, consumed (p +:+ s') s')) :: caps').
Qed.

(** A complete match of the text bounds its length. *)
Lemma re_match_complete_width r s caps :
  re_match r s = Some (EmptyString, caps) →
  min_width r <= String.length s <= max_width r.
Proof.
  intros Hm. unfold re_match in Hm.
  destruct (rmatch_inv r _ _ _ _ Hm) as (p & s' & caps' & -> & Hw & [= -> _]).
  by rewrite append_nil_r.
Qed.

Lemma length_str_take n s :
  String.length (str_take n s) = Nat.min n (String.length s).
Proof.
  unfold str_take. revert s.
  induction n as [|n IH]; intros [|c s]; simpl; try reflexivity.
  by rewrite IH.
Qed.

End MatcherFacts.

Section DateEdges.
Import Py Strptime Widths Video.
Local Open Scope Z_scope.

(** X6. A text of fewer than 14 characters is no timestamp for
    [_date_from_str], which raises [ValueError] on it: the shortest text
    the format matches is a year of four digits, five fields of one
    digit and the five separators.  A date without a time of day is
    rejected. *)
Theorem date_from_str_short_text s :
  (String.length s < 14)%nat →
  _date_from_str (PStr s) = Raise ValueError.
Proof.
  intros Hshort. unfold _date_from_str, strptime_iso.
  destruct (re_match iso_regex (str_take 19 s)) as [[[|c rest] caps]|] eqn:Hm;
    try reflexivity.
  apply re_match_complete_width in Hm as [Hmin _].
  rewrite length_str_take in Hmin.
  change (min_width iso_regex) with 14%nat in Hmin. lia.
Qed.

(** X7. A well-formed timestamp of a day the calendar does not have
    (30 February, 31 April, 29 February of a common year, any day of
    the year 0000) makes [_date_from_str] raise [ValueError], whatever
    follows it. *)
Theorem date_from_str_nonexistent_day
    (year month day hour minute second : nat) (suffix : string) :
  Z.of_nat year < 10000 → (1 <= month <= 12)%nat → (1 <= day <= 31)%nat →
  (hour < 24)%nat → (minute < 60)%nat → (second < 60)%nat →
  valid_date (Z.of_nat year) (Z.of_nat month) (Z.of_nat day) = false →
  _date_from_str (PStr (isoformat year month day hour minute second +:+ suffix))
  = Raise ValueError.
Proof.
  intros Hy Hm Hd HH HM HS Hdate.
  unfold _date_from_str. rewrite str_take_isoformat.
  unfold strptime_iso. rewrite re_match_isoformat by assumption.
  change (group_int _ "Y") with (decimal_from 0 (four_digits year)).
  change (group_int _ "m") with (decimal_from 0 (two_digits month)).
  change (group_int _ "d") with (decimal_from 0 (two_digits day)).
  rewrite decimal_four_digits, !decimal_two_digits by lia.
  by rewrite Hdate.
Qed.

(** X8. Whatever [_date_from_str] returns is a date of the calendar:
    its argument was a string, and the result is a [datetime.date] of a
    year from 1 to 9999, a month from 1 to 12 and a day that month
    has. *)
Theorem date_from_str_gives_existing_day v r :
  _date_from_str v = Ok r →
  ∃ s year month day,
    v = PStr s ∧ r = PDate year month day
    ∧ 1 <= year <= 9999 ∧ 1 <= month <= 12
    ∧ 1 <= day <= days_in_month year month.
Proof.
  destruct v as [| | | |s| | | |]; try discriminate.
  unfold _date_from_str.
  destruct (strptime_iso (str_take 19 s))
    as [[[[[[year month] day] hour] minute] second]|e]; [|discriminate].
  cbn [mbind result_bind rbind datetime_date].
  destruct (valid_date year month day) eqn:Hdate; [|discriminate].
  destruct (valid_time hour minute second); [|discriminate].
  intros [= <-]. exists s, year, month, day.
  unfold valid_date in Hdate.
  repeat (apply andb_prop in Hdate as [Hdate ?]).
  repeat split; try reflexivity; lia.
Qed.

End DateEdges.

Section DateEdgeExamples.
Import Py Strptime Video.
Local Open Scope Z_scope.

Lemma date_from_str_short_text_witness :
  _date_from_str (PStr "2020-03-01") = Raise ValueError.
Proof. apply (date_from_str_short_text "2020-03-01"). simpl. lia. Defined.

Lemma date_from_str_nonexistent_day_witness :
  _date_from_str (PStr "2021-02-29T12:00:00Z") = Raise ValueError.
Proof.
  apply (date_from_str_nonexistent_day 2021 2 29 12 0 0 "Z");
    first [lia | reflexivity].
Defined.

Lemma date_from_str_gives_existing_day_witness :
  ∃ s year month day,
    PStr "2020-03-01T12:00:00.500Z" = PStr s ∧ PDate 2020 3 1 = PDate year month day
    ∧ 1 <= year <= 9999 ∧ 1 <= month <= 12
    ∧ 1 <= day <= days_in_month year month.
Proof.
  apply (date_from_str_gives_existing_day (PStr "2020-03-01T12:00:00.500Z")
           (PDate 2020 3 1)).
  vm_compute. reflexivity.
Defined.

End DateEdgeExamples.

(** ** Search client: answers that are not as expected *)

Section SearchEdges.
Import Py Net Video.
Local Open Scope Z_scope.
Context `{Runtime}.

(** X9. [_videos] yields one video for every document, in the order of
    the documents, up to the first document that cannot be converted:
    there the exception of that document ends the generator, and the
    documents after it are not looked at. *)
Theorem videos_stop_at_first_bad_document videos_response
    (good : list pyval) bad rest (videos : list Video) e :
  getitem videos_response "docs" ≫= py_iter = Ok (good ++ bad :: rest) →
  Forall2 (fun doc video => video_of doc = Ok video) good videos →
  video_of bad = Raise e →
  _videos videos_response = Generated videos (Some e).
Proof.
  intros Hdocs Hgood Hbad. unfold _videos. rewrite Hdocs.
  by apply gen_for_stops.
Qed.

(** X10. An optional field that is absent or false (an empty
    publication date, a duration of zero) is not converted: a document
    with a title and a teaser always gives a video, whose date and
    duration are the values found, [None] when absent. *)
Theorem video_of_false_optionals (d : gmap string pyval) title teaser :
  d !! "h1title" = Some title → d !! "teaser" = Some teaser →
  truthy (default PNone (d !! "publicationdate")) = false →
  truthy (default PNone (d !! "duration")) = false →
  video_of (PDict d)
  = Ok (_Video title teaser
          (py_or (default PNone (d !! "hlsurl"))
                 (default PNone (d !! "streamingurl")))
          (py_or (default PNone (d !! "imageurl"))
                 (default PNone (d !! "thumbnailURL")))
          (default PNone (d !! "publicationdate"))
          (default PNone (d !! "duration"))).
Proof.
  intros Htitle Hteaser Hdate Hduration.
  unfold video_of, py_and, py_or. cbn [getitem dict_get].
  rewrite Htitle, Hteaser. cbn [mbind result_bind rbind].
  rewrite Hdate, Hduration.
  by destruct (truthy (default PNone (d !! "hlsurl"))),
    (truthy (default PNone (d !! "imageurl"))).
Qed.


(** X12. An answer without documents does not stop [video_results]: it
    returns the number of pages, and the generator it returns raises
    [KeyError] for [docs] as soon as it is iterated. *)
Theorem video_results_without_docs query page page_size net log response j
    (d : gmap string pyval) num_pages :
  (requests_get API_URL
     [("q", PStr "AssetType:(BTVideo)");
      ("fq", PList [PStr "Publist:btsport"; query]);
      ("sort", PStr "publicationdate desc");
      ("wt", PStr "json");
      ("start", PInt ((page - 1) * page_size));
      ("rows", PInt page_size)] [] net log).1 = Ok response →
  json response = Ok j →
  getitem j "response" = Ok (PDict d) →
  getitem (PDict d) "numFound" ≫= (fun n => num_pages_of n page_size)
    = Ok num_pages →
  d !! "docs" = None →
  (video_results query page page_size net log).1
  = Ok (Generated [] (Some (KeyError "docs")), num_pages).
Proof.
  intros Hresponse Hj Hv Hn Hdocs.
  unfold video_results, requests_get, send, mbind, IO_bind, io_bind, lift,
    mret, IO_ret, io_ret in *.
  simpl in *. rewrite Hresponse. simpl.
  unfold mbind, result_bind. rewrite Hj. simpl. rewrite Hv. simpl.
  unfold mbind, result_bind in Hn. rewrite Hn. simpl.
  unfold _videos. cbn [getitem]. by rewrite Hdocs.
Qed.

(** X13. [search_results] does not escape the term: a double quote in
    it closes the quoted text of the query, and what follows it is
    query syntax.  Searching for [a") OR text:("b] is searching with
    the query of two terms. *)
Theorem search_results_term_not_escaped (a b : string) page page_size :
  search_results (PStr (a +:+ dq +:+ ") OR text:(" +:+ dq +:+ b)) page page_size
  = video_results
      (PStr ("text:(" +:+ dq +:+ a +:+ dq +:+ ") OR text:(" +:+ dq +:+ b
               +:+ dq +:+ ")"))
      page page_size.
Proof.
  unfold search_results. cbn [format_value].
  by rewrite !append_assoc.
Qed.

End SearchEdges.

Section SearchEdgeExamples.
Import Py Net Video Fixtures Doubles.
Local Open Scope Z_scope.

Lemma videos_stop_at_first_bad_document_witness :
  ∃ video,
    _videos (H:=plain_runtime)
      (PDict {[ "docs" := PList [PDict full_doc; PDict untitled_doc;
                                 PDict empty_preferred_doc] ]})
    = Generated [video] (Some (KeyError "teaser"))
    ∧ title video = PStr "Highlights".
Proof.
  destruct (video_of (H:=plain_runtime) (PDict full_doc)) as [video|e] eqn:Hv;
    [|discriminate].
  exists video. split.
  - apply (videos_stop_at_first_bad_document (H:=plain_runtime) _
             [PDict full_doc] (PDict untitled_doc) [PDict empty_preferred_doc]
             [video] (KeyError "teaser")).
    + reflexivity.
    + constructor; [exact Hv | constructor].
    + reflexivity.
  - vm_compute in Hv. by injection Hv as <-.
Defined.

Lemma video_of_false_optionals_witness :
  video_of (H:=plain_runtime) (PDict bare_doc)
  = Ok (_Video (PStr "Highlights") (PStr "All the goals") PNone PNone
          (PStr EmptyString) (PInt 0)).
Proof.
  apply (video_of_false_optionals (H:=plain_runtime) bare_doc
           (PStr "Highlights") (PStr "All the goals")
           eq_refl eq_refl eq_refl eq_refl).
Defined.


Lemma video_results_without_docs_witness :
  (video_results (H:=counted_runtime) (PStr "tags:(football)") 1 10
     (serve (body "{counted}")) []).1
  = Ok (Generated [] (Some (KeyError "docs")), 10).
Proof.
  apply (video_results_without_docs (H:=counted_runtime)
           (PStr "tags:(football)") 1 10 (serve (body "{counted}")) []
           (body "{counted}") counted {[ "numFound" := PInt 95 ]} 10
           eq_refl eq_refl eq_refl);
    vm_compute; reflexivity.
Defined.

End SearchEdgeExamples.

(** ** Channel registry *)

Section RegistryFacts.
Import Py Registry.

(** [dict(pairs)] on pairs with distinct keys holds exactly the pairs. *)
Lemma dict_of_from {V} (pairs : list (string * V)) (acc : gmap string V) k v :
  NoDup pairs.*1 →
  foldl (fun d kv => <[kv.1 := kv.2]> d) acc pairs !! k = Some v
  ↔ (k, v) ∈ pairs ∨ ((k ∉ pairs.*1) ∧ acc !! k = Some v).
Proof.
  revert acc. induction pairs as [|[k' v'] pairs IH]; intros acc Hnodup.
  - simpl. split; [intros Hk; right; split; [apply not_elem_of_nil|done]|].
    intros [Hin|[_ Hk]]; [by apply elem_of_nil in Hin|done].
  - simpl in *. apply NoDup_cons in Hnodup as [Hfresh Hnodup].
    rewrite (IH _ Hnodup). rewrite elem_of_cons, not_elem_of_cons. split.
    + intros [Hin|[Hout Hk]]; [by left; right|].
      destruct (decide (k = k')) as [->|Hne].
      * rewrite lookup_insert_eq in Hk. injection Hk as ->. by left; left.
      * rewrite lookup_insert_ne in Hk by done. by right.
    + intros [[[= -> ->]|Hin]|[[Hne Hout] Hk]].
      * right. split; [done|]. by rewrite lookup_insert_eq.
      * by left.
      * right. split; [done|]. by rewrite lookup_insert_ne.
Qed.

Lemma dict_of_lookup {V} (pairs : list (string * V)) k v :
  NoDup pairs.*1 → dict_of pairs !! k = Some v ↔ (k, v) ∈ pairs.
Proof.
  intros Hnodup. unfold dict_of. rewrite dict_of_from by done.
  rewrite lookup_empty. split; [by intros [Hin|[_ [=]]]|by left].
Qed.

(** X14. The dictionary of [channels_by_id] holds every channel of
    [channels] under the decimal text of its id and nothing else: no
    two channels share an id, so none is replaced by another. *)
Theorem channels_by_id_lookup key channel :
  channels_by_id !! key = Some channel
  ↔ channel ∈ channels ∧ key = str_int (id channel).
Proof.
  unfold channels_by_id. rewrite dict_of_lookup.
  - rewrite list_elem_of_fmap. unfold channels. split.
    + intros (c & [= -> ->] & Hin). done.
    + intros [Hin ->]. by exists channel.
  - apply (bool_decide_unpack _). vm_compute. reflexivity.
Qed.

Context `{Runtime}.

(** X15. The thumbnail of a channel is the address of the image store
    followed by the file name of its logo, for every file name: braces
    in the name are not read as fields, and nothing is raised. *)
Theorem thumbnail_any_logo (self : Channel) :
  thumbnail self
  = Ok ("http://images.atlas.metabroadcast.com/shaman.metabroadcast.com/bt/channels/"
          +:+ logo self).
Proof.
  unfold thumbnail, py_format.
  change ("http://images.atlas.metabroadcast.com/"
            +:+ "shaman.metabroadcast.com/bt/channels/{filename}")
    with ("http://images.atlas.metabroadcast.com/shaman.metabroadcast.com/bt/channels/"
            +:+ String lbrace ("filename" +:+ String rbrace EmptyString)).
  rewrite format_scan_text by reflexivity.
  rewrite format_scan_field by reflexivity.
  rewrite lookup_singleton_eq. simpl. by rewrite append_nil_r.
Qed.

End RegistryFacts.

(** ** Live authentication chain: the sign-on and the failures *)

Section ChainFacts.
Import Py Net Live Sso.


Context `{Runtime}.

(** X17. [hls_url] issues its request exactly when the cookie is true:
    with any false cookie (null, the empty string, zero) it returns
    [None] and the log of requests is unchanged; with a true cookie the
    log grows by the one request to the CDN resolver, whatever the
    outcome. *)
Theorem hls_url_requests avs_cookie channel_id net log :
  (hls_url avs_cookie channel_id net log).2
  = (if truthy avs_cookie
     then log ++ [{| rq_method := GET;
                     rq_url := "https://be.avs.bt.com/AVS/besc";
                     rq_params :=
                       [("action", PStr "GetCDN"); ("type", PStr "LIVE");
                        ("id", channel_id); ("channel", PStr "WEBHLS");
                        ("asJson", PStr "Y")];
                     rq_data := [];
                     rq_cookies := [("avs_cookie", avs_cookie)] |}]
     else log)
  ∧ (if truthy avs_cookie then True
     else (hls_url avs_cookie channel_id net log).1 = Ok PNone).
Proof.
  unfold hls_url. destruct (truthy avs_cookie); [|by split].
  split; [|done].
  unfold requests_get, send, mbind, IO_bind, io_bind, lift. simpl.
  destruct (net log _) as [response|e]; [|reflexivity]. simpl.
  destruct (json response) as [result|e]; [|reflexivity]. simpl.
  destruct (getitem result "resultObj") as [result_obj|e]; [|reflexivity].
  simpl. by destruct (truthy result_obj).
Qed.

(** X18. The answers of the CDN resolver that [hls_url] does not
    expect.  Without [resultObj] it raises [KeyError]; a refusal
    without [errorDescription], or with it and without [message],
    raises [KeyError] for the missing field and no [BTError]; a
    [resultObj] that is true and no dictionary raises [TypeError], and
    a dictionary without [src] raises [KeyError]. *)
Theorem hls_url_unexpected_answers avs_cookie channel_id net log response
    (d : gmap string pyval) :
  truthy avs_cookie = true →
  (requests_get "https://be.avs.bt.com/AVS/besc"
     [("action", PStr "GetCDN"); ("type", PStr "LIVE"); ("id", channel_id);
      ("channel", PStr "WEBHLS"); ("asJson", PStr "Y")]
     [("avs_cookie", avs_cookie)] net log).1 = Ok response →
  json response = Ok (PDict d) →
  (d !! "resultObj" = None →
   (hls_url avs_cookie channel_id net log).1 = Raise (KeyError "resultObj"))
  ∧ (∀ result_obj, d !! "resultObj" = Some result_obj →
       truthy result_obj = false → d !! "errorDescription" = None →
       (hls_url avs_cookie channel_id net log).1
       = Raise (KeyError "errorDescription"))
  ∧ (∀ result_obj description, d !! "resultObj" = Some result_obj →
       truthy result_obj = false →
       d !! "errorDescription" = Some description → d !! "message" = None →
       (hls_url avs_cookie channel_id net log).1 = Raise (KeyError "message"))
  ∧ (∀ result_obj, d !! "resultObj" = Some result_obj →
       truthy result_obj = true → (∀ o, result_obj ≠ PDict o) →
       (hls_url avs_cookie channel_id net log).1 = Raise TypeError)
  ∧ (∀ o : gmap string pyval, d !! "resultObj" = Some (PDict o) →
       truthy (PDict o) = true → o !! "src" = None →
       (hls_url avs_cookie channel_id net log).1 = Raise (KeyError "src")).
Proof.
  unfold hls_url, requests_get, send, mbind, IO_bind, io_bind, lift.
  intros -> Hresponse Hjson. simpl in *.
  rewrite Hresponse. simpl. rewrite Hjson. simpl.
  repeat split.
  - by intros ->.
  - intros result_obj -> ->. simpl. unfold mbind, result_bind. simpl.
    by intros ->.
  - intros result_obj description -> ->. simpl. unfold mbind, result_bind.
    simpl. by intros -> ->.
  - intros result_obj -> ->. simpl. intros Hdict.
    destruct result_obj; try reflexivity. by destruct (Hdict d0).
  - intros o -> Ho Hsrc. simpl in *. rewrite Ho. simpl. by rewrite Hsrc.
Qed.

Context {parser : Soup}.

(** X19. A federation page without the field [SAMLResponse] makes
    [sport_login] raise [TypeError], and a field without a value makes
    it raise [KeyError]; either way the log is the one after the first
    request: nothing is posted to the AVS endpoint. *)
Theorem sport_login_without_assertion session net log page log' :
  requests_get "https://samlfed.bt.com/sportgetfedwebhls" []
    [("SMSESSION", session)] net log = (Ok page, log') →
  (find_input (text page) "SAMLResponse" = None →
   sport_login session net log = (Raise TypeError, log'))
  ∧ (∀ attrs : gmap string string,
       find_input (text page) "SAMLResponse" = Some attrs →
       attrs !! "value" = None →
       sport_login session net log = (Raise (KeyError "value"), log')).
Proof.
  intros Hpage. unfold sport_login, mbind, IO_bind, io_bind, lift.
  rewrite Hpage. split.
  - by intros ->.
  - intros attrs -> Hvalue. simpl. by rewrite Hvalue.
Qed.


End ChainFacts.

Section ChainExamples.
Import Py Net Live Sso Fixtures Doubles.


Lemma hls_url_requests_witness :
  (hls_url (H:=refusal_runtime) (PInt 0) (PInt 2020)
     (serve (body "{refusal}")) []).2 = []
  ∧ (hls_url (H:=refusal_runtime) (PInt 0) (PInt 2020)
       (serve (body "{refusal}")) []).1 = Ok PNone.
Proof.
  apply (hls_url_requests (H:=refusal_runtime) (PInt 0) (PInt 2020)
           (serve (body "{refusal}")) []).
Defined.

Lemma hls_url_unexpected_answers_witness :
  (hls_url (H:=silent_runtime) (PStr "avs-token") (PInt 2020)
     (serve (body "{silent}")) []).1
  = Raise (KeyError "errorDescription").
Proof.
  apply (proj1 (proj2 (hls_url_unexpected_answers (H:=silent_runtime)
                         (PStr "avs-token") (PInt 2020)
                         (serve (body "{silent}")) [] (body "{silent}")
                         {[ "resultObj" := PNone ]}
                         eq_refl eq_refl eq_refl)) PNone);
    reflexivity.
Defined.

Lemma sport_login_without_assertion_witness :
  sport_login (H:=soup_with "<form>" assertion_field) (PStr "s3ss10n")
    (sso_network "<html>Sign in</html>" avs_jar) []
  = (Raise TypeError,
     [{| rq_method := GET; rq_url := "https://samlfed.bt.com/sportgetfedwebhls";
         rq_params := []; rq_data := [];
         rq_cookies := [("SMSESSION", PStr "s3ss10n")] |}]).
Proof.
  apply (proj1 (sport_login_without_assertion
                  (parser:=soup_with "<form>" assertion_field)
                  (PStr "s3ss10n")
                  (sso_network "<html>Sign in</html>" avs_jar)
                  [] _ _ eq_refl)).
  reflexivity.
Defined.


End ChainExamples.

(** ** Programme guide *)

Section GuideFacts.
Import Py Net Strptime Widths Epg.
Local Open Scope Z_scope.

Lemma lower_zulu c : lower "Z" = lower c → c = "Z"%char ∨ c = "z"%char.
Proof.
  destruct c as [[] [] [] [] [] [] [] []]; vm_compute; intros Hc;
    first [discriminate | by left | by right].
Qed.

(** A text the UTC format matches completely is a text the format
    without the zone matches, followed by the letter Z. *)
Lemma utc_regex_inv s caps :
  re_match utc_regex s = Some (EmptyString, caps) →
  ∃ p c, s = p +:+ String c EmptyString
         ∧ (c = "Z"%char ∨ c = "z"%char)
         ∧ (14 <= String.length p <= 19)%nat.
Proof.
  unfold re_match.
  change (rmatch utc_regex s [] (fun s' caps' => Some (s', caps')))
    with (rmatch iso_regex s []
            (fun s1 caps1 =>
               rmatch (Lit "Z") s1 caps1 (fun s' caps' => Some (s', caps')))).
  intros Hm.
  destruct (rmatch_inv iso_regex _ _ _ _ Hm) as (p & s1 & caps1 & -> & Hw & Hz).
  cbn [rmatch] in Hz. destruct s1 as [|c s1]; [discriminate|].
  destruct (Ascii.eqb (lower "Z") (lower c)) eqn:Hc; [|discriminate].
  injection Hz as -> _. apply Ascii.eqb_eq, lower_zulu in Hc.
  by exists p, c.
Qed.

(** The literal character between two fields. *)
Ltac literal :=
  cbv beta; rewrite rmatch_seq, append_cons, rmatch_lit;
  cbv beta; change (EmptyString +:+ ?r) with r.

Lemma re_match_utc year month day hour minute second :
  Z.of_nat year < 10000 → (1 <= month <= 12)%nat → (1 <= day <= 31)%nat →
  (hour < 24)%nat → (minute < 60)%nat → (second < 60)%nat →
  re_match utc_regex (isoformat year month day hour minute second +:+ "Z")
  = Some (EmptyString,
          [("S", two_digits second); ("M", two_digits minute);
           ("H", two_digits hour); ("d", two_digits day);
           ("m", two_digits month); ("Y", four_digits year)]).
Proof.
  intros Hy Hm Hd HH HM HS.
  unfold re_match, utc_regex, isoformat. cbn [seqs].
  rewrite !append_assoc.
  rewrite rmatch_seq, rmatch_Y by assumption. literal.
  rewrite rmatch_seq. apply rmatch_m; [assumption|]. literal.
  rewrite rmatch_seq. apply rmatch_d; [assumption|]. literal.
  rewrite rmatch_seq. apply rmatch_H; [assumption|]. literal.
  rewrite rmatch_seq. apply rmatch_M; [assumption|]. literal.
  rewrite rmatch_seq. apply rmatch_S; [assumption|]. cbv beta.
  by rewrite rmatch_lit.
Qed.

Lemma utc_datetime_isoformat year month day hour minute second :
  valid_date (Z.of_nat year) (Z.of_nat month) (Z.of_nat day) = true →
  (hour < 24)%nat → (minute < 60)%nat → (second < 60)%nat →
  utc_datetime (isoformat year month day hour minute second +:+ "Z")
  = Ok (Z.of_nat year, Z.of_nat month, Z.of_nat day,
        Z.of_nat hour, Z.of_nat minute, Z.of_nat second).
Proof.
  intros Hdate HH HM HS.
  pose proof Hdate as Hvalid. unfold valid_date in Hvalid.
  repeat (apply andb_prop in Hvalid as [Hvalid ?]).
  pose proof (days_in_month_le (Z.of_nat year) (Z.of_nat month)).
  unfold utc_datetime.
  rewrite re_match_utc by lia.
  change (group_int _ "Y") with (decimal_from 0 (four_digits year)).
  change (group_int _ "m") with (decimal_from 0 (two_digits month)).
  change (group_int _ "d") with (decimal_from 0 (two_digits day)).
  change (group_int _ "H") with (decimal_from 0 (two_digits hour)).
  change (group_int _ "M") with (decimal_from 0 (two_digits minute)).
  change (group_int _ "S") with (decimal_from 0 (two_digits second)).
  rewrite decimal_four_digits, !decimal_two_digits by lia.
  rewrite Hdate. unfold valid_time.
  assert ((Z.of_nat hour <=? 23) = true) as -> by (apply Z.leb_le; lia).
  assert ((Z.of_nat minute <=? 59) = true) as -> by (apply Z.leb_le; lia).
  assert ((Z.of_nat second <=? 59) = true) as -> by (apply Z.leb_le; lia).
  assert ((0 <=? Z.of_nat hour) = true) as -> by (apply Z.leb_le; lia).
  assert ((0 <=? Z.of_nat minute) = true) as -> by (apply Z.leb_le; lia).
  assert ((0 <=? Z.of_nat second) = true) as -> by (apply Z.leb_le; lia).
  reflexivity.
Qed.

Context {tz : TimeZones}.

(** X21. Whatever [_localise] returns, it was given a string of 15 to
    20 characters that ends in the letter Z, and it returns a time of
    day: two digits below 24, a colon and two digits below 60.  A
    timestamp with fractional seconds or without the zone letter is
    not accepted. *)
Theorem localise_shape v zone r :
  _localise v zone = Done r →
  (∃ p c, v = PStr (p +:+ String c EmptyString)
          ∧ (c = "Z"%char ∨ c = "z"%char)
          ∧ (14 <= String.length p <= 19)%nat)
  ∧ (∃ h m, (h < 24)%nat ∧ (m < 60)%nat
            ∧ r = two_digits h +:+ ":" +:+ two_digits m).
Proof.
  destruct v as [| | | |s| | | |]; try discriminate.
  unfold _localise.
  destruct (utc_datetime s)
    as [[[[[[year month] day] hour] minute] second]|e] eqn:Ht; [|discriminate].
  cbn [std mbind outcome_bind obind].
  destruct (utcoffset zone _) as [offset|]; [|discriminate].
  destruct (_ || _); [discriminate|].
  destruct (_ <? 1900); [discriminate|].
  intros [= <-]. split.
  - unfold utc_datetime in Ht.
    destruct (re_match utc_regex s) as [[[|c rest] caps]|] eqn:Hm;
      try discriminate.
    destruct (utc_regex_inv _ _ Hm) as (p & c & -> & Hc & Hw).
    by exists p, c.
  - set (minutes := hour * 60 + minute + offset).
    pose proof (Z.mod_pos_bound minutes 1440 ltac:(lia)).
    exists (Z.to_nat (minutes mod 1440 / 60)),
           (Z.to_nat (minutes mod 1440 mod 60)).
    split; [|split; [|reflexivity]].
    + assert (minutes mod 1440 / 60 < 24)
        by (apply Z.div_lt_upper_bound; lia).
      assert (0 <= minutes mod 1440 / 60) by (apply Z.div_pos; lia).
      lia.
    + pose proof (Z.mod_pos_bound (minutes mod 1440) 60 ltac:(lia)). lia.
Qed.

(** X22. On a timestamp of an existing day between the years 1900 and
    9999, written with the zone letter, in a zone that is known,
    [_localise] prints the time of day of the zone: the UTC time of day
    moved by the offset of the zone and taken modulo one day, the
    seconds dropped. *)
Theorem localise_local_time (year month day hour minute second : nat)
    zone offset :
  valid_date (Z.of_nat year) (Z.of_nat month) (Z.of_nat day) = true →
  1900 < Z.of_nat year < 9999 →
  (hour < 24)%nat → (minute < 60)%nat → (second < 60)%nat →
  utcoffset zone (Z.of_nat year, Z.of_nat month, Z.of_nat day,
                  Z.of_nat hour, Z.of_nat minute, Z.of_nat second)
    = Some offset →
  ∃ h m : nat,
    (h < 24)%nat ∧ (m < 60)%nat
    ∧ Z.of_nat h * 60 + Z.of_nat m
      = (Z.of_nat hour * 60 + Z.of_nat minute + offset) mod 1440
    ∧ _localise (PStr (isoformat year month day hour minute second +:+ "Z")) zone
      = Done (two_digits h +:+ ":" +:+ two_digits m).
Proof.
  intros Hdate Hyear HH HM HS Hoffset.
  set (minutes := Z.of_nat hour * 60 + Z.of_nat minute + offset).
  pose proof (Z.mod_pos_bound minutes 1440 ltac:(lia)) as Hday.
  pose proof (Z.mod_pos_bound (minutes mod 1440) 60 ltac:(lia)) as Hminute.
  assert (0 <= minutes mod 1440 / 60 < 24) as Hhour.
  { split; [apply Z.div_pos; lia | apply Z.div_lt_upper_bound; lia]. }
  exists (Z.to_nat (minutes mod 1440 / 60)),
         (Z.to_nat (minutes mod 1440 mod 60)).
  split; [lia|]. split; [lia|]. split.
  - rewrite !Z2Nat.id by lia.
    pose proof (Z.div_mod (minutes mod 1440) 60 ltac:(lia)). lia.
  - unfold _localise. rewrite utc_datetime_isoformat by assumption.
    cbn [std mbind outcome_bind obind]. rewrite Hoffset.
    fold minutes.
    assert (1900 <= local_year (Z.of_nat year) (Z.of_nat month) (Z.of_nat day)
                      (minutes / 1440) <= 9999) as Hlocal.
    { unfold local_year.
      repeat match goal with |- context [if ?b then _ else _] => destruct b end;
        lia. }
    destruct (Z.ltb_spec (local_year (Z.of_nat year) (Z.of_nat month)
                            (Z.of_nat day) (minutes / 1440)) 1); [lia|].
    destruct (Z.ltb_spec 9999 (local_year (Z.of_nat year) (Z.of_nat month)
                                 (Z.of_nat day) (minutes / 1440))); [lia|].
    destruct (Z.ltb_spec (local_year (Z.of_nat year) (Z.of_nat month)
                            (Z.of_nat day) (minutes / 1440)) 1900); [lia|].
    reflexivity.
Qed.

Context {rt : Runtime}.

(** Once the feed is read, the generator is the loop over the channel
    at the index. *)
Lemma now_and_next_run index zone net log response log' feed channels_epg :
  requests_get "https://epg.cdn.vision.bt.com/JSON/all" [] [] net log
    = (Ok response, log') →
  json response = Ok feed →
  getitem feed "channels" = Ok channels_epg →
  _now_and_next index zone net log
  = match index_item channels_epg index with
    | Done channel_epg => (programs_of channel_epg zone ["now"; "next"], log')
    | Failed e => (([], Some e), log')
    end.
Proof.
  intros Hresponse Hjson Hchannels.
  unfold _now_and_next. rewrite Hresponse, Hjson.
  unfold mbind, outcome_bind. cbn [std obind]. rewrite Hchannels.
  reflexivity.
Qed.

(** X23. An index that is not below the number of channels of the
    feed, or below minus that number, makes [epg] raise [IndexError],
    after the one request for the feed. *)
Theorem epg_index_out_of_range index zone net log response log' feed
    (l : list pyval) :
  requests_get "https://epg.cdn.vision.bt.com/JSON/all" [] [] net log
    = (Ok response, log') →
  json response = Ok feed →
  getitem feed "channels" = Ok (PList l) →
  Z.of_nat (length l) <= index ∨ index < - Z.of_nat (length l) →
  epg index zone net log = (Failed IndexError, log').
Proof.
  intros Hresponse Hjson Hchannels Hrange.
  unfold epg.
  rewrite (now_and_next_run _ _ _ _ _ _ _ _ Hresponse Hjson Hchannels).
  cbn [index_item]. unfold nth_item.
  destruct (Z.ltb_spec index 0).
  - destruct (Z.ltb_spec (index + Z.of_nat (length l)) 0); [reflexivity|lia].
  - destruct (Z.ltb_spec index 0); [lia|].
    rewrite (proj2 (lookup_ge_None l (Z.to_nat index))) by lia.
    reflexivity.
Qed.

(** X24. A negative index counts the channels of the feed from the
    last one: [epg] of [-k] is [epg] of the number of channels less
    [k]. *)
Theorem epg_negative_index index zone net log response log' feed
    (l : list pyval) :
  requests_get "https://epg.cdn.vision.bt.com/JSON/all" [] [] net log
    = (Ok response, log') →
  json response = Ok feed →
  getitem feed "channels" = Ok (PList l) →
  - Z.of_nat (length l) <= index < 0 →
  epg index zone net log = epg (index + Z.of_nat (length l)) zone net log.
Proof.
  intros Hresponse Hjson Hchannels Hrange.
  unfold epg.
  rewrite !(now_and_next_run _ _ _ _ _ _ _ _ Hresponse Hjson Hchannels).
  cbn [index_item]. unfold nth_item.
  destruct (Z.ltb_spec index 0); [|lia].
  destruct (Z.ltb_spec (index + Z.of_nat (length l)) 0); [lia|].
  destruct (Z.ltb_spec (index + Z.of_nat (length l)) 0); [lia|].
  reflexivity.
Qed.

(** X25. When the channel at the index has the programmes [now] and
    [next], each with a title, a synopsis and a start that [_localise]
    accepts, [epg] returns both programmes, the current one first, with
    the titles and synopses of the feed and the localised starts; the
    feed is requested once. *)
Theorem epg_now_and_next index zone net log response log' feed
    (l : list pyval) channel_epg data1 title1 synopsis1 utc1 start1
    data2 title2 synopsis2 utc2 start2 :
  requests_get "https://epg.cdn.vision.bt.com/JSON/all" [] [] net log
    = (Ok response, log') →
  json response = Ok feed →
  getitem feed "channels" = Ok (PList l) →
  0 <= index → l !! Z.to_nat index = Some channel_epg →
  getitem channel_epg "now" = Ok data1 →
  getitem data1 "title" = Ok title1 →
  getitem data1 "synopsis" = Ok synopsis1 →
  getitem data1 "start" = Ok utc1 →
  _localise utc1 zone = Done start1 →
  getitem channel_epg "next" = Ok data2 →
  getitem data2 "title" = Ok title2 →
  getitem data2 "synopsis" = Ok synopsis2 →
  getitem data2 "start" = Ok utc2 →
  _localise utc2 zone = Done start2 →
  epg index zone net log
  = (Done (_EPG (_Program title1 synopsis1 start1)
                (_Program title2 synopsis2 start2)), log').
Proof.
  intros Hresponse Hjson Hchannels Hindex Hchannel
    Hnow Ht1 Hs1 Hu1 Hl1 Hnext Ht2 Hs2 Hu2 Hl2.
  unfold epg.
  rewrite (now_and_next_run _ _ _ _ _ _ _ _ Hresponse Hjson Hchannels).
  cbn [index_item]. unfold nth_item.
  destruct (Z.ltb_spec index 0); [lia|].
  destruct (Z.ltb_spec index 0); [lia|].
  rewrite Hchannel. cbn [programs_of]. unfold program_of.
  unfold mbind, outcome_bind.
  rewrite Hnow. cbn [std obind].
  rewrite Ht1. cbn [std obind]. rewrite Hs1. cbn [std obind].
  rewrite Hu1. cbn [std obind]. rewrite Hl1. cbn [obind].
  rewrite Hnext. cbn [std obind].
  rewrite Ht2. cbn [std obind]. rewrite Hs2. cbn [std obind].
  rewrite Hu2. cbn [std obind]. rewrite Hl2. reflexivity.
Qed.

End GuideFacts.

Section GuideExamples.
Import Py Net Strptime Epg Fixtures Doubles.
Local Open Scope Z_scope.

Lemma localise_shape_witness :
  (∃ p c, PStr "2021-06-01T18:30:00Z" = PStr (p +:+ String c EmptyString)
          ∧ (c = "Z"%char ∨ c = "z"%char)
          ∧ (14 <= String.length p <= 19)%nat)
  ∧ (∃ h m, (h < 24)%nat ∧ (m < 60)%nat
            ∧ "19:30" = two_digits h +:+ ":" +:+ two_digits m).
Proof.
  apply (localise_shape (tz:=zones) (PStr "2021-06-01T18:30:00Z")
           "Europe/London" "19:30").
  vm_compute. reflexivity.
Defined.

Lemma localise_local_time_witness :
  ∃ h m : nat,
    (h < 24)%nat ∧ (m < 60)%nat
    ∧ Z.of_nat h * 60 + Z.of_nat m = 30
    ∧ _localise (H0:=zones) (PStr "2021-06-01T23:30:00Z") "Europe/London"
      = Done (two_digits h +:+ ":" +:+ two_digits m).
Proof.
  apply (localise_local_time (tz:=zones) 2021 6 1 23 30 0 "Europe/London" 60);
    first [reflexivity | lia].
Defined.

Lemma epg_index_out_of_range_witness :
  epg (H:=feed_runtime) (H0:=zones) 2 "Europe/London" (serve (body "{feed}")) []
  = (Failed IndexError,
     [{| rq_method := GET; rq_url := "https://epg.cdn.vision.bt.com/JSON/all";
         rq_params := []; rq_data := []; rq_cookies := [] |}]).
Proof.
  apply (epg_index_out_of_range (tz:=zones) (rt:=feed_runtime) 2
           "Europe/London" (serve (body "{feed}")) [] (body "{feed}") _ feed
           [summer_evening; winter_evening] eq_refl eq_refl eq_refl).
  left. simpl. lia.
Defined.

Lemma epg_negative_index_witness :
  epg (H:=feed_runtime) (H0:=zones) (-1) "Europe/London"
    (serve (body "{feed}")) []
  = epg (H:=feed_runtime) (H0:=zones) 1 "Europe/London"
      (serve (body "{feed}")) [].
Proof.
  apply (epg_negative_index (tz:=zones) (rt:=feed_runtime) (-1)
           "Europe/London" (serve (body "{feed}")) [] (body "{feed}") _ feed
           [summer_evening; winter_evening] eq_refl eq_refl eq_refl).
  simpl. lia.
Defined.

Lemma epg_now_and_next_witness :
  epg (H:=feed_runtime) (H0:=zones) 0 "Europe/London" (serve (body "{feed}")) []
  = (Done (_EPG (_Program (PStr "Football") (PStr "Live coverage") "19:30")
                (_Program (PStr "Rugby") (PStr "Live coverage") "00:30")),
     [{| rq_method := GET; rq_url := "https://epg.cdn.vision.bt.com/JSON/all";
         rq_params := []; rq_data := []; rq_cookies := [] |}]).
Proof.
  apply (epg_now_and_next (tz:=zones) (rt:=feed_runtime) 0 "Europe/London"
           (serve (body "{feed}")) [] (body "{feed}") _ feed
           [summer_evening; winter_evening] summer_evening
           (programme "Football" "2021-06-01T18:30:00Z")
           (PStr "Football") (PStr "Live coverage")
           (PStr "2021-06-01T18:30:00Z") "19:30"
           (programme "Rugby" "2021-06-01T23:30:00Z")
           (PStr "Rugby") (PStr "Live coverage")
           (PStr "2021-06-01T23:30:00Z") "00:30"
           eq_refl eq_refl eq_refl);
    first [lia | vm_compute; reflexivity].
Defined.

End GuideExamples.

(** ** Round trips to the servers *)

Section RequestFacts.
Import Py Net Video Live Sso Epg.
Local Open Scope Z_scope.
Context {rt : Runtime} {parser : Soup} {tz : TimeZones}.

(** X26. Every entry point of the video module makes one round trip:
    whatever the server answers and whether the call returns or
    raises, [categories], [query_text], [video_results] and
    [search_results] add exactly one GET request to the log, nothing is
    retried. *)
Theorem video_calls_request_once net log path query term page page_size :
  (categories net log).2
  = log ++ [{| rq_method := GET; rq_url := CATEGORIES_URL; rq_params := [];
               rq_data := []; rq_cookies := [] |}]
  ∧ (query_text path net log).2
    = log ++ [{| rq_method := GET; rq_url := urljoin "http://sport.bt.com/" path;
                 rq_params := []; rq_data := []; rq_cookies := [] |}]
  ∧ (video_results query page page_size net log).2
    = log ++ [{| rq_method := GET; rq_url := API_URL;
                 rq_params :=
                   [("q", PStr "AssetType:(BTVideo)");
                    ("fq", PList [PStr "Publist:btsport"; query]);
                    ("sort", PStr "publicationdate desc");
                    ("wt", PStr "json");
                    ("start", PInt ((page - 1) * page_size));
                    ("rows", PInt page_size)];
                 rq_data := []; rq_cookies := [] |}]
  ∧ (search_results term page page_size net log).2
    = log ++ [{| rq_method := GET; rq_url := API_URL;
                 rq_params :=
                   [("q", PStr "AssetType:(BTVideo)");
                    ("fq", PList [PStr "Publist:btsport";
                                  PStr ("text:(" +:+ dq +:+ format_value term
                                          +:+ dq +:+ ")")]);
                    ("sort", PStr "publicationdate desc");
                    ("wt", PStr "json");
                    ("start", PInt ((page - 1) * page_size));
                    ("rows", PInt page_size)];
                 rq_data := []; rq_cookies := [] |}].
Proof.
  assert (∀ query,
            (video_results query page page_size net log).2
            = log ++ [{| rq_method := GET; rq_url := API_URL;
                         rq_params :=
                           [("q", PStr "AssetType:(BTVideo)");
                            ("fq", PList [PStr "Publist:btsport"; query]);
                            ("sort", PStr "publicationdate desc");
                            ("wt", PStr "json");
                            ("start", PInt ((page - 1) * page_size));
                            ("rows", PInt page_size)];
                         rq_data := []; rq_cookies := [] |}]) as Hresults.
  { intros q.
    unfold video_results, requests_get, send, mbind, IO_bind, io_bind, lift,
      mret, IO_ret, io_ret.
    simpl. destruct (net log _) as [response|e]; [|reflexivity]. simpl.
    repeat match goal with
           | |- context [match ?x with _ => _ end] =>
               destruct x; simpl; try reflexivity
           end. }
  repeat split.
  - unfold categories, requests_get, send, mbind, IO_bind, io_bind, lift.
    simpl. destruct (net log _) as [response|e]; [|reflexivity]. simpl.
    destruct (group1 _) as [group|e]; [|reflexivity]. simpl.
    by destruct (literal_eval group).
  - unfold query_text, requests_get, send, mbind, IO_bind, io_bind, lift.
    simpl. destruct (net log _) as [response|e]; [|reflexivity]. simpl.
    destruct (group1 _) as [group|e]; [|reflexivity]. simpl.
    by destruct (literal_eval group).
  - apply Hresults.
  - apply Hresults.
Qed.

(** X27. The round trips of the live module.  [login] posts once and
    [epg] gets the feed once, whatever comes back; [sport_login] gets
    the federation page and posts at most once after it, and only an
    assertion found in that page. *)
Theorem live_calls_request_once net log user password session index zone :
  (login user password net log).2
  = log ++ [{| rq_method := POST;
               rq_url := "https://signin1.bt.com/siteminderagent/forms/login.fcc";
               rq_params := [];
               rq_data := [("TARGET", PStr "https://home.bt.com/secure/");
                           ("USER", user); ("PASSWORD", password)];
               rq_cookies := [] |}]
  ∧ (epg index zone net log).2
    = log ++ [{| rq_method := GET;
                 rq_url := "https://epg.cdn.vision.bt.com/JSON/all";
                 rq_params := []; rq_data := []; rq_cookies := [] |}]
  ∧ let federation :=
      {| rq_method := GET; rq_url := "https://samlfed.bt.com/sportgetfedwebhls";
         rq_params := []; rq_data := [];
         rq_cookies := [("SMSESSION", session)] |} in
    (sport_login session net log).2 = log ++ [federation]
    ∨ ∃ page attrs assertion,
        net log federation = Ok page
        ∧ find_input (text page) "SAMLResponse" = Some attrs
        ∧ attrs !! "value" = Some assertion
        ∧ (sport_login session net log).2
          = log ++ [federation;
                    {| rq_method := POST;
                       rq_url := "https://be.avs.bt.com/AVS/besc";
                       rq_params := [("action", PStr "LoginBT");
                                     ("channel", PStr "WEBHLS")];
                       rq_data := [("SAMLResponse", PStr assertion)];
                       rq_cookies := [] |}].
Proof.
  split; [|split].
  - unfold login, requests_post, send, mbind, IO_bind, io_bind, mret, IO_ret,
      io_ret.
    simpl. by destruct (net log _).
  - unfold epg, _now_and_next, requests_get, send.
    destruct (net log _) as [response|e]; [|reflexivity].
    destruct (_ ≫= _) as [channel_epg|e]; [|reflexivity].
    destruct (programs_of channel_epg zone _) as [[|now [|next [|third rest]]] [e|]];
      reflexivity.
  - intros federation.
    unfold sport_login, requests_get, requests_post, send, mbind, IO_bind,
      io_bind, lift.
    fold federation.
    destruct (net log federation) as [page|e] eqn:Hpage; [|by left].
    destruct (find_input (text page) "SAMLResponse") as [attrs|] eqn:Hfind;
      [|by left].
    unfold tag_value.
    destruct (attrs !! "value") as [assertion|] eqn:Hvalue; [|by left].
    right. exists page, attrs, assertion.
    repeat split; try assumption.
    destruct (net (log ++ [federation]) _) as [response|e];
      by rewrite <- app_assoc.
Qed.

End RequestFacts.
